(** * WhatsApp Cloud API plugin: a shallow embedding of [client.ts] and [plugin.ts]

    The development follows the two classes of the repository:

    - [WhatsAppClient] (src/client.ts): configuration resolution, the
      phone-number normalisation, one method per Cloud API capability, the
      contact cache and the error enrichment of [handleApiError];
    - [WhatsAppPlugin] (src/plugin.ts): the static tool catalogue, the tool
      map with its exposed list [config.tools], the dispatcher and the
      parameter validation of each handler.

    JavaScript values are the JSON-like values the code inspects, strings are
    byte strings, numbers are integers together with [NaN].  Whatever lies
    outside the program (the HTTP transport, the file system, the clock, the
    process environment, [Number] on strings, the printing of numbers beyond
    the safe integers, the lower-casing of strings that are not ASCII) is
    gathered in a record [Env] over which every statement is quantified.  A method is a computation in
    a state-and-exception monad; the state holds the object's fields and a
    trace of the requests issued, the clock readings taken and the client
    methods entered.  Calls to [console] and to the framework's [logger] have
    no effect on any of this and are left out. *)

From Stdlib Require Import ZArith Lia Bool List String Ascii DecimalString.
From stdpp Require Import base gmap strings list.

Local Open Scope string_scope.
Local Open Scope Z_scope.
Local Set Warnings "-register-all".

(** ** JavaScript values *)

Inductive JsVal : Type :=
| JUndefined
| JNull
| JBool (b : bool)
| JNum (n : Z)
| JNaN
| JStr (s : string)
| JArr (items : list JsVal)
| JObj (props : list (string * JsVal)).

(** [!!v]: the values that are falsy are [undefined], [null], [false], [0],
    [NaN] and the empty string. *)
Definition truthy (v : JsVal) : bool :=
  match v with
  | JUndefined | JNull | JNaN => false
  | JBool b => b
  | JNum n => negb (n =? 0)
  | JStr s => negb (String.eqb s "")
  | JArr _ | JObj _ => true
  end.

(** [a || b] on values. *)
Definition js_or (a b : JsVal) : JsVal := if truthy a then a else b.

(** Own-property lookup in the property list of an object literal. *)
Fixpoint lookupProp (k : string) (props : list (string * JsVal)) : option JsVal :=
  match props with
  | [] => None
  | (k', v) :: rest => if String.eqb k k' then Some v else lookupProp k rest
  end.

(** [o[k] = v] on a property list: an existing key keeps its place, a new
    key goes last. *)
Fixpoint setProp (k : string) (v : JsVal) (props : list (string * JsVal))
  : list (string * JsVal) :=
  match props with
  | [] => [(k, v)]
  | (k', v') :: rest =>
      if String.eqb k k' then (k, v) :: rest else (k', v') :: setProp k v rest
  end.

(** [o[k] = v] with a computed key [k] and an object [v].  The key
    [__proto__] names the accessor of [Object.prototype]: the assignment
    replaces the prototype of [o] and creates no member.  Only the own
    members of an object are part of a request body, so [o] is then sent as
    it was. *)
Definition assignProp (k : string) (v : JsVal) (props : list (string * JsVal))
  : list (string * JsVal) :=
  if String.eqb k "__proto__" then props else setProp k v props.

Arguments assignProp : simpl never.

Definition isNullish (v : JsVal) : bool :=
  match v with JUndefined | JNull => true | _ => false end.

(** [v.k] where [v] is known not to be [undefined] or [null]: only objects
    carry the named properties the program reads ([messages], [id], [url],
    [error], ...); a primitive or an array answers [undefined]. *)
Definition getProp (v : JsVal) (k : string) : JsVal :=
  match v with
  | JObj props => default JUndefined (lookupProp k props)
  | _ => JUndefined
  end.

(** [v[0]]. *)
Definition index0 (v : JsVal) : JsVal :=
  match v with
  | JArr (x :: _) => x
  | JStr (String c _) => JStr (String c EmptyString)
  | JObj props => default JUndefined (lookupProp "0" props)
  | _ => JUndefined
  end.

(** ** The world outside the program *)

Record HttpResponse := { status : Z; data : JsVal }.

(** What a [throw] or a rejected promise carries: an [Error] built by the
    program, a [TypeError] raised by the runtime, the [AxiosError] of a failed
    request (with the response when the server answered), or any other
    value. *)
Inductive Thrown : Type :=
| Error (message : string)
| TypeError (message : string)
| AxiosError (response : option HttpResponse) (message : string)
| OtherThrown (v : JsVal).

(** [axios.isAxiosError(error)]. *)
Definition isAxiosError (e : Thrown) : bool :=
  match e with AxiosError _ _ => true | _ => false end.

(** [error instanceof Error]. *)
Definition instanceofError (e : Thrown) : bool :=
  match e with OtherThrown _ => false | _ => true end.

Inductive FormValue : Type :=
| FormText (s : string)
| FormFile (path : JsVal).

(** A request handed to the axios instance. *)
Inductive Request : Type :=
| Post (url : string) (body : JsVal)
| PostForm (url : string) (form : list (string * FormValue))
| Get (url : string)
| Patch (url : string) (body : JsVal).

Inductive HttpResult : Type :=
| Resolved (r : HttpResponse)
| Rejected (e : Thrown).

(** A number of the configuration: an integer or [NaN]. *)
Inductive JsNumber : Type :=
| NaN
| Num (n : Z).

Record Env := {
  (** the answer of the transport to the [n]-th request of the run *)
  httpRequest : nat -> Request -> HttpResult;
  (** [fs.existsSync] *)
  existsSync : string -> bool;
  (** the [n]-th reading of [Date.now()], in milliseconds *)
  dateNow : nat -> Z;
  (** [process.env] *)
  processEnv : string -> option string;
  (** [Number(s)] on a string *)
  stringToNumber : string -> JsNumber;
  (** [String(n)] for an integer [n] outside the safe range, where the
      digits printed are the shortest that round to the double *)
  unsafeNumberToString : Z -> string;
  (** [s.toLowerCase()] for a string [s] that is not all ASCII, where the
      case mapping is that of Unicode *)
  unicodeToLowerCase : string -> string
}.

(** ** Strings *)

Definition dquote : string := String (ascii_of_nat 34) EmptyString.

(** [Number.isSafeInteger(n)]: the integers every one of which is a double
    of its own. *)
Definition isSafeInteger (n : Z) : bool := Z.abs n <? 2 ^ 53.

Definition decimal (n : Z) : string := NilZero.string_of_int (Z.to_int n).

(** [String(n)]: a safe integer prints as its decimal digits; beyond, the
    host prints the shortest digits that identify the double, in exponent
    form from [1e21] on. *)
Definition numberToString (env : Env) (n : Z) : string :=
  if isSafeInteger n then decimal n else unsafeNumberToString env n.

(** [hay.includes(needle)]. *)
Fixpoint includes (needle hay : string) : bool :=
  String.prefix needle hay ||
  match hay with
  | EmptyString => false
  | String _ rest => includes needle rest
  end.

(** [s.startsWith('+')]. *)
Definition startsWithPlus (s : string) : bool :=
  match s with
  | String c _ => Ascii.eqb c "+"%char
  | EmptyString => false
  end.

(** [s.substring(n)]. *)
Fixpoint substringFrom (n : nat) (s : string) : string :=
  match n, s with
  | O, _ => s
  | S n', String _ rest => substringFrom n' rest
  | S _, EmptyString => EmptyString
  end.

(** The class [\d]: the ten ASCII digits. *)
Definition isDigit (c : ascii) : bool :=
  let n := N_of_ascii c in ((48 <=? n) && (n <=? 57))%N.

(** [s.replace(/\D/g, '')]: every character outside [\d] is dropped. *)
Fixpoint stripNonDigits (s : string) : string :=
  match s with
  | EmptyString => EmptyString
  | String c rest =>
      if isDigit c then String c (stripNonDigits rest) else stripNonDigits rest
  end.

(** [WhatsAppClient.formatPhoneNumber] (client.ts, lines 461-469). *)
Definition formatPhoneNumber (phoneNumber : string) : string :=
  if startsWithPlus phoneNumber then substringFrom 1 phoneNumber
  else stripNonDigits phoneNumber.

Definition allDigits (s : string) : Prop :=
  Forall (fun c => isDigit c = true) (list_ascii_of_string s).

(** [s.toLowerCase()].  On a string of ASCII characters it maps [A-Z] to
    [a-z] and keeps every other character; a string with a byte outside
    ASCII is lower-cased by the host. *)
Definition lowerAscii (c : ascii) : ascii :=
  let n := N_of_ascii c in
  if ((65 <=? n) && (n <=? 90))%N then ascii_of_N (n + 32) else c.

Fixpoint asciiToLowerCase (s : string) : string :=
  match s with
  | EmptyString => EmptyString
  | String c rest => String (lowerAscii c) (asciiToLowerCase rest)
  end.

Fixpoint isAscii (s : string) : bool :=
  match s with
  | EmptyString => true
  | String c rest => (N_of_ascii c <? 128)%N && isAscii rest
  end.

Definition toLowerCase (env : Env) (s : string) : string :=
  if isAscii s then asciiToLowerCase s else unicodeToLowerCase env s.

Arguments toLowerCase : simpl never.

(** [s.replace(pat, '')] with a string pattern: the first occurrence of
    [pat] is removed. *)
Fixpoint removeFirst (pat s : string) : string :=
  if String.prefix pat s then substringFrom (String.length pat) s
  else match s with
       | EmptyString => EmptyString
       | String c rest => String c (removeFirst pat rest)
       end.

(** [ToString(v)], as a template literal applies it.  An array prints its
    elements separated by commas, [undefined] and [null] elements printing
    as nothing.  A plain object prints as [[object Object]] through the
    inherited [toString]; when it has an own (hence non-callable) property
    [toString] the conversion raises a [TypeError], rendered by [None]. *)
Fixpoint toStringOpt (env : Env) (v : JsVal) : option string :=
  match v with
  | JUndefined => Some "undefined"
  | JNull => Some "null"
  | JBool true => Some "true"
  | JBool false => Some "false"
  | JNum n => Some (numberToString env n)
  | JNaN => Some "NaN"
  | JStr s => Some s
  | JArr items =>
      (fix join (l : list JsVal) : option string :=
         match l with
         | [] => Some ""
         | x :: rest =>
             match (if isNullish x then Some "" else toStringOpt env x) with
             | None => None
             | Some sx =>
                 match rest with
                 | [] => Some sx
                 | _ :: _ =>
                     match join rest with
                     | None => None
                     | Some sr => Some (sx +:+ "," +:+ sr)
                     end
                 end
             end
         end) items
  | JObj props =>
      match lookupProp "toString" props with
      | Some _ => None
      | None => Some "[object Object]"
      end
  end.

(** ** The effect monad *)

Inductive Outcome (A : Type) : Type :=
| Return (a : A)
| Throw (e : Thrown).
Arguments Return {A} a.
Arguments Throw {A} e.

(** A computation over a mutable state [S] that returns or throws; the
    state changes made before a [throw] persist. *)
Definition Eff (S A : Type) : Type := S -> Outcome A * S.

Definition ret {S A} (a : A) : Eff S A := fun s => (Return a, s).

Definition throw {S A} (e : Thrown) : Eff S A := fun s => (Throw e, s).

Definition bind {S A B} (m : Eff S A) (k : A -> Eff S B) : Eff S B :=
  fun s =>
    match m s with
    | (Return a, s') => k a s'
    | (Throw e, s') => (Throw e, s')
    end.

(** [try { body } catch (error) { handler(error) }]. *)
Definition tryCatch {S A} (body : Eff S A) (handler : Thrown -> Eff S A) : Eff S A :=
  fun s =>
    match body s with
    | (Return a, s') => (Return a, s')
    | (Throw e, s') => handler e s'
    end.

Definition getState {S} : Eff S S := fun s => (Return s, s).

Definition modifyState {S} (f : S -> S) : Eff S unit := fun s => (Return tt, f s).

Declare Scope eff_scope.
Delimit Scope eff_scope with eff.
Notation "x <- m ;; k" := (bind m (fun x => k))
  (at level 100, m at next level, right associativity) : eff_scope.
Notation "m ;;; k" := (bind m (fun _ => k))
  (at level 100, right associativity) : eff_scope.
Local Open Scope eff_scope.

(** A template-literal hole [${v}]. *)
Definition template {S} (env : Env) (v : JsVal) : Eff S string :=
  match toStringOpt env v with
  | Some s => ret s
  | None => throw (TypeError "Cannot convert object to primitive value")
  end.

(** [v.k] for an arbitrary [v]: reading a property of [undefined] or [null]
    raises a [TypeError]. *)
Definition nullishName (v : JsVal) : string :=
  match v with JNull => "null" | _ => "undefined" end.

Definition readProp {S} (v : JsVal) (k : string) : Eff S JsVal :=
  if isNullish v
  then throw (TypeError ("Cannot read properties of " +:+ nullishName v
                         +:+ " (reading '" +:+ k +:+ "')"))
  else ret (getProp v k).

(** ** The trace of a run *)

(** The observable trace of a run: the requests issued so far (oldest
    first), the number of clock readings, and the client methods entered. *)
Record World := {
  requests : list Request;
  ticks : nat;
  calls : list string
}.

Definition emptyWorld : World := {| requests := []; ticks := O; calls := [] |}.

(** ** Configuration and client state (types.ts, client.ts lines 24-28) *)

Record WhatsAppConfig := {
  apiVersion : option string;
  apiToken : option string;
  phoneNumberId : option string;
  businessAccountId : option string;
  cacheMessageSeconds : option JsNumber;
  cacheContactSeconds : option JsNumber;
  requestTimeout : option JsNumber
}.

Record WhatsAppContact := {
  id : string;
  name : option string;
  isBusiness : option bool;
  profilePictureUrl : option string
}.

Record CacheEntry := {
  entry_data : WhatsAppContact;
  timestamp : Z
}.

Record AxiosInstance := {
  baseURL : string;
  timeout : option JsNumber;
  headers : list (string * string)
}.

Record Client := {
  apiInstance : AxiosInstance;
  config : WhatsAppConfig;
  messageCache : gmap string JsVal;
  contactCache : gmap string CacheEntry
}.

(** The state a client method runs in: the client object and the world. *)
Record ClientState := {
  this : Client;
  world : World
}.

(** [a || b] on optional strings: [undefined] and the empty string are
    falsy. *)
Definition strTruthy (a : option string) : bool :=
  match a with
  | Some s => negb (String.eqb s "")
  | None => false
  end.

Definition orStr (a b : option string) : option string :=
  if strTruthy a then a else b.

(** [a || b] on an optional number and a number: [undefined], [0] and [NaN]
    are falsy. *)
Definition numTruthy (a : option JsNumber) : bool :=
  match a with
  | Some (Num n) => negb (n =? 0)
  | _ => false
  end.

Definition orNum (a : option JsNumber) (b : JsNumber) : option JsNumber :=
  if numTruthy a then a else Some b.

(** A template hole over an optional string. *)
Definition showStr (a : option string) : string := default "undefined" a.

Definition contactToJs (c : WhatsAppContact) : JsVal :=
  JObj [("id", JStr (id c));
        ("name", from_option JStr JUndefined (name c));
        ("isBusiness", from_option JBool JUndefined (isBusiness c));
        ("profilePictureUrl", from_option JStr JUndefined (profilePictureUrl c))].

Definition Params : Type := list (string * JsVal).

(** [params.k]. *)
Definition param (params : Params) (k : string) : JsVal :=
  default JUndefined (lookupProp k params).

(** The parameter [k] is absent from the record. *)
Definition absent (k : string) (params : Params) : Prop := lookupProp k params = None.

(** [o.k = v] where [o] holds an object. *)
Definition setField (k : string) (v : JsVal) (o : JsVal) : JsVal :=
  match o with
  | JObj props => JObj (setProp k v props)
  | _ => o
  end.

(** [{...base, ...extra}]: the properties of [extra] are written in order. *)
Definition spread (base extra : list (string * JsVal)) : list (string * JsVal) :=
  fold_left (fun acc kv => setProp (fst kv) (snd kv) acc) extra base.

(** ** The API client (client.ts) *)

Section WhatsAppClient.

Variable env : Env.

(** [WhatsAppClient.constructor] (lines 34-64): resolution of the
    configuration, validation of the credentials, creation of the axios
    instance.  The outcome is the new client or the thrown error. *)
Definition resolveConfig (cfg : option WhatsAppConfig) : WhatsAppConfig :=
  let field {A} (f : WhatsAppConfig -> option A) : option A :=
    match cfg with Some c => f c | None => None end in
  let envNumber (key fallback : string) : JsNumber :=
    stringToNumber env (default fallback (orStr (processEnv env key) (Some fallback))) in
  {| apiVersion :=
       orStr (orStr (field apiVersion) (processEnv env "WHATSAPP_API_VERSION")) (Some "v17.0");
     apiToken := orStr (field apiToken) (processEnv env "WHATSAPP_API_TOKEN");
     phoneNumberId := orStr (field phoneNumberId) (processEnv env "WHATSAPP_PHONE_NUMBER_ID");
     businessAccountId :=
       orStr (field businessAccountId) (processEnv env "WHATSAPP_BUSINESS_ACCOUNT_ID");
     cacheMessageSeconds :=
       orNum (field cacheMessageSeconds) (envNumber "CACHE_MESSAGE_SECONDS" "300");
     cacheContactSeconds :=
       orNum (field cacheContactSeconds) (envNumber "CACHE_CONTACT_SECONDS" "3600");
     requestTimeout :=
       orNum (field requestTimeout) (envNumber "DEFAULT_REQUEST_TIMEOUT" "30000") |}.

Definition newWhatsAppClient (cfg : option WhatsAppConfig) : Outcome Client :=
  let resolved := resolveConfig cfg in
  if negb (strTruthy (apiToken resolved)) then
    Throw (Error "WhatsApp API token is required")
  else if negb (strTruthy (phoneNumberId resolved)) then
    Throw (Error "WhatsApp phone number ID is required")
  else
    Return {| apiInstance :=
                {| baseURL := "https://graph.facebook.com/" +:+ showStr (apiVersion resolved);
                   timeout := requestTimeout resolved;
                   headers := [("Authorization", "Bearer " +:+ showStr (apiToken resolved));
                               ("Content-Type", "application/json")] |};
              config := resolved;
              messageCache := ∅;
              contactCache := ∅ |}.

(** [isConfigured] (lines 70-72). *)
Definition isConfigured (c : Client) : bool :=
  strTruthy (apiToken (config c)) && strTruthy (phoneNumberId (config c)).

(** Entering a client method leaves a mark in the trace. *)
Definition enter (method : string) : Eff ClientState unit :=
  modifyState (fun s =>
    {| this := this s;
       world := {| requests := requests (world s);
                   ticks := ticks (world s);
                   calls := calls (world s) ++ [method] |} |}).

(** One request through [this.apiInstance]: it is recorded, and the
    transport resolves it or rejects it. *)
Definition send (req : Request) : Eff ClientState HttpResponse :=
  fun s =>
    let w := world s in
    let s' := {| this := this s;
                 world := {| requests := requests w ++ [req];
                             ticks := ticks w;
                             calls := calls w |} |} in
    match httpRequest env (length (requests w)) req with
    | Resolved r => (Return r, s')
    | Rejected e => (Throw e, s')
    end.

(** [Date.now()]. *)
Definition now : Eff ClientState Z :=
  fun s =>
    let w := world s in
    (Return (dateNow env (ticks w)),
     {| this := this s;
        world := {| requests := requests w; ticks := S (ticks w); calls := calls w |} |}).

Definition getConfig : Eff ClientState WhatsAppConfig :=
  fun s => (Return (config (this s)), s).

(** [this.formatPhoneNumber(v)] on an argument that need not be a string:
    anything else has no [startsWith] method. *)
Definition formatPhoneNumberOf (v : JsVal) : Eff ClientState string :=
  match v with
  | JStr s => ret (formatPhoneNumber s)
  | JUndefined | JNull =>
      throw (TypeError ("Cannot read properties of " +:+ nullishName v
                        +:+ " (reading 'startsWith')"))
  | _ => throw (TypeError "phoneNumber.startsWith is not a function")
  end.

(** [handleApiError] (lines 476-505).  It never returns: it throws either
    the composed error or the error it was given. *)
Definition composeErrorMessage (message : string) (r : HttpResponse)
  : Eff ClientState string :=
  let statusCode := status r in
  let responseData := data r in
  let errorMsg := message +:+ ": HTTP " +:+ numberToString env statusCode in
  if truthy responseData && truthy (getProp responseData "error") then
    let err := getProp responseData "error" in
    let code := getProp err "code" in
    let apiMessage := getProp err "message" in
    let error_subcode := getProp err "error_subcode" in
    let error_user_title := getProp err "error_user_title" in
    let error_user_msg := getProp err "error_user_msg" in
    sCode <- template env (js_or code (JStr "")) ;;
    sMessage <- template env (js_or apiMessage (JStr "")) ;;
    let errorMsg := errorMsg +:+ " - " +:+ sCode +:+ ": " +:+ sMessage in
    errorMsg <-
      (if truthy error_subcode then
         sSub <- template env error_subcode ;;
         ret (errorMsg +:+ " (subcode: " +:+ sSub +:+ ")")
       else ret errorMsg) ;;
    (if truthy error_user_title || truthy error_user_msg then
       sTitle <- template env (js_or error_user_title (JStr "")) ;;
       sMsg <- template env (js_or error_user_msg (JStr "")) ;;
       ret (errorMsg +:+ " - " +:+ sTitle +:+ ": " +:+ sMsg)
     else ret errorMsg)
  else ret errorMsg.

Definition handleApiError (message : string) (error : Thrown) : Eff ClientState unit :=
  match error with
  | AxiosError (Some r) _ =>
      errorMsg <- composeErrorMessage message r ;;
      throw (Error errorMsg)
  | _ => throw error
  end.

(** The [catch] block shared by every network method:
    [this.handleApiError(message, error); throw error;]. *)
Definition catchApiError {A} (message : string) (error : Thrown) : Eff ClientState A :=
  handleApiError message error ;;; throw error.

(** The tail shared by the five send methods: the id of the first entry of
    [response.data.messages], or the empty string.  [lengthPositive] is
    [messages.length > 0]. *)
Definition numPositive (n : JsNumber) : bool :=
  match n with
  | Num z => 0 <? z
  | NaN => false
  end.

Definition gtZero (v : JsVal) : Eff ClientState bool :=
  match v with
  | JNum n => ret (0 <? n)
  | JBool b => ret b
  | JUndefined | JNull | JNaN => ret false
  | JStr s => ret (numPositive (stringToNumber env s))
  | JArr _ | JObj _ =>
      s <- template env v ;;
      ret (numPositive (stringToNumber env s))
  end.

Definition lengthPositive (v : JsVal) : Eff ClientState bool :=
  match v with
  | JArr items => ret (negb (Nat.eqb (length items) 0))
  | JStr s => ret (negb (Nat.eqb (String.length s) 0))
  | JObj props => gtZero (default JUndefined (lookupProp "length" props))
  | _ => ret false
  end.

Definition firstMessageId (response : HttpResponse) : Eff ClientState JsVal :=
  let messages := getProp (data response) "messages" in
  if truthy (data response) && truthy messages then
    nonEmpty <- lengthPositive messages ;;
    if (nonEmpty : bool) then readProp (index0 messages) "id"
    else ret (JStr "")
  else ret (JStr "").

Definition messagesUrl : Eff ClientState string :=
  cfg <- getConfig ;;
  ret ("/" +:+ showStr (phoneNumberId cfg) +:+ "/messages").

(** [sendMessage] (lines 80-106). *)
Definition client_sendMessage (to message : JsVal) : Eff ClientState JsVal :=
  enter "sendMessage" ;;;
  formattedNumber <- formatPhoneNumberOf to ;;
  tryCatch
    (url <- messagesUrl ;;
     response <- send (Post url
       (JObj [("messaging_product", JStr "whatsapp");
              ("recipient_type", JStr "individual");
              ("to", JStr formattedNumber);
              ("type", JStr "text");
              ("text", JObj [("body", message)])])) ;;
     firstMessageId response)
    (catchApiError "Error sending message").

(** [sendTemplateMessage] (lines 113-149). *)
Definition client_sendTemplateMessage (options : Params) : Eff ClientState JsVal :=
  enter "sendTemplateMessage" ;;;
  formattedNumber <- formatPhoneNumberOf (param options "to") ;;
  tryCatch
    (let template0 :=
       [("name", param options "templateName");
        ("language", JObj [("code", param options "language")])] in
     let components := param options "components" in
     hasComponents <-
       (if truthy components then lengthPositive components else ret false) ;;
     let template1 :=
       if (hasComponents : bool) then setProp "components" components template0
       else template0 in
     let payload :=
       JObj [("messaging_product", JStr "whatsapp");
             ("recipient_type", JStr "individual");
             ("to", JStr formattedNumber);
             ("type", JStr "template");
             ("template", JObj template1)] in
     url <- messagesUrl ;;
     response <- send (Post url payload) ;;
     firstMessageId response)
    (catchApiError "Error sending template message").

(** [uploadMedia] (lines 372-401). *)
Definition existsSyncOf (path : JsVal) : bool :=
  match path with
  | JStr s => existsSync env s
  | _ => false
  end.

Definition client_uploadMedia (filePath : JsVal) : Eff ClientState JsVal :=
  enter "uploadMedia" ;;;
  if negb (existsSyncOf filePath) then
    shown <- template env filePath ;;
    throw (Error ("File not found: " +:+ shown))
  else
    tryCatch
      (cfg <- getConfig ;;
       response <- send (PostForm ("/" +:+ showStr (phoneNumberId cfg) +:+ "/media")
                           [("messaging_product", FormText "whatsapp");
                            ("file", FormFile filePath)]) ;;
       if truthy (data response) && truthy (getProp (data response) "id")
       then ret (getProp (data response) "id")
       else throw (Error "Failed to upload media: No media ID received"))
      (catchApiError "Error uploading media").

(** [options.type.toLowerCase()]. *)
Definition toLowerCaseOf (v : JsVal) : Eff ClientState string :=
  match v with
  | JStr s => ret (toLowerCase env s)
  | JUndefined | JNull =>
      throw (TypeError ("Cannot read properties of " +:+ nullishName v
                        +:+ " (reading 'toLowerCase')"))
  | _ => throw (TypeError "options.type.toLowerCase is not a function")
  end.

(** [sendMedia] (lines 156-208). *)
Definition client_sendMedia (options : Params) : Eff ClientState JsVal :=
  enter "sendMedia" ;;;
  formattedNumber <- formatPhoneNumberOf (param options "to") ;;
  mediaType <- toLowerCaseOf (param options "type") ;;
  tryCatch
    (mediaId <-
       (if truthy (param options "filePath")
        then client_uploadMedia (param options "filePath")
        else ret JUndefined) ;;
     let payload :=
       [("messaging_product", JStr "whatsapp");
        ("recipient_type", JStr "individual");
        ("to", JStr formattedNumber);
        ("type", JStr mediaType)] in
     media <-
       (if truthy mediaId then ret (JObj [("id", mediaId)])
        else if truthy (param options "url")
             then ret (JObj [("link", param options "url")])
             else throw (Error "Either filePath or url must be provided")) ;;
     let media :=
       if truthy (param options "caption")
       then setField "caption" (param options "caption") media else media in
     let media :=
       if String.eqb mediaType "document" && truthy (param options "filename")
       then setField "filename" (param options "filename") media else media in
     let payload := assignProp mediaType media payload in
     url <- messagesUrl ;;
     response <- send (Post url (JObj payload)) ;;
     firstMessageId response)
    (catchApiError "Error sending media message").

(** [sendInteractiveMessage] (lines 215-257). *)
Definition client_sendInteractiveMessage (options : Params) : Eff ClientState JsVal :=
  enter "sendInteractiveMessage" ;;;
  formattedNumber <- formatPhoneNumberOf (param options "to") ;;
  tryCatch
    (let interactive :=
       [("type", param options "type"); ("body", param options "body")] in
     let interactive :=
       if truthy (param options "header")
       then setProp "header" (param options "header") interactive else interactive in
     let interactive :=
       if truthy (param options "footer")
       then setProp "footer" (param options "footer") interactive else interactive in
     let interactive := setProp "action" (param options "action") interactive in
     let payload :=
       JObj [("messaging_product", JStr "whatsapp");
             ("recipient_type", JStr "individual");
             ("to", JStr formattedNumber);
             ("type", JStr "interactive");
             ("interactive", JObj interactive)] in
     url <- messagesUrl ;;
     response <- send (Post url payload) ;;
     firstMessageId response)
    (catchApiError "Error sending interactive message").

(** [sendLocation] (lines 264-303). *)
Definition client_sendLocation (options : Params) : Eff ClientState JsVal :=
  enter "sendLocation" ;;;
  formattedNumber <- formatPhoneNumberOf (param options "to") ;;
  tryCatch
    (let location :=
       [("latitude", param options "latitude");
        ("longitude", param options "longitude")] in
     let location :=
       if truthy (param options "name")
       then setProp "name" (param options "name") location else location in
     let location :=
       if truthy (param options "address")
       then setProp "address" (param options "address") location else location in
     let payload :=
       JObj [("messaging_product", JStr "whatsapp");
             ("recipient_type", JStr "individual");
             ("to", JStr formattedNumber);
             ("type", JStr "location");
             ("location", JObj location)] in
     url <- messagesUrl ;;
     response <- send (Post url payload) ;;
     firstMessageId response)
    (catchApiError "Error sending location message").

(** [markMessageAsRead] (lines 310-326). *)
Definition client_markMessageAsRead (messageId : JsVal) : Eff ClientState JsVal :=
  enter "markMessageAsRead" ;;;
  tryCatch
    (url <- messagesUrl ;;
     send (Post url
       (JObj [("messaging_product", JStr "whatsapp");
              ("status", JStr "read");
              ("message_id", messageId)])) ;;;
     ret (JBool true))
    (catchApiError "Error marking message as read").

(** [getBusinessProfile] (lines 332-343). *)
Definition client_getBusinessProfile : Eff ClientState JsVal :=
  enter "getBusinessProfile" ;;;
  tryCatch
    (cfg <- getConfig ;;
     response <- send (Get ("/" +:+ showStr (phoneNumberId cfg)
                            +:+ "/whatsapp_business_profile")) ;;
     records <- readProp (data response) "data" ;;
     (if isNullish records
      then first <- readProp records "0" ;; ret first
      else ret (js_or (index0 records) (JObj []))))
    (catchApiError "Error getting business profile").

(** [updateBusinessProfile] (lines 350-365). *)
Definition client_updateBusinessProfile (profileData : Params) : Eff ClientState JsVal :=
  enter "updateBusinessProfile" ;;;
  tryCatch
    (cfg <- getConfig ;;
     send (Patch ("/" +:+ showStr (phoneNumberId cfg) +:+ "/whatsapp_business_profile")
             (JObj (spread [("messaging_product", JStr "whatsapp")] profileData))) ;;;
     ret (JBool true))
    (catchApiError "Error updating business profile").

(** [getMediaUrl] (lines 408-421). *)
Definition client_getMediaUrl (mediaId : JsVal) : Eff ClientState JsVal :=
  enter "getMediaUrl" ;;;
  tryCatch
    (shown <- template env mediaId ;;
     response <- send (Get ("/" +:+ shown)) ;;
     if truthy (data response) && truthy (getProp (data response) "url")
     then ret (getProp (data response) "url")
     else throw (Error "Failed to get media URL"))
    (catchApiError "Error getting media URL").

(** [getContactInfo] (lines 428-454).  [isFresh age ttl] is
    [age < ttl * 1000], false when [ttl] is [NaN] or missing. *)
Definition isFresh (age : Z) (ttl : option JsNumber) : bool :=
  match ttl with
  | Some (Num seconds) => age <? seconds * 1000
  | _ => false
  end.

Definition cacheGet (key : string) : Eff ClientState (option CacheEntry) :=
  fun s => (Return (contactCache (this s) !! key), s).

Definition cacheSet (key : string) (entry : CacheEntry) : Eff ClientState unit :=
  modifyState (fun s =>
    {| this := {| apiInstance := apiInstance (this s);
                  config := config (this s);
                  messageCache := messageCache (this s);
                  contactCache := <[key := entry]> (contactCache (this s)) |};
       world := world s |}).

Definition placeholderContact (formattedNumber : string) : WhatsAppContact :=
  {| id := formattedNumber;
     name := None;
     isBusiness := None;
     profilePictureUrl := None |}.

Definition client_getContactInfo (phoneNumber : JsVal) : Eff ClientState WhatsAppContact :=
  enter "getContactInfo" ;;;
  formattedNumber <- formatPhoneNumberOf phoneNumber ;;
  let cacheKey := "contact_" +:+ formattedNumber in
  cachedContact <- cacheGet cacheKey ;;
  hit <-
    match cachedContact with
    | Some entry =>
        t <- now ;;
        cfg <- getConfig ;;
        ret (isFresh (t - timestamp entry) (cacheContactSeconds cfg))
    | None => ret false
    end ;;
  match cachedContact, (hit : bool) with
  | Some entry, true => ret (entry_data entry)
  | _, _ =>
      let contact := placeholderContact formattedNumber in
      t <- now ;;
      cacheSet cacheKey {| entry_data := contact; timestamp := t |} ;;;
      ret contact
  end.

(** The public operations of the client, for statements about arbitrary
    call sequences. *)
Inductive ClientOp : Type :=
| OpSendMessage (to message : JsVal)
| OpSendTemplateMessage (options : Params)
| OpSendMedia (options : Params)
| OpSendInteractiveMessage (options : Params)
| OpSendLocation (options : Params)
| OpMarkMessageAsRead (messageId : JsVal)
| OpGetBusinessProfile
| OpUpdateBusinessProfile (profileData : Params)
| OpUploadMedia (filePath : JsVal)
| OpGetMediaUrl (mediaId : JsVal)
| OpGetContactInfo (phoneNumber : JsVal).

Definition isGetContactInfo (op : ClientOp) : bool :=
  match op with OpGetContactInfo _ => true | _ => false end.

(** One operation as a computation; a contact is handed out as the object
    it is. *)
Definition performClientOp (op : ClientOp) : Eff ClientState JsVal :=
  match op with
  | OpSendMessage to message => client_sendMessage to message
  | OpSendTemplateMessage options => client_sendTemplateMessage options
  | OpSendMedia options => client_sendMedia options
  | OpSendInteractiveMessage options => client_sendInteractiveMessage options
  | OpSendLocation options => client_sendLocation options
  | OpMarkMessageAsRead messageId => client_markMessageAsRead messageId
  | OpGetBusinessProfile => client_getBusinessProfile
  | OpUpdateBusinessProfile profileData => client_updateBusinessProfile profileData
  | OpUploadMedia filePath => client_uploadMedia filePath
  | OpGetMediaUrl mediaId => client_getMediaUrl mediaId
  | OpGetContactInfo phoneNumber =>
      contact <- client_getContactInfo phoneNumber ;;
      ret (contactToJs contact)
  end.

(** Running one operation, whatever it returns or throws, yields the next
    state. *)
Definition runClientOp (op : ClientOp) (s : ClientState) : ClientState :=
  snd (performClientOp op s).

Definition runClientOps (ops : list ClientOp) (s : ClientState) : ClientState :=
  fold_left (fun acc op => runClientOp op acc) ops s.

End WhatsAppClient.

(** ** The plugin adapter (plugin.ts) *)

Record PropertySchema := {
  prop_type : string;
  prop_description : string
}.

Record Manifest := {
  manifest_name : string;
  manifest_description : string;
  properties : list (string * PropertySchema);
  required : option (list string)
}.

Record ToolParameterSchema := {
  schema_name : string;
  schema_type : string;
  schema_description : string;
  schema_required : bool
}.

(** The [execute] closure of a tool: the one [initializeTools] builds for a
    manifest (it remembers the manifest name and reads the plugin's current
    client), or the closure of a tool registered from outside, whose result
    depends on its parameters only. *)
Inductive Execute : Type :=
| ManifestExecute (manifestName : string)
| ExternalExecute (run : Params -> Outcome JsVal).

Record Plugin := {
  tool_name : string;
  tool_description : string;
  parameters : list ToolParameterSchema;
  execute : Execute
}.

(** A JavaScript [Map] with string keys: the entries in insertion order. *)
Definition JsMap (V : Type) : Type := list (string * V).

Fixpoint mapGet {V} (k : string) (m : JsMap V) : option V :=
  match m with
  | [] => None
  | (k', v) :: rest => if String.eqb k k' then Some v else mapGet k rest
  end.

Definition mapHas {V} (k : string) (m : JsMap V) : bool :=
  match mapGet k m with Some _ => true | None => false end.

(** [m.set(k, v)]: an existing key keeps its position. *)
Fixpoint mapSet {V} (k : string) (v : V) (m : JsMap V) : JsMap V :=
  match m with
  | [] => [(k, v)]
  | (k', v') :: rest =>
      if String.eqb k k' then (k, v) :: rest else (k', v') :: mapSet k v rest
  end.

(** [m.delete(k)]: the map without the entry of [k]. *)
Fixpoint mapDelete {V} (k : string) (m : JsMap V) : JsMap V :=
  match m with
  | [] => []
  | (k', v) :: rest =>
      if String.eqb k k' then rest else (k', v) :: mapDelete k rest
  end.

Definition mapValues {V} (m : JsMap V) : list V := map snd m.

Definition mapKeys {V} (m : JsMap V) : list string := map fst m.

Definition mapSize {V} (m : JsMap V) : nat := length m.

(** The keys of a [Map] are pairwise distinct. *)
Definition wellFormedMap {V} (m : JsMap V) : Prop := List.NoDup (mapKeys m).

Definition phoneHint : string :=
  "Phone number of the recipient with country code (e.g., "
  +:+ dquote +:+ "+1234567890" +:+ dquote +:+ ")".

Definition prop (type description : string) : PropertySchema :=
  {| prop_type := type; prop_description := description |}.

(** [getChatManifests] (plugin.ts, lines 194-408). *)
Definition getChatManifests : list Manifest :=
  [ {| manifest_name := "whatsapp_send_message";
       manifest_description := "Send a WhatsApp text message to a contact";
       properties :=
         [("to", prop "string" phoneHint);
          ("message", prop "string" "Text message to send")];
       required := Some ["to"; "message"] |};
    {| manifest_name := "whatsapp_send_template";
       manifest_description := "Send a template message to a contact";
       properties :=
         [("to", prop "string" phoneHint);
          ("templateName", prop "string" "Name of the template to use");
          ("language", prop "string"
             ("Language code of the template (e.g., " +:+ dquote +:+ "en_US" +:+ dquote +:+ ")"));
          ("components", prop "array" "Template components containing parameters")];
       required := Some ["to"; "templateName"; "language"] |};
    {| manifest_name := "whatsapp_send_media";
       manifest_description := "Send a media message (image, document, etc.) to a contact";
       properties :=
         [("to", prop "string" phoneHint);
          ("type", prop "string" "Type of media (image, document, audio, video, sticker)");
          ("url", prop "string" "URL to the media file");
          ("filePath", prop "string" "Path to the media file (alternative to URL)");
          ("caption", prop "string" "Optional caption for the media");
          ("filename", prop "string" "Filename for document type media")];
       required := Some ["to"; "type"] |};
    {| manifest_name := "whatsapp_send_interactive";
       manifest_description := "Send an interactive message with buttons or lists";
       properties :=
         [("to", prop "string" phoneHint);
          ("type", prop "string"
             "Type of interactive message (button, list, product, product_list)");
          ("body", prop "object" "Body content of the message containing text");
          ("header", prop "object" "Optional header for the message");
          ("footer", prop "object" "Optional footer for the message");
          ("action", prop "object"
             "Action content for the interactive message (buttons, sections, etc.)")];
       required := Some ["to"; "type"; "body"; "action"] |};
    {| manifest_name := "whatsapp_send_location";
       manifest_description := "Send a location message";
       properties :=
         [("to", prop "string" phoneHint);
          ("latitude", prop "number" "Latitude coordinate of the location");
          ("longitude", prop "number" "Longitude coordinate of the location");
          ("name", prop "string" "Optional name of the location");
          ("address", prop "string" "Optional address of the location")];
       required := Some ["to"; "latitude"; "longitude"] |};
    {| manifest_name := "whatsapp_mark_as_read";
       manifest_description := "Mark a message as read";
       properties := [("messageId", prop "string" "ID of the message to mark as read")];
       required := Some ["messageId"] |};
    {| manifest_name := "whatsapp_get_contact_info";
       manifest_description := "Get basic information about a contact";
       properties :=
         [("phoneNumber", prop "string"
             ("Phone number with country code (e.g., "
              +:+ dquote +:+ "+1234567890" +:+ dquote +:+ ")"))];
       required := Some ["phoneNumber"] |};
    {| manifest_name := "whatsapp_get_business_profile";
       manifest_description := "Get information about your WhatsApp Business profile";
       properties := [];
       required := None |};
    {| manifest_name := "whatsapp_update_business_profile";
       manifest_description := "Update your WhatsApp Business profile information";
       properties :=
         [("about", prop "string" "About text for the business profile");
          ("address", prop "string" "Business address");
          ("description", prop "string" "Business description");
          ("email", prop "string" "Business email");
          ("websites", prop "array" "Business websites");
          ("vertical", prop "string" "Business category/vertical")];
       required := None |} ].

(** The parameters a manifest marks as required. *)
Definition requiredNames (m : Manifest) : list string := default [] (required m).

Definition stringIn (s : string) (l : list string) : bool :=
  existsb (String.eqb s) l.

(** [convertParameters] (lines 168-189). *)
Definition convertParameters (m : Manifest) : list ToolParameterSchema :=
  map (fun entry =>
         let name := fst entry in
         let type := prop_type (snd entry) in
         let validType :=
           if stringIn type ["string"; "number"; "boolean"; "object"; "array"]
           then type else "string" in
         {| schema_name := name;
            schema_type := validType;
            schema_description := prop_description (snd entry);
            schema_required :=
              match required m with
              | Some names => stringIn name names
              | None => false
              end |})
      (properties m).

(** The [Plugin] object [initializeTools] builds for one manifest. *)
Definition pluginOfManifest (m : Manifest) : Plugin :=
  {| tool_name := manifest_name m;
     tool_description := manifest_description m;
     parameters := convertParameters m;
     execute := ManifestExecute (manifest_name m) |}.

(** The fields of a [WhatsAppPlugin] instance, and the world it runs in. *)
Record PluginState := {
  client : option Client;
  whatsAppConfig : WhatsAppConfig;
  tools : JsMap Plugin;
  config_tools : list Plugin;
  pluginWorld : World
}.

Section WhatsAppPlugin.

Variable env : Env.

Definition setClient (c : option Client) (s : PluginState) : PluginState :=
  {| client := c;
     whatsAppConfig := whatsAppConfig s;
     tools := tools s;
     config_tools := config_tools s;
     pluginWorld := pluginWorld s |}.

Definition setTools (t : JsMap Plugin) (s : PluginState) : PluginState :=
  {| client := client s;
     whatsAppConfig := whatsAppConfig s;
     tools := t;
     config_tools := config_tools s;
     pluginWorld := pluginWorld s |}.

Definition setConfigTools (l : list Plugin) (s : PluginState) : PluginState :=
  {| client := client s;
     whatsAppConfig := whatsAppConfig s;
     tools := tools s;
     config_tools := l;
     pluginWorld := pluginWorld s |}.

(** [this.client!.method(...)]: the client method runs on the plugin's
    client and on the world; on a null client the call itself raises. *)
Definition withClient {A} (method : string) (m : Eff ClientState A) : Eff PluginState A :=
  fun s =>
    match client s with
    | None =>
        (Throw (TypeError ("Cannot read properties of null (reading '" +:+ method +:+ "')")), s)
    | Some c =>
        let (r, cs) := m {| this := c; world := pluginWorld s |} in
        (r, {| client := Some (this cs);
               whatsAppConfig := whatsAppConfig s;
               tools := tools s;
               config_tools := config_tools s;
               pluginWorld := world cs |})
    end.

(** [initializeTools] (lines 86-163): every manifest is (re)entered in the
    tool map, then [config.tools] is refreshed from the map. *)
Definition initializeTools : Eff PluginState unit :=
  modifyState (fun s =>
    let tools' :=
      fold_left (fun m manifest => mapSet (manifest_name manifest) (pluginOfManifest manifest) m)
                getChatManifests (tools s) in
    setConfigTools (mapValues tools') (setTools tools' s)).

(** [WhatsAppPlugin.constructor] (lines 29-47). *)
Definition newWhatsAppPlugin (cfg : option WhatsAppConfig) (w : World) : PluginState :=
  let whatsAppConfig0 :=
    match cfg with
    | Some c => c
    | None =>
        {| apiVersion := processEnv env "WHATSAPP_API_VERSION";
           apiToken := processEnv env "WHATSAPP_API_TOKEN";
           phoneNumberId := processEnv env "WHATSAPP_PHONE_NUMBER_ID";
           businessAccountId := processEnv env "WHATSAPP_BUSINESS_ACCOUNT_ID";
           cacheMessageSeconds := None;
           cacheContactSeconds := None;
           requestTimeout := None |}
    end in
  snd (initializeTools
         {| client := None;
            whatsAppConfig := whatsAppConfig0;
            tools := [];
            config_tools := [];
            pluginWorld := w |}).

(** [`${error}`] on a thrown value. *)
Definition showError (name message : string) : string :=
  if String.eqb message "" then name else name +:+ ": " +:+ message.

Definition thrownToString (e : Thrown) : Eff PluginState string :=
  match e with
  | Error message => ret (showError "Error" message)
  | TypeError message => ret (showError "TypeError" message)
  | AxiosError _ message => ret (showError "AxiosError" message)
  | OtherThrown v => template env v
  end.

(** [init] (lines 52-73). *)
Definition init : Eff PluginState unit :=
  tryCatch
    (s <- getState ;;
     match newWhatsAppClient env (Some (whatsAppConfig s)) with
     | Throw e => throw e
     | Return c =>
         modifyState (setClient (Some c)) ;;;
         if negb (isConfigured c) then
           throw (Error ("WhatsApp client is not properly configured. "
                         +:+ "Check your API token and phone number ID."))
         else initializeTools
     end)
    (fun error =>
       shown <- thrownToString error ;;
       throw (Error ("WhatsApp plugin initialization failed: " +:+ shown))).

(** *** The handlers (lines 506-651) *)

Definition missing (v : JsVal) : bool := negb (truthy v).

Definition isUndefined (v : JsVal) : bool :=
  match v with JUndefined => true | _ => false end.

Definition success (messageId : JsVal) : JsVal :=
  JObj [("success", JBool true); ("messageId", messageId)].

Definition rethrow {A} (error : Thrown) : Eff PluginState A := throw error.

Definition sendMessage (params : Params) : Eff PluginState JsVal :=
  if missing (param params "to") || missing (param params "message") then
    throw (Error "Missing required parameters: to, message")
  else
    tryCatch
      (messageId <- withClient "sendMessage"
         (client_sendMessage env (param params "to") (param params "message")) ;;
       ret (success messageId))
      rethrow.

Definition sendTemplateMessage (params : Params) : Eff PluginState JsVal :=
  if missing (param params "to") || missing (param params "templateName")
     || missing (param params "language") then
    throw (Error "Missing required parameters: to, templateName, language")
  else
    tryCatch
      (messageId <- withClient "sendTemplateMessage" (client_sendTemplateMessage env params) ;;
       ret (success messageId))
      rethrow.

Definition sendMedia (params : Params) : Eff PluginState JsVal :=
  if missing (param params "to") || missing (param params "type")
     || (missing (param params "url") && missing (param params "filePath")) then
    throw (Error "Missing required parameters: to, type, (url or filePath)")
  else
    tryCatch
      (messageId <- withClient "sendMedia" (client_sendMedia env params) ;;
       ret (success messageId))
      rethrow.

Definition sendInteractiveMessage (params : Params) : Eff PluginState JsVal :=
  if missing (param params "to") || missing (param params "type")
     || missing (param params "body") || missing (param params "action") then
    throw (Error "Missing required parameters: to, type, body, action")
  else
    tryCatch
      (messageId <- withClient "sendInteractiveMessage"
         (client_sendInteractiveMessage env params) ;;
       ret (success messageId))
      rethrow.

Definition sendLocation (params : Params) : Eff PluginState JsVal :=
  if missing (param params "to") || isUndefined (param params "latitude")
     || isUndefined (param params "longitude") then
    throw (Error "Missing required parameters: to, latitude, longitude")
  else
    tryCatch
      (messageId <- withClient "sendLocation" (client_sendLocation env params) ;;
       ret (success messageId))
      rethrow.

Definition markAsRead (params : Params) : Eff PluginState JsVal :=
  if missing (param params "messageId") then
    throw (Error "Missing required parameter: messageId")
  else
    tryCatch
      (ok <- withClient "markMessageAsRead"
         (client_markMessageAsRead env (param params "messageId")) ;;
       ret (JObj [("success", ok)]))
      rethrow.

Definition getContactInfo (params : Params) : Eff PluginState JsVal :=
  if missing (param params "phoneNumber") then
    throw (Error "Missing required parameter: phoneNumber")
  else
    tryCatch
      (contact <- withClient "getContactInfo"
         (client_getContactInfo env (param params "phoneNumber")) ;;
       ret (contactToJs contact))
      rethrow.

Definition getBusinessProfile : Eff PluginState JsVal :=
  tryCatch (withClient "getBusinessProfile" (client_getBusinessProfile env)) rethrow.

Definition updateBusinessProfile (params : Params) : Eff PluginState JsVal :=
  tryCatch
    (ok <- withClient "updateBusinessProfile" (client_updateBusinessProfile env params) ;;
     ret (JObj [("success", ok)]))
    rethrow.

(** The [switch] of the [execute] closure (lines 106-136). *)
Definition dispatch (methodName : string) (params : Params) : Eff PluginState JsVal :=
  if String.eqb methodName "send_message" then sendMessage params
  else if String.eqb methodName "send_template" then sendTemplateMessage params
  else if String.eqb methodName "send_media" then sendMedia params
  else if String.eqb methodName "send_interactive" then sendInteractiveMessage params
  else if String.eqb methodName "send_location" then sendLocation params
  else if String.eqb methodName "mark_as_read" then markAsRead params
  else if String.eqb methodName "get_contact_info" then getContactInfo params
  else if String.eqb methodName "get_business_profile" then getBusinessProfile
  else if String.eqb methodName "update_business_profile" then updateBusinessProfile params
  else throw (Error ("Unknown method: " +:+ methodName)).

(** The handler a manifest is mapped to. *)
Definition handlerOf (m : Manifest) : Params -> Eff PluginState JsVal :=
  dispatch (removeFirst "whatsapp_" (manifest_name m)).

(** The [execute] closure built for a manifest (lines 95-154).  No handler
    returns the record it was given, so the defensive copy of lines 139-143
    leaves the result as it is. *)
Definition executeManifest (manifestName : string) (params : Params)
  : Eff PluginState JsVal :=
  s <- getState ;;
  match client s with
  | None => throw (Error "WhatsApp client not initialized. Call init() first.")
  | Some _ =>
      let methodName := removeFirst "whatsapp_" manifestName in
      tryCatch
        (dispatch methodName params)
        (fun error =>
           if instanceofError error then throw error
           else
             shown <- thrownToString error ;;
             throw (Error ("Error executing " +:+ methodName +:+ ": " +:+ shown)))
  end.

Definition runExecute (e : Execute) (params : Params) : Eff PluginState JsVal :=
  match e with
  | ManifestExecute manifestName => executeManifest manifestName params
  | ExternalExecute run => fun s => (run params, s)
  end.

(** *** Tool management (lines 415-488) *)

Definition getTools (s : PluginState) : list Plugin := mapValues (tools s).

Definition getTool (toolName : string) (s : PluginState) : option Plugin :=
  mapGet toolName (tools s).

Definition registerTool (tool : Plugin) : Eff PluginState unit :=
  modifyState (fun s => setTools (mapSet (tool_name tool) tool (tools s)) s).

Definition removeTool (toolName : string) : Eff PluginState bool :=
  s <- getState ;;
  let result := mapHas toolName (tools s) in
  modifyState (setTools (mapDelete toolName (tools s))) ;;;
  modifyState (fun s' => setConfigTools (mapValues (tools s')) s') ;;;
  ret result.

Definition hasTool (toolName : string) (s : PluginState) : bool :=
  mapHas toolName (tools s).

Definition getToolCount (s : PluginState) : nat := mapSize (tools s).

Definition executeTool (toolName : string) (params : Params) : Eff PluginState JsVal :=
  s <- getState ;;
  match getTool toolName s with
  | None => throw (Error ("Tool " +:+ toolName +:+ " not found"))
  | Some tool => runExecute (execute tool) params
  end.

Definition initializeAll : Eff PluginState unit := init.

Definition cleanupAll : Eff PluginState unit := modifyState (setClient None).

Definition getToolByFullName (fullName : string) (s : PluginState) : option Plugin :=
  mapGet fullName (tools s).

(** The state-changing public operations of the plugin, for statements
    about which of them touch [config.tools]. *)
Inductive PluginOp : Type :=
| OpInit
| OpInitializeAll
| OpCleanupAll
| OpRegisterTool (tool : Plugin)
| OpRemoveTool (toolName : string)
| OpExecuteTool (toolName : string) (params : Params).

Definition runPluginOp (op : PluginOp) (s : PluginState) : PluginState :=
  match op with
  | OpInit => snd (init s)
  | OpInitializeAll => snd (initializeAll s)
  | OpCleanupAll => snd (cleanupAll s)
  | OpRegisterTool tool => snd (registerTool tool s)
  | OpRemoveTool toolName => snd (removeTool toolName s)
  | OpExecuteTool toolName params => snd (executeTool toolName params s)
  end.

(** The operations that refresh [config.tools] from the tool map. *)
Definition resynchronizes (op : PluginOp) : bool :=
  match op with
  | OpInit | OpInitializeAll | OpRemoveTool _ => true
  | _ => false
  end.

End WhatsAppPlugin.

(** The two credentials of a configuration, once resolved. *)
Definition credentialsResolved (env : Env) (cfg : option WhatsAppConfig) : bool :=
  strTruthy (apiToken (resolveConfig env cfg))
  && strTruthy (phoneNumberId (resolveConfig env cfg)).

(** The staleness test in the words of the specification:
    [now - timestamp > ttl], the TTL being in seconds and the clock in
    milliseconds. *)
Definition specStale (age seconds : Z) : bool := seconds * 1000 <? age.

(** A failure "carries a structured vendor error body" when the server
    answered and the body of the answer has an [error] member. *)
Definition hasErrorBody (r : HttpResponse) : bool :=
  truthy (data r) && truthy (getProp (data r) "error").

Definition carriesVendorErrorBody (e : Thrown) : bool :=
  match e with
  | AxiosError (Some r) _ => hasErrorBody r
  | _ => false
  end.

(** The members of the vendor error that [handleApiError] prints. *)
Definition vendorErrorFields : list string :=
  ["code"; "message"; "error_subcode"; "error_user_title"; "error_user_msg"].

(** ** A sample environment

    A transport that accepts every request (an upload answers with a media
    id, anything else with one message id), a file system in which every
    path exists, a clock that advances one second per reading, an empty
    process environment, and [Number] restricted to digit strings. *)

Fixpoint digitsValue (acc : Z) (s : string) : option Z :=
  match s with
  | EmptyString => Some acc
  | String c rest =>
      if isDigit c then digitsValue (10 * acc + (Z.of_N (N_of_ascii c) - 48)) rest
      else None
  end.

Definition parseDecimal (s : string) : JsNumber :=
  match digitsValue 0 s with
  | Some n => Num n
  | None => NaN
  end.

Definition sampleResponse : HttpResponse :=
  {| status := 200;
     data := JObj [("messages", JArr [JObj [("id", JStr "wamid.1")]])] |}.

Definition sampleUploadResponse : HttpResponse :=
  {| status := 200; data := JObj [("id", JStr "media-77")] |}.

Definition sampleEnv : Env :=
  {| httpRequest := fun _ req =>
       match req with
       | PostForm _ _ => Resolved sampleUploadResponse
       | _ => Resolved sampleResponse
       end;
     existsSync := fun _ => true;
     dateNow := fun n => 1000 * Z.of_nat n;
     processEnv := fun _ => None;
     stringToNumber := parseDecimal;
     unsafeNumberToString := decimal;
     unicodeToLowerCase := asciiToLowerCase |}.

(** A transport that gives the same answer to every request. *)
Definition steadyEnv (r : HttpResponse) : Env :=
  {| httpRequest := fun _ _ => Resolved r;
     existsSync := fun _ => true;
     dateNow := fun n => 1000 * Z.of_nat n;
     processEnv := fun _ => None;
     stringToNumber := parseDecimal;
     unsafeNumberToString := decimal;
     unicodeToLowerCase := asciiToLowerCase |}.

Definition sampleConfig : WhatsAppConfig :=
  {| apiVersion := None;
     apiToken := Some "token";
     phoneNumberId := Some "15550001111";
     businessAccountId := None;
     cacheMessageSeconds := None;
     cacheContactSeconds := Some (Num 1);
     requestTimeout := None |}.

(** The client the constructor builds from [sampleConfig]. *)
Definition sampleClient : Client :=
  match newWhatsAppClient sampleEnv (Some sampleConfig) with
  | Return c => c
  | Throw _ =>
      {| apiInstance := {| baseURL := ""; timeout := None; headers := [] |};
         config := sampleConfig;
         messageCache := ∅;
         contactCache := ∅ |}
  end.

Definition sampleState : ClientState := {| this := sampleClient; world := emptyWorld |}.

(** The same client with a contact TTL of one hour. *)
Definition hourState : ClientState :=
  match newWhatsAppClient sampleEnv
          (Some {| apiVersion := None;
                   apiToken := Some "token";
                   phoneNumberId := Some "15550001111";
                   businessAccountId := None;
                   cacheMessageSeconds := None;
                   cacheContactSeconds := Some (Num 3600);
                   requestTimeout := None |}) with
  | Return c => {| this := c; world := emptyWorld |}
  | Throw _ => sampleState
  end.

(** A gateway that answers every request with a bare 502. *)
Definition badGatewayError : Thrown :=
  AxiosError (Some {| status := 502; data := JStr "Bad Gateway" |})
             "Request failed with status code 502".

Definition badGatewayEnv : Env :=
  {| httpRequest := fun _ _ => Rejected badGatewayError;
     existsSync := fun _ => true;
     dateNow := fun n => 1000 * Z.of_nat n;
     processEnv := fun _ => None;
     stringToNumber := parseDecimal;
     unsafeNumberToString := decimal;
     unicodeToLowerCase := asciiToLowerCase |}.

(** A transport that rejects every request with the same error. *)
Definition rejectingEnv (e : Thrown) : Env :=
  {| httpRequest := fun _ _ => Rejected e;
     existsSync := fun _ => true;
     dateNow := fun n => 1000 * Z.of_nat n;
     processEnv := fun _ => None;
     stringToNumber := parseDecimal;
     unsafeNumberToString := decimal;
     unicodeToLowerCase := asciiToLowerCase |}.

(** A vendor error whose code is an object with a member [toString]. *)
Definition unprintableCodeError : Thrown :=
  AxiosError
    (Some {| status := 400;
             data := JObj [("error",
                            JObj [("code", JObj [("toString", JNum 1)]);
                                  ("message", JStr "Invalid parameter")])] |})
    "Request failed with status code 400".

(** The vendor's answer to an expired token, and to a failed
    authentication (error code 0). *)
Definition expiredTokenError : Thrown :=
  AxiosError
    (Some {| status := 401;
             data := JObj [("error",
                            JObj [("message", JStr "Session has expired");
                                  ("type", JStr "OAuthException");
                                  ("code", JNum 190);
                                  ("error_subcode", JNum 463)])] |})
    "Request failed with status code 401".

Definition authExceptionError : Thrown :=
  AxiosError
    (Some {| status := 401;
             data := JObj [("error",
                            JObj [("message", JStr "AuthException");
                                  ("code", JNum 0)])] |})
    "Request failed with status code 401".

Definition emptyManifest : Manifest :=
  {| manifest_name := ""; manifest_description := ""; properties := []; required := None |}.

(** A tool of the host's own, registered next to the catalogue. *)
Definition echoTool : Plugin :=
  {| tool_name := "echo";
     tool_description := "Return the parameters";
     parameters := [];
     execute := ExternalExecute (fun params => Return (JObj params)) |}.

(** A freshly constructed plugin, before [init]. *)
Definition samplePlugin : PluginState :=
  newWhatsAppPlugin sampleEnv (Some sampleConfig) emptyWorld.

(** ** Vocabulary of the statements *)

(** A handler that stops at its validation: it throws the [Error] with the
    given message and leaves the plugin, its client and the world as they
    were. *)
Definition rejects (h : Params -> Eff PluginState JsVal) (params : Params)
  (msg : string) : Prop :=
  forall s, h params s = (Throw (Error msg), s).

(** [preserves R m]: whatever [m] returns or throws, the state it leaves is
    related by [R] to the state it started from. *)
Definition preserves {S A} (R : S -> S -> Prop) (m : Eff S A) : Prop :=
  forall s, R s (snd (m s)).

(** [sameState]: nothing changed. *)
Definition sameState {S} (s s' : S) : Prop := s' = s.

(** [sameClient]: the client object, caches included, is unchanged; only
    the trace of the world may have grown. *)
Definition sameClient (s s' : ClientState) : Prop := this s' = this s.

(** [sameRequests]: no request was issued. *)
Definition sameRequests (s s' : ClientState) : Prop :=
  requests (world s') = requests (world s).

(** [sameButContacts]: of the client object, at most the contact cache
    changed. *)
Definition sameButContacts (s s' : ClientState) : Prop :=
  apiInstance (this s') = apiInstance (this s) /\
  config (this s') = config (this s) /\
  messageCache (this s') = messageCache (this s).

(** The same state with another message cache. *)
Definition withMessageCache (mc : gmap string JsVal) (s : ClientState) : ClientState :=
  {| this := {| apiInstance := apiInstance (this s);
                config := config (this s);
                messageCache := mc;
                contactCache := contactCache (this s) |};
     world := world s |}.

(** [oblivious m]: [m] does not read the message cache. *)
Definition oblivious {A} (m : Eff ClientState A) : Prop :=
  forall mc s,
    m (withMessageCache mc s) = (fst (m s), withMessageCache mc (snd (m s))).

(** [sameTools]: neither the tool map nor the exposed list changed. *)
Definition sameTools (s s' : PluginState) : Prop :=
  tools s' = tools s /\ config_tools s' = config_tools s.

(** The cache key of a phone number, and the entry a lookup stores at
    time [t]. *)
Definition contactKey (phoneNumber : string) : string :=
  "contact_" +:+ formatPhoneNumber phoneNumber.

Definition freshEntry (phoneNumber : string) (t : Z) : CacheEntry :=
  {| entry_data := placeholderContact (formatPhoneNumber phoneNumber); timestamp := t |}.

(** Postconditions: [post m P Q] says that [m] leaves the state as it is,
    that a returned value satisfies [P] and a thrown one [Q]. *)
Definition post {S A} (m : Eff S A) (P : A -> Prop) (Q : Thrown -> Prop) : Prop :=
  forall s, match m s with
            | (Return a, s') => P a /\ s' = s
            | (Throw e, s') => Q e /\ s' = s
            end.

(** What the composed message of a failure with a response looks like. *)
Definition enriched (env : Env) (message : string) (r : HttpResponse) (m : string) : Prop :=
  let base := message +:+ ": HTTP " +:+ numberToString env (status r) in
  let err := getProp (data r) "error" in
  String.prefix base m = true /\
  includes (numberToString env (status r)) m = true /\
  (hasErrorBody r = false -> m = base) /\
  (hasErrorBody r = true ->
   forall field shown,
     In field vendorErrorFields ->
     truthy (getProp err field) = true ->
     toStringOpt env (getProp err field) = Some shown ->
     includes shown m = true).

(** The conversion to a string fails on a printed member only. *)
Definition unprintableField (env : Env) (r : HttpResponse) (e : Thrown) : Prop :=
  e = TypeError "Cannot convert object to primitive value" /\
  hasErrorBody r = true /\
  exists field, In field vendorErrorFields /\
                toStringOpt env (getProp (getProp (data r) "error") field) = None.

(** Every member of the vendor error that [handleApiError] prints can be
    converted to a string. *)
Definition printable (env : Env) (v : JsVal) : bool :=
  match toStringOpt env v with Some _ => true | None => false end.

Definition printableErrorBody (env : Env) (r : HttpResponse) : bool :=
  forallb (fun field => printable env (getProp (getProp (data r) "error") field))
          vendorErrorFields.

(** What [handleApiError] throws for a failure that carries the response
    [r]: the composed [Error], or the [TypeError] of a member of the vendor
    error that does not print. *)
Definition enrichedOutcome (env : Env) (message : string) (r : HttpResponse)
    (thrown : Thrown) : Prop :=
  if negb (hasErrorBody r) || printableErrorBody env r
  then exists m, thrown = Error m /\ enriched env message r m
  else thrown = TypeError "Cannot convert object to primitive value".

(** The rejection with which the transport answered the last request of a
    trace. *)
Definition lastRejection (env : Env) (w : World) : option Thrown :=
  match rev (requests w) with
  | req :: earlier =>
      match httpRequest env (length earlier) req with
      | Resolved _ => None
      | Rejected e => Some e
      end
  | [] => None
  end.

(** The prefixes under which an operation of the client reports a failed
    request; [sendMedia] reports a failed upload under the prefix of
    [uploadMedia]. *)
Definition errorPrefixes (op : ClientOp) : list string :=
  match op with
  | OpSendMessage _ _ => ["Error sending message"]
  | OpSendTemplateMessage _ => ["Error sending template message"]
  | OpSendMedia _ => ["Error uploading media"; "Error sending media message"]
  | OpSendInteractiveMessage _ => ["Error sending interactive message"]
  | OpSendLocation _ => ["Error sending location message"]
  | OpMarkMessageAsRead _ => ["Error marking message as read"]
  | OpGetBusinessProfile => ["Error getting business profile"]
  | OpUpdateBusinessProfile _ => ["Error updating business profile"]
  | OpUploadMedia _ => ["Error uploading media"]
  | OpGetMediaUrl _ => ["Error getting media URL"]
  | OpGetContactInfo _ => []
  end.

(** The state once [req] has been issued. *)
Definition logged (req : Request) (s : ClientState) : ClientState :=
  {| this := this s;
     world := {| requests := requests (world s) ++ [req];
                 ticks := ticks (world s);
                 calls := calls (world s) |} |}.

(** The multipart request by which [uploadMedia] sends a file. *)
Definition uploadRequest (s : ClientState) (filePath : JsVal) : Request :=
  PostForm ("/" +:+ showStr (phoneNumberId (config (this s))) +:+ "/media")
           [("messaging_product", FormText "whatsapp"); ("file", FormFile filePath)].

(** The five send-type tools. *)
Inductive SendTool : Type :=
| SendText
| SendTemplate
| SendMediaFile
| SendInteractive
| SendLocationPin.

(** The client method behind each send tool, on the arguments the handler
    passes. *)
Definition clientSend (env : Env) (tool : SendTool) (params : Params)
  : Eff ClientState JsVal :=
  match tool with
  | SendText => client_sendMessage env (param params "to") (param params "message")
  | SendTemplate => client_sendTemplateMessage env params
  | SendMediaFile => client_sendMedia env params
  | SendInteractive => client_sendInteractiveMessage env params
  | SendLocationPin => client_sendLocation env params
  end.

(** The handler of the adapter for each send tool. *)
Definition pluginSend (env : Env) (tool : SendTool) (params : Params)
  : Eff PluginState JsVal :=
  match tool with
  | SendText => sendMessage env params
  | SendTemplate => sendTemplateMessage env params
  | SendMediaFile => sendMedia env params
  | SendInteractive => sendInteractiveMessage env params
  | SendLocationPin => sendLocation env params
  end.

(** The answer of the transport to the last request of a trace. *)
Definition lastAnswer (env : Env) (w : World) : option HttpResponse :=
  match rev (requests w) with
  | req :: earlier =>
      match httpRequest env (length earlier) req with
      | Resolved r => Some r
      | Rejected _ => None
      end
  | [] => None
  end.

(** A response "carries no messages": no body, no [messages] member, or an
    empty list. *)
Definition carriesNoMessages (r : HttpResponse) : Prop :=
  truthy (data r) = false \/
  truthy (getProp (data r) "messages") = false \/
  getProp (data r) "messages" = JArr [].

(** What the specification says a send method returns for a response. *)
Definition messageIdOf (r : HttpResponse) (v : JsVal) : Prop :=
  (forall e rest, getProp (data r) "messages" = JArr (e :: rest) -> v = getProp e "id") /\
  (carriesNoMessages r -> v = JStr "").

Definition isString (v : JsVal) : bool :=
  match v with JStr _ => true | _ => false end.

(** The arguments the TypeScript signatures allow: a string recipient; for
    a template, components that are absent or an array; for media, a string
    type and a URL rather than a file. *)
Definition wellTypedCall (tool : SendTool) (params : Params) : bool :=
  isString (param params "to") &&
  match tool with
  | SendTemplate =>
      match param params "components" with
      | JUndefined | JNull | JArr _ => true
      | _ => false
      end
  | SendMediaFile =>
      isString (param params "type")
      && negb (truthy (param params "filePath"))
      && truthy (param params "url")
  | _ => true
  end.

(** The parameter types the host framework accepts. *)
Definition allowedTypes : list string :=
  ["string"; "number"; "boolean"; "object"; "array"].

(** Every entry of the contact cache sits under the key of the contact it
    holds, and that contact is a placeholder. *)
Definition contactsConsistent (c : Client) : Prop :=
  forall k entry,
    contactCache c !! k = Some entry ->
    k = "contact_" +:+ id (entry_data entry) /\
    entry_data entry = placeholderContact (id (entry_data entry)).

(** The value of the [type] member of the envelope of a send tool other
    than media. *)
Definition envelopeType (tool : SendTool) : string :=
  match tool with
  | SendText => "text"
  | SendTemplate => "template"
  | SendMediaFile => "media"
  | SendInteractive => "interactive"
  | SendLocationPin => "location"
  end.

Definition isMediaTool (tool : SendTool) : bool :=
  match tool with SendMediaFile => true | _ => false end.

(** The last binding of a key in a property list. *)
Definition lastProp (k : string) (props : list (string * JsVal)) : option JsVal :=
  lookupProp k (rev props).

(** The prefix under which each send method reports a failed request. *)
Definition errorPrefix (tool : SendTool) : string :=
  match tool with
  | SendText => "Error sending message"
  | SendTemplate => "Error sending template message"
  | SendMediaFile => "Error sending media message"
  | SendInteractive => "Error sending interactive message"
  | SendLocationPin => "Error sending location message"
  end.

(** The failure came with an answer of the server. *)
Definition hasResponse (e : Thrown) : bool :=
  match e with
  | AxiosError (Some _) _ => true
  | _ => false
  end.

(** The names of the envelope that a media object could take over. *)
Definition envelopeNames : list string :=
  ["messaging_product"; "recipient_type"; "to"; "type"].

(** The envelope of a media message before the media object is stored in
    it. *)
Definition mediaEnvelope (formattedNumber mediaType : string) : list (string * JsVal) :=
  [("messaging_product", JStr "whatsapp");
   ("recipient_type", JStr "individual");
   ("to", JStr formattedNumber);
   ("type", JStr mediaType)].

(** The required parameters of a send tool pass the validation of its
    handler. *)
Definition requiredPresent (tool : SendTool) (params : Params) : bool :=
  negb
    match tool with
    | SendText => missing (param params "to") || missing (param params "message")
    | SendTemplate =>
        missing (param params "to") || missing (param params "templateName")
        || missing (param params "language")
    | SendMediaFile =>
        missing (param params "to") || missing (param params "type")
        || (missing (param params "url") && missing (param params "filePath"))
    | SendInteractive =>
        missing (param params "to") || missing (param params "type")
        || missing (param params "body") || missing (param params "action")
    | SendLocationPin =>
        missing (param params "to") || isUndefined (param params "latitude")
        || isUndefined (param params "longitude")
    end.

(** The arguments the TypeScript signatures allow, media by file path
    included: a string recipient; for a template, components that are
    absent or an array; for media, a string type and a file path or a URL. *)
Definition wellTypedSend (tool : SendTool) (params : Params) : bool :=
  isString (param params "to") &&
  match tool with
  | SendTemplate =>
      match param params "components" with
      | JUndefined | JNull | JArr _ => true
      | _ => false
      end
  | SendMediaFile =>
      isString (param params "type")
      && (truthy (param params "filePath") || truthy (param params "url"))
  | _ => true
  end.

(** The send is successful: the vendor answers the send request with [r].
    For media given by a file path, the file exists and the upload that
    comes first is answered with a media id. *)
Definition answeredWith (env : Env) (tool : SendTool) (params : Params)
    (s : ClientState) (r : HttpResponse) : Prop :=
  let n := length (requests (world s)) in
  if isMediaTool tool && truthy (param params "filePath") then
    exists path upload,
      param params "filePath" = JStr path /\
      existsSync env path = true /\
      httpRequest env n (uploadRequest s (JStr path)) = Resolved upload /\
      truthy (data upload) && truthy (getProp (data upload) "id") = true /\
      forall url body, httpRequest env (S n) (Post url body) = Resolved r
  else forall url body, httpRequest env n (Post url body) = Resolved r.

(** * Properties *)

(** ** Phone-number normalisation *)

Lemma stripNonDigits_filter (s : string) :
  list_ascii_of_string (stripNonDigits s) = List.filter isDigit (list_ascii_of_string s).
Proof.
  induction s as [|c rest IH]; simpl; [reflexivity|].
  destruct (isDigit c); simpl; now rewrite IH.
Qed.

Lemma stripNonDigits_allDigits (s : string) : allDigits s -> stripNonDigits s = s.
Proof.
  unfold allDigits.
  induction s as [|c rest IH]; simpl; intros H; [reflexivity|].
  inversion H as [|? ? Hc Hrest]; subst.
  rewrite Hc. f_equal. now apply IH.
Qed.

Lemma allDigits_no_plus (s : string) : allDigits s -> startsWithPlus s = false.
Proof.
  destruct s as [|c rest]; [reflexivity|]. unfold allDigits; simpl.
  intros H. inversion H as [|? ? Hc _]; subst.
  destruct (Ascii.eqb_spec c "+"%char) as [->|]; [discriminate Hc | reflexivity].
Qed.

(** C2.  [formatPhoneNumber] removes the leading [+] of an input that starts
    with one, and otherwise keeps exactly the digits of the input, in
    order; the two sample numbers normalise to [1234567890]; an all-digit
    input is returned as it is, so normalising it twice changes nothing. *)
Theorem formatPhoneNumber_normalizes :
  (forall s, startsWithPlus s = true -> String "+"%char (formatPhoneNumber s) = s) /\
  (forall s, startsWithPlus s = false ->
     list_ascii_of_string (formatPhoneNumber s)
     = List.filter isDigit (list_ascii_of_string s)) /\
  formatPhoneNumber "+1234567890" = "1234567890" /\
  formatPhoneNumber "1 (234) 567-890" = "1234567890" /\
  (forall s, allDigits s ->
     formatPhoneNumber s = s /\
     formatPhoneNumber (formatPhoneNumber s) = formatPhoneNumber s).
Proof.
  repeat split.
  - intros [|c rest] H; simpl in H; [discriminate|].
    apply Ascii.eqb_eq in H. subst c. reflexivity.
  - intros s H. unfold formatPhoneNumber. rewrite H. apply stripNonDigits_filter.
  - intros. unfold formatPhoneNumber.
    rewrite allDigits_no_plus by assumption. now apply stripNonDigits_allDigits.
  - assert (E : formatPhoneNumber s = s).
    { unfold formatPhoneNumber.
      rewrite allDigits_no_plus by assumption. now apply stripNonDigits_allDigits. }
    now rewrite !E.
Qed.

Lemma formatPhoneNumber_normalizes_witness :
  String "+"%char (formatPhoneNumber "+4915112345678") = "+4915112345678" /\
  list_ascii_of_string (formatPhoneNumber "0151 123-45")
  = List.filter isDigit (list_ascii_of_string "0151 123-45") /\
  formatPhoneNumber (formatPhoneNumber "4915112345678") = formatPhoneNumber "4915112345678".
Proof.
  destruct formatPhoneNumber_normalizes as (Hplus & Hstrip & _ & _ & Hidem).
  split; [apply Hplus; reflexivity|].
  split; [apply Hstrip; reflexivity|].
  apply Hidem. unfold allDigits. simpl. repeat constructor.
Defined.

(** ** Parameter validation in the handlers *)

Lemma param_absent (k : string) (params : Params) :
  absent k params -> param params k = JUndefined.
Proof. unfold absent, param. now intros ->. Qed.

Ltac validation_fails H :=
  intros ?; rewrite ?orb_assoc;
  unfold param in *; rewrite H; simpl;
  repeat match goal with
         | |- context [missing ?v] => destruct (missing v); simpl
         | |- context [isUndefined ?v] => destruct (isUndefined v); simpl
         end;
  reflexivity.

Lemma executeManifest_rejects (env : Env) (m : Manifest) (params : Params) (msg : string) :
  rejects (handlerOf env m) params msg ->
  forall s, client s <> None ->
            executeManifest env (manifest_name m) params s = (Throw (Error msg), s).
Proof.
  intros H s Hc. unfold executeManifest, bind, getState.
  destruct (client s) as [c|] eqn:E; [|congruence].
  unfold tryCatch. unfold handlerOf in H. rewrite H. reflexivity.
Qed.

(** C1.  For every manifest of the catalogue and every parameter it marks
    as required, the handler invoked on a record that lacks that parameter
    throws an [Error] whose message names the parameter, and the state is
    left untouched: no client method has been entered and no request has
    been issued.  The same holds when the tool is run through its
    [execute] closure, or by name through [executeTool], on an initialised
    plugin. *)
Theorem missing_required_parameter_rejected (env : Env) (m : Manifest) (p : string)
    (params : Params) :
  In m getChatManifests ->
  In p (requiredNames m) ->
  absent p params ->
  exists msg,
    includes p msg = true /\
    (forall s, handlerOf env m params s = (Throw (Error msg), s)) /\
    (forall s, client s <> None ->
       executeManifest env (manifest_name m) params s = (Throw (Error msg), s)) /\
    (forall s, client s <> None ->
       getTool (manifest_name m) s = Some (pluginOfManifest m) ->
       executeTool env (manifest_name m) params s = (Throw (Error msg), s)).
Proof.
  intros Hm Hp Habs. apply param_absent in Habs.
  assert (H : exists msg, includes p msg = true /\ rejects (handlerOf env m) params msg).
  { simpl in Hm.
    repeat (destruct Hm as [<-|Hm]; [simpl in Hp|]); try contradiction;
      repeat (destruct Hp as [<-|Hp]; [|]); try contradiction;
      unfold handlerOf, rejects, dispatch; simpl;
      (eexists; split; [|first
        [ unfold sendMessage; validation_fails Habs
        | unfold sendTemplateMessage; validation_fails Habs
        | unfold sendMedia; validation_fails Habs
        | unfold sendInteractiveMessage; validation_fails Habs
        | unfold sendLocation; validation_fails Habs
        | unfold markAsRead; validation_fails Habs
        | unfold getContactInfo; validation_fails Habs ]]; vm_compute; reflexivity). }
  destruct H as (msg & Hin & Hrej). exists msg. split; [exact Hin|]. split; [|split].
  - exact Hrej.
  - now apply executeManifest_rejects.
  - intros s Hc Htool. unfold executeTool, bind, getState. rewrite Htool.
    cbn [execute pluginOfManifest runExecute]. now apply executeManifest_rejects.
Qed.

Lemma missing_required_parameter_rejected_witness :
  exists msg,
    includes "message" msg = true /\
    (forall s, handlerOf sampleEnv (hd emptyManifest getChatManifests)
                 [("to", JStr "+15551234567")] s = (Throw (Error msg), s)) /\
    (forall s, client s <> None ->
       executeManifest sampleEnv "whatsapp_send_message"
         [("to", JStr "+15551234567")] s = (Throw (Error msg), s)) /\
    (forall s, client s <> None ->
       getTool "whatsapp_send_message" s
       = Some (pluginOfManifest (hd emptyManifest getChatManifests)) ->
       executeTool sampleEnv "whatsapp_send_message"
         [("to", JStr "+15551234567")] s = (Throw (Error msg), s)).
Proof.
  apply (missing_required_parameter_rejected sampleEnv (hd emptyManifest getChatManifests)
           "message" [("to", JStr "+15551234567")]).
  - simpl. left. reflexivity.
  - simpl. right. left. reflexivity.
  - reflexivity.
Defined.

(** ** Frame rules for the effect monad *)

Section Frame.

Context {S : Type} (R : S -> S -> Prop) `{!PreOrder R}.

Lemma preserves_ret {A} (a : A) : preserves R (ret a).
Proof. intros s. simpl. reflexivity. Qed.

Lemma preserves_throw {A} (e : Thrown) : preserves R (@throw S A e).
Proof. intros s. simpl. reflexivity. Qed.

Lemma preserves_getState : preserves R (@getState S).
Proof. intros s. simpl. reflexivity. Qed.

Lemma preserves_bind {A B} (m : Eff S A) (k : A -> Eff S B) :
  preserves R m -> (forall a, preserves R (k a)) -> preserves R (bind m k).
Proof.
  intros Hm Hk s. unfold bind. specialize (Hm s).
  destruct (m s) as [[a|e] s1]; simpl in *.
  - etransitivity; [exact Hm | apply Hk].
  - exact Hm.
Qed.

Lemma preserves_tryCatch {A} (body : Eff S A) (handler : Thrown -> Eff S A) :
  preserves R body -> (forall e, preserves R (handler e)) ->
  preserves R (tryCatch body handler).
Proof.
  intros Hb Hh s. unfold tryCatch. specialize (Hb s).
  destruct (body s) as [[a|e] s1]; simpl in *.
  - exact Hb.
  - etransitivity; [exact Hb | apply Hh].
Qed.

Lemma preserves_modifyState (f : S -> S) :
  (forall s, R s (f s)) -> preserves R (modifyState f).
Proof. intros H s. simpl. apply H. Qed.

End Frame.

#[local] Instance sameState_preorder {S} : PreOrder (@sameState S).
Proof. split; [intros s; reflexivity | intros a b c H1 H2; unfold sameState in *; congruence]. Qed.

#[local] Instance sameClient_preorder : PreOrder sameClient.
Proof. split; [intros s; reflexivity | intros a b c H1 H2; unfold sameClient in *; congruence]. Qed.

#[local] Instance sameRequests_preorder : PreOrder sameRequests.
Proof.
  split; [intros s; reflexivity | intros a b c H1 H2; unfold sameRequests in *; congruence].
Qed.

#[local] Instance sameButContacts_preorder : PreOrder sameButContacts.
Proof.
  split.
  - intros s. repeat split.
  - intros a b c (H1 & H2 & H3) (H4 & H5 & H6). unfold sameButContacts.
    repeat split; congruence.
Qed.

Lemma sameState_sameClient {A} (m : Eff ClientState A) :
  preserves sameState m -> preserves sameClient m.
Proof. intros H s. unfold sameClient. now rewrite (H s). Qed.

Lemma sameState_sameRequests {A} (m : Eff ClientState A) :
  preserves sameState m -> preserves sameRequests m.
Proof. intros H s. unfold sameRequests. now rewrite (H s). Qed.

Lemma sameClient_sameButContacts {A} (m : Eff ClientState A) :
  preserves sameClient m -> preserves sameButContacts m.
Proof. intros H s. unfold sameButContacts. now rewrite (H s). Qed.

(** The frame tactic: descend through binds, handlers and branches, closing
    the leaves with the lemmas of the hint database [frame], weakened to the
    relation at hand where needed. *)
Create HintDb frame.

Ltac frame :=
  repeat first
    [ match goal with
      | |- PreOrder _ => solve [typeclasses eauto]
      | |- forall _, preserves _ _ => intros ?
      end
    | apply preserves_ret
    | apply preserves_throw
    | apply preserves_getState
    | apply preserves_bind
    | apply preserves_tryCatch
    | solve [auto with frame]
    | solve [apply sameState_sameClient; auto with frame]
    | solve [apply sameState_sameRequests; auto with frame]
    | solve [apply sameClient_sameButContacts; auto with frame]
    | solve [apply sameClient_sameButContacts; apply sameState_sameClient; auto with frame]
    | match goal with
      | |- preserves _ (if ?b then _ else _) => destruct b
      | |- preserves _ (match ?x with _ => _ end) => destruct x
      | |- preserves _ (let _ := _ in _) => cbv zeta
      end ].

Lemma template_same {S} (env : Env) (v : JsVal) : preserves sameState (@template S env v).
Proof. unfold template. frame. Qed.

Lemma readProp_same {S} (v : JsVal) (k : string) : preserves sameState (@readProp S v k).
Proof. unfold readProp. frame. Qed.

Lemma getConfig_same : preserves sameState getConfig.
Proof. intros s. reflexivity. Qed.

Lemma cacheGet_same (k : string) : preserves sameState (cacheGet k).
Proof. intros s. reflexivity. Qed.

#[local] Hint Resolve template_same readProp_same getConfig_same cacheGet_same : frame.

Lemma messagesUrl_same : preserves sameState messagesUrl.
Proof. unfold messagesUrl. frame. Qed.

Lemma formatPhoneNumberOf_same (v : JsVal) : preserves sameState (formatPhoneNumberOf v).
Proof. unfold formatPhoneNumberOf. frame. Qed.

Lemma toLowerCaseOf_same (env : Env) (v : JsVal) : preserves sameState (toLowerCaseOf env v).
Proof. unfold toLowerCaseOf. frame. Qed.

Lemma gtZero_same (env : Env) (v : JsVal) : preserves sameState (gtZero env v).
Proof. unfold gtZero. frame. Qed.

#[local] Hint Resolve messagesUrl_same formatPhoneNumberOf_same toLowerCaseOf_same
  gtZero_same : frame.

Lemma lengthPositive_same (env : Env) (v : JsVal) : preserves sameState (lengthPositive env v).
Proof. unfold lengthPositive. frame. Qed.

#[local] Hint Resolve lengthPositive_same : frame.

Lemma firstMessageId_same (env : Env) (r : HttpResponse) :
  preserves sameState (firstMessageId env r).
Proof. unfold firstMessageId. frame. Qed.

Lemma composeErrorMessage_same (env : Env) (message : string) (r : HttpResponse) :
  preserves sameState (composeErrorMessage env message r).
Proof. unfold composeErrorMessage. frame. Qed.

#[local] Hint Resolve firstMessageId_same composeErrorMessage_same : frame.

Lemma handleApiError_same (env : Env) (message : string) (e : Thrown) :
  preserves sameState (handleApiError env message e).
Proof. unfold handleApiError. frame. Qed.

#[local] Hint Resolve handleApiError_same : frame.

Lemma catchApiError_same (env : Env) {A} (message : string) (e : Thrown) :
  preserves sameState (@catchApiError env A message e).
Proof. unfold catchApiError. frame. Qed.

#[local] Hint Resolve catchApiError_same : frame.

(** The three primitives that touch the world leave the client alone. *)
Lemma enter_sameClient (method : string) : preserves sameClient (enter method).
Proof. intros s. reflexivity. Qed.

Lemma send_sameClient (env : Env) (req : Request) : preserves sameClient (send env req).
Proof. intros s. unfold send. destruct (httpRequest _ _ _); reflexivity. Qed.

Lemma now_sameClient (env : Env) : preserves sameClient (now env).
Proof. intros s. reflexivity. Qed.

Lemma cacheSet_sameButContacts (k : string) (e : CacheEntry) :
  preserves sameButContacts (cacheSet k e).
Proof. intros s. repeat split. Qed.

#[local] Hint Resolve enter_sameClient send_sameClient now_sameClient
  cacheSet_sameButContacts : frame.

(** Neither entering a method nor reading the clock issues a request. *)
Lemma enter_sameRequests (method : string) : preserves sameRequests (enter method).
Proof. intros s. reflexivity. Qed.

Lemma now_sameRequests (env : Env) : preserves sameRequests (now env).
Proof. intros s. reflexivity. Qed.

#[local] Hint Resolve enter_sameRequests now_sameRequests : frame.

(** ** The caches of the client *)

Lemma client_uploadMedia_sameClient (env : Env) (filePath : JsVal) :
  preserves sameClient (client_uploadMedia env filePath).
Proof. unfold client_uploadMedia. frame. Qed.

#[local] Hint Resolve client_uploadMedia_sameClient : frame.

Lemma client_getContactInfo_sameButContacts (env : Env) (phoneNumber : JsVal) :
  preserves sameButContacts (client_getContactInfo env phoneNumber).
Proof. unfold client_getContactInfo. frame. Qed.

#[local] Hint Resolve client_getContactInfo_sameButContacts : frame.

Lemma performClientOp_sameClient (env : Env) (op : ClientOp) :
  isGetContactInfo op = false -> preserves sameClient (performClientOp env op).
Proof.
  intros H. destruct op; try discriminate H; cbn [performClientOp];
    [ unfold client_sendMessage | unfold client_sendTemplateMessage
    | unfold client_sendMedia | unfold client_sendInteractiveMessage
    | unfold client_sendLocation | unfold client_markMessageAsRead
    | unfold client_getBusinessProfile | unfold client_updateBusinessProfile
    | unfold client_uploadMedia | unfold client_getMediaUrl ]; frame.
Qed.

Lemma runClientOp_sameClient (env : Env) (op : ClientOp) (s : ClientState) :
  isGetContactInfo op = false -> this (runClientOp env op s) = this s.
Proof. intros H. apply (performClientOp_sameClient env op H s). Qed.

Lemma runClientOp_sameButContacts (env : Env) (op : ClientOp) (s : ClientState) :
  sameButContacts s (runClientOp env op s).
Proof.
  destruct (isGetContactInfo op) eqn:E.
  - destruct op; try discriminate E. unfold runClientOp. cbn [performClientOp].
    assert (H : preserves sameButContacts
                  (contact <- client_getContactInfo env phoneNumber ;; ret (contactToJs contact)))
      by frame.
    apply H.
  - unfold sameButContacts. now rewrite runClientOp_sameClient.
Qed.

(** *** The message cache is never read

    [oblivious m]: running [m] with another message cache gives the same
    outcome and the same final state, message cache apart. *)
Lemma oblivious_ret {A} (a : A) : oblivious (ret a).
Proof. intros mc s. reflexivity. Qed.

Lemma oblivious_throw {A} (e : Thrown) : oblivious (@throw ClientState A e).
Proof. intros mc s. reflexivity. Qed.

Lemma oblivious_bind {A B} (m : Eff ClientState A) (k : A -> Eff ClientState B) :
  oblivious m -> (forall a, oblivious (k a)) -> oblivious (bind m k).
Proof.
  intros Hm Hk mc s. unfold bind. rewrite (Hm mc s).
  destruct (m s) as [[a|e] s1]; simpl; [apply Hk | reflexivity].
Qed.

Lemma oblivious_tryCatch {A} (body : Eff ClientState A) (handler : Thrown -> Eff ClientState A) :
  oblivious body -> (forall e, oblivious (handler e)) -> oblivious (tryCatch body handler).
Proof.
  intros Hb Hh mc s. unfold tryCatch. rewrite (Hb mc s).
  destruct (body s) as [[a|e] s1]; simpl; [reflexivity | apply Hh].
Qed.

Lemma oblivious_enter (method : string) : oblivious (enter method).
Proof. intros mc s. reflexivity. Qed.

Lemma oblivious_send (env : Env) (req : Request) : oblivious (send env req).
Proof. intros mc s. unfold send. simpl. destruct (httpRequest _ _ _); reflexivity. Qed.

Lemma oblivious_now (env : Env) : oblivious (now env).
Proof. intros mc s. reflexivity. Qed.

Lemma oblivious_getConfig : oblivious getConfig.
Proof. intros mc s. reflexivity. Qed.

Lemma oblivious_cacheGet (k : string) : oblivious (cacheGet k).
Proof. intros mc s. reflexivity. Qed.

Lemma oblivious_cacheSet (k : string) (e : CacheEntry) : oblivious (cacheSet k e).
Proof. intros mc s. reflexivity. Qed.

Create HintDb oblivious.

#[local] Hint Resolve oblivious_enter oblivious_send oblivious_now oblivious_getConfig
  oblivious_cacheGet oblivious_cacheSet : oblivious.

Ltac oblivious :=
  repeat first
    [ match goal with |- forall _, oblivious _ => intros ? end
    | apply oblivious_ret
    | apply oblivious_throw
    | apply oblivious_bind
    | apply oblivious_tryCatch
    | solve [auto with oblivious]
    | match goal with
      | |- oblivious (if ?b then _ else _) => destruct b
      | |- oblivious (match ?x with _ => _ end) => destruct x
      | |- oblivious (let _ := _ in _) => cbv zeta
      end ].

Lemma performClientOp_oblivious (env : Env) (op : ClientOp) :
  oblivious (performClientOp env op).
Proof.
  destruct op; cbn [performClientOp];
    unfold client_sendMessage, client_sendTemplateMessage, client_sendMedia,
      client_sendInteractiveMessage, client_sendLocation, client_markMessageAsRead,
      client_getBusinessProfile, client_updateBusinessProfile, client_uploadMedia,
      client_getMediaUrl, client_getContactInfo, catchApiError, handleApiError,
      composeErrorMessage, firstMessageId, lengthPositive, gtZero, messagesUrl,
      formatPhoneNumberOf, toLowerCaseOf, template, readProp;
    oblivious.
Qed.

(** C9.  The message cache is dead state: no client operation reads it
    (with another message cache the outcome and the rest of the final state
    are the same) and none changes it, so from construction on it stays
    empty whatever sequence of operations runs; the contact cache is changed
    by [getContactInfo] alone, and stays empty as long as that method is not
    called. *)
Theorem messageCache_never_touched (env : Env) :
  (forall op mc s,
     performClientOp env op (withMessageCache mc s)
     = (fst (performClientOp env op s), withMessageCache mc (snd (performClientOp env op s)))) /\
  (forall op s, messageCache (this (runClientOp env op s)) = messageCache (this s)) /\
  (forall op s, isGetContactInfo op = false ->
     contactCache (this (runClientOp env op s)) = contactCache (this s)) /\
  (forall cfg c w ops,
     newWhatsAppClient env cfg = Return c ->
     messageCache (this (runClientOps env ops {| this := c; world := w |})) = ∅) /\
  (forall cfg c w ops,
     newWhatsAppClient env cfg = Return c ->
     forallb (fun op => negb (isGetContactInfo op)) ops = true ->
     contactCache (this (runClientOps env ops {| this := c; world := w |})) = ∅).
Proof.
  assert (Hnew : forall cfg c, newWhatsAppClient env cfg = Return c ->
                               messageCache c = ∅ /\ contactCache c = ∅).
  { intros cfg c. unfold newWhatsAppClient.
    repeat match goal with |- context [if ?b then _ else _] => destruct b end;
      try discriminate.
    intros [= <-]. split; reflexivity. }
  split; [|split; [|split; [|split]]].
  - intros op. apply performClientOp_oblivious.
  - intros op s. apply (runClientOp_sameButContacts env op s).
  - intros op s H. now rewrite runClientOp_sameClient.
  - intros cfg c w ops Hc. destruct (Hnew _ _ Hc) as [Hm _].
    change (messageCache c) with (messageCache (this {| this := c; world := w |})) in Hm.
    revert Hm. generalize {| this := c; world := w |}.
    unfold runClientOps. induction ops as [|op ops IH]; intros s Hs; simpl; [exact Hs|].
    apply IH. rewrite <- Hs. apply (runClientOp_sameButContacts env op s).
  - intros cfg c w ops Hc. destruct (Hnew _ _ Hc) as [_ Hm].
    change (contactCache c) with (contactCache (this {| this := c; world := w |})) in Hm.
    revert Hm. generalize {| this := c; world := w |}.
    unfold runClientOps. induction ops as [|op ops IH]; intros s Hs Hall; simpl; [exact Hs|].
    simpl in Hall. apply andb_prop in Hall as [Hop Hall].
    apply IH; [|exact Hall]. rewrite <- Hs.
    rewrite runClientOp_sameClient; [reflexivity|].
    now destruct (isGetContactInfo op).
Qed.

Lemma messageCache_never_touched_witness :
  messageCache (this (runClientOps sampleEnv
                        [OpSendMessage (JStr "+15551234567") (JStr "hello");
                         OpGetContactInfo (JStr "+15551234567");
                         OpMarkMessageAsRead (JStr "wamid.1")]
                        sampleState)) = ∅ /\
  contactCache (this (runClientOp sampleEnv (OpSendMessage (JStr "1") (JStr "x")) sampleState))
  = contactCache (this sampleState).
Proof.
  destruct (messageCache_never_touched sampleEnv) as (_ & _ & Hcontacts & Hmessages & _).
  split.
  - apply (Hmessages (Some sampleConfig)). reflexivity.
  - apply Hcontacts. reflexivity.
Defined.

(** ** The tool map *)

Section JsMapFacts.

Context {V : Type}.
Implicit Types (m : JsMap V) (k : string) (v : V).

Lemma mapGet_mapSet_eq k v m : mapGet k (mapSet k v m) = Some v.
Proof.
  induction m as [|[k' v'] rest IH]; simpl.
  - now rewrite String.eqb_refl.
  - destruct (String.eqb k k') eqn:E; simpl; rewrite ?String.eqb_refl, ?E; auto.
Qed.

Lemma mapSize_mapSet k v m :
  mapSize (mapSet k v m) = if mapHas k m then mapSize m else Datatypes.S (mapSize m).
Proof.
  unfold mapHas, mapSize. induction m as [|[k' v'] rest IH]; simpl; [reflexivity|].
  destruct (String.eqb k k') eqn:E; simpl; [reflexivity|].
  rewrite IH. now destruct (mapGet k rest).
Qed.

Lemma mapGet_None_keys k m : mapGet k m = None <-> ~ In k (mapKeys m).
Proof.
  induction m as [|[k' v'] rest IH]; simpl; [tauto|].
  destruct (String.eqb_spec k k') as [->|Hne].
  - split; [discriminate | intros H; exfalso; apply H; now left].
  - rewrite IH. split; [intros H [Heq|Hin]; [congruence | tauto] | tauto].
Qed.

Lemma mapKeys_mapDelete_incl k k0 m : In k0 (mapKeys (mapDelete k m)) -> In k0 (mapKeys m).
Proof.
  induction m as [|[k' v'] rest IH]; simpl; [tauto|].
  destruct (String.eqb k k'); simpl; tauto.
Qed.

Lemma mapGet_mapDelete_eq k m : wellFormedMap m -> mapGet k (mapDelete k m) = None.
Proof.
  unfold wellFormedMap. induction m as [|[k' v'] rest IH]; simpl; intros Hnd; [reflexivity|].
  apply NoDup_cons_iff in Hnd as [Hnotin Hnd].
  destruct (String.eqb_spec k k') as [->|Hne].
  - now apply mapGet_None_keys.
  - simpl. destruct (String.eqb_spec k k'); [congruence|]. now apply IH.
Qed.

Lemma mapSize_mapDelete k m :
  mapHas k m = true -> Datatypes.S (mapSize (mapDelete k m)) = mapSize m.
Proof.
  unfold mapHas, mapSize. induction m as [|[k' v'] rest IH]; simpl; [discriminate|].
  destruct (String.eqb k k'); simpl; [reflexivity|].
  intros H. now rewrite IH.
Qed.

Lemma wellFormed_mapDelete k m : wellFormedMap m -> wellFormedMap (mapDelete k m).
Proof.
  unfold wellFormedMap. induction m as [|[k' v'] rest IH]; simpl; intros Hnd; [constructor|].
  apply NoDup_cons_iff in Hnd as [Hnotin Hnd].
  destruct (String.eqb k k'); [exact Hnd|]. simpl.
  apply List.NoDup_cons; [|now apply IH].
  intros Hin. apply Hnotin. eapply mapKeys_mapDelete_incl. exact Hin.
Qed.

Lemma mapKeys_mapSet k v k0 m : In k0 (mapKeys (mapSet k v m)) -> k0 = k \/ In k0 (mapKeys m).
Proof.
  induction m as [|[k' v'] rest IH]; simpl.
  - intros [H|[]]; auto.
  - destruct (String.eqb_spec k k') as [->|Hne]; simpl; intros [H|H]; auto.
    destruct (IH H); auto.
Qed.

Lemma wellFormed_mapSet k v m : wellFormedMap m -> wellFormedMap (mapSet k v m).
Proof.
  unfold wellFormedMap. induction m as [|[k' v'] rest IH]; simpl; intros Hnd.
  - repeat constructor. simpl. tauto.
  - apply NoDup_cons_iff in Hnd as [Hnotin Hnd].
    destruct (String.eqb_spec k k') as [->|Hne]; simpl.
    + now apply List.NoDup_cons.
    + apply List.NoDup_cons; [|now apply IH].
      intros Hin. apply mapKeys_mapSet in Hin as [Heq|Hin]; [congruence | tauto].
Qed.

Lemma mapValues_length m : length (mapValues m) = mapSize m.
Proof. unfold mapValues, mapSize. apply length_map. Qed.

End JsMapFacts.

(** ** What the plugin operations leave alone *)

#[local] Instance sameTools_preorder : PreOrder sameTools.
Proof.
  split.
  - intros s. split; reflexivity.
  - intros a b c [H1 H2] [H3 H4]. unfold sameTools. split; congruence.
Qed.

Lemma withClient_sameTools {A} (method : string) (m : Eff ClientState A) :
  preserves sameTools (withClient method m).
Proof.
  intros s. unfold withClient. destruct (client s); [|split; reflexivity].
  destruct (m _) as [r cs]. split; reflexivity.
Qed.

Lemma thrownToString_sameTools (env : Env) (e : Thrown) :
  preserves sameTools (thrownToString env e).
Proof.
  unfold thrownToString. destruct e; try apply preserves_ret; try typeclasses eauto.
  unfold template. destruct (toStringOpt env v);
    [apply preserves_ret | apply preserves_throw]; typeclasses eauto.
Qed.

#[local] Hint Resolve withClient_sameTools thrownToString_sameTools : frame.

Lemma dispatch_sameTools (env : Env) (methodName : string) (params : Params) :
  preserves sameTools (dispatch env methodName params).
Proof.
  unfold dispatch, sendMessage, sendTemplateMessage, sendMedia, sendInteractiveMessage,
    sendLocation, markAsRead, getContactInfo, getBusinessProfile, updateBusinessProfile,
    rethrow.
  frame.
Qed.

#[local] Hint Resolve dispatch_sameTools : frame.

Lemma executeTool_sameTools (env : Env) (toolName : string) (params : Params) :
  preserves sameTools (executeTool env toolName params).
Proof.
  unfold executeTool. apply preserves_bind; [typeclasses eauto | apply preserves_getState; typeclasses eauto |].
  intros s0. destruct (getTool toolName s0) as [tool|]; [|frame].
  destruct (execute tool) as [manifestName|run]; simpl.
  - unfold executeManifest. frame.
  - intros s. split; reflexivity.
Qed.

Lemma initializeTools_in_sync (s : PluginState) :
  config_tools (snd (initializeTools s)) = mapValues (tools (snd (initializeTools s))).
Proof. reflexivity. Qed.

Lemma removeTool_run (toolName : string) (s : PluginState) :
  removeTool toolName s
  = (Return (mapHas toolName (tools s)),
     setConfigTools (mapValues (mapDelete toolName (tools s)))
       (setTools (mapDelete toolName (tools s)) s)).
Proof. reflexivity. Qed.

Lemma init_config_tools (env : Env) (s : PluginState) :
  config_tools (snd (init env s)) = config_tools s \/
  config_tools (snd (init env s)) = mapValues (tools (snd (init env s))).
Proof.
  unfold init, tryCatch, bind, getState. simpl.
  destruct (newWhatsAppClient env (Some (whatsAppConfig s))) as [c|e]; simpl.
  - destruct (negb (isConfigured c)); simpl.
    + left. reflexivity.
    + right. reflexivity.
  - left. pose proof (thrownToString_sameTools env e s) as [_ H].
    destruct (thrownToString env e s) as [[shown|e'] s']; simpl in *; exact H.
Qed.

(** C10.  [registerTool] enters the tool in the tool map, where [getTool],
    [hasTool], [getToolCount] and [executeTool] find it, and leaves
    [config.tools] as it was.  Of the operations of the plugin only [init]
    (through [initializeTools], when the client could be built) and
    [removeTool] assign [config.tools], and what they assign is the list of
    the map's values. *)
Theorem registerTool_does_not_refresh_config_tools (env : Env) :
  (forall tool s,
     let s' := snd (registerTool tool s) in
     getTool (tool_name tool) s' = Some tool /\
     hasTool (tool_name tool) s' = true /\
     getToolCount s' = (if hasTool (tool_name tool) s then getToolCount s
                        else Datatypes.S (getToolCount s)) /\
     (forall params,
        executeTool env (tool_name tool) params s' = runExecute env (execute tool) params s') /\
     config_tools s' = config_tools s) /\
  (forall op s, resynchronizes op = false ->
     config_tools (runPluginOp env op s) = config_tools s) /\
  (forall s, config_tools (snd (initializeTools s)) = mapValues (tools (snd (initializeTools s)))) /\
  (forall s, config_tools (snd (init env s)) = config_tools s \/
             config_tools (snd (init env s)) = mapValues (tools (snd (init env s)))) /\
  (forall toolName s,
     config_tools (snd (removeTool toolName s)) = mapValues (tools (snd (removeTool toolName s)))).
Proof.
  split; [|split; [|split; [|split]]].
  - intros tool s s'. subst s'. unfold registerTool, getTool, hasTool, getToolCount; simpl.
    assert (Hget : mapGet (tool_name tool) (mapSet (tool_name tool) tool (tools s)) = Some tool)
      by apply mapGet_mapSet_eq.
    repeat split.
    + exact Hget.
    + unfold mapHas. now rewrite Hget.
    + apply mapSize_mapSet.
    + intros params. unfold executeTool, bind, getState, getTool. simpl. now rewrite Hget.
  - intros op s Hop. destruct op; try discriminate Hop; simpl.
    + reflexivity.
    + reflexivity.
    + apply (executeTool_sameTools env toolName params s).
  - apply initializeTools_in_sync.
  - apply init_config_tools.
  - intros toolName s. now rewrite removeTool_run.
Qed.

Lemma registerTool_does_not_refresh_config_tools_witness :
  config_tools (runPluginOp sampleEnv (OpRegisterTool echoTool) samplePlugin)
  = config_tools samplePlugin /\
  getTool "echo" (snd (registerTool echoTool samplePlugin)) = Some echoTool.
Proof.
  destruct (registerTool_does_not_refresh_config_tools sampleEnv) as (Hreg & Hops & _).
  split.
  - apply Hops. reflexivity.
  - apply (Hreg echoTool samplePlugin).
Defined.

(** C8, counterexample to "shrinks the exposed list by exactly one".
    A freshly constructed plugin exposes the nine tools of the catalogue;
    registering a tenth and removing it again leaves nine entries in
    [config.tools] before and after the removal. *)
Lemma removeTool_after_registerTool_counterexample :
  let s1 := snd (registerTool echoTool samplePlugin) in
  let s2 := snd (removeTool "echo" s1) in
  hasTool "echo" s1 = true /\
  fst (removeTool "echo" s1) = Return true /\
  hasTool "echo" s2 = false /\
  length (config_tools s1) = 9%nat /\
  length (config_tools s2) = 9%nat /\
  Datatypes.S (length (config_tools s2)) <> length (config_tools s1).
Proof. vm_compute. repeat split; congruence. Qed.

(** C8 (amended).  [executeTool] on a name that is not in the tool map
    throws [Tool <name> not found] and changes nothing.  [removeTool] on a
    registered name returns [true], makes [getTool] and [hasTool] fail for
    that name, and sets [config.tools] to the values of the map, one fewer
    than the map held; [config.tools] itself shrinks by exactly one entry
    when it was in step with the map before the call. *)
Theorem removeTool_and_unknown_tool (env : Env) :
  (forall toolName params s,
     hasTool toolName s = false ->
     executeTool env toolName params s
     = (Throw (Error ("Tool " +:+ toolName +:+ " not found")), s)) /\
  (forall toolName s,
     wellFormedMap (tools s) ->
     hasTool toolName s = true ->
     let s' := snd (removeTool toolName s) in
     fst (removeTool toolName s) = Return true /\
     getTool toolName s' = None /\
     hasTool toolName s' = false /\
     config_tools s' = getTools s' /\
     Datatypes.S (length (config_tools s')) = getToolCount s /\
     (config_tools s = getTools s ->
      Datatypes.S (length (config_tools s')) = length (config_tools s))).
Proof.
  split.
  - intros toolName params s H. unfold executeTool, bind, getState, hasTool, mapHas, getTool in *.
    simpl. destruct (mapGet toolName (tools s)); [discriminate | reflexivity].
  - intros toolName s Hwf Hhas s'. subst s'. rewrite removeTool_run. simpl.
    unfold hasTool, getTool, getTools, getToolCount in *. simpl.
    assert (Hgone : mapGet toolName (mapDelete toolName (tools s)) = None)
      by now apply mapGet_mapDelete_eq.
    assert (Hsize : Datatypes.S (length (mapValues (mapDelete toolName (tools s))))
                    = mapSize (tools s))
      by (rewrite mapValues_length; now apply mapSize_mapDelete).
    repeat split.
    + now rewrite Hhas.
    + exact Hgone.
    + unfold mapHas. now rewrite Hgone.
    + exact Hsize.
    + intros Hsync. rewrite Hsize, Hsync. symmetry. apply mapValues_length.
Qed.

Lemma samplePlugin_wellFormed : wellFormedMap (tools samplePlugin).
Proof.
  unfold wellFormedMap. vm_compute.
  repeat (apply List.NoDup_cons; [simpl; intuition discriminate|]).
  apply List.NoDup_nil.
Defined.

Lemma removeTool_and_unknown_tool_witness :
  executeTool sampleEnv "whatsapp_fly" [] samplePlugin
  = (Throw (Error "Tool whatsapp_fly not found"), samplePlugin) /\
  Datatypes.S (length (config_tools (snd (removeTool "whatsapp_send_media" samplePlugin))))
  = length (config_tools samplePlugin).
Proof.
  destruct (removeTool_and_unknown_tool sampleEnv) as [Hexec Hremove].
  split.
  - apply (Hexec "whatsapp_fly" [] samplePlugin). reflexivity.
  - apply (Hremove "whatsapp_send_media" samplePlugin).
    + exact samplePlugin_wellFormed.
    + reflexivity.
    + reflexivity.
Defined.

(** Every operation keeps the keys of the tool map distinct. *)
Lemma initializeTools_wellFormed (s : PluginState) :
  wellFormedMap (tools s) -> wellFormedMap (tools (snd (initializeTools s))).
Proof.
  unfold initializeTools, modifyState.
  cbn [snd tools setTools setConfigTools].
  generalize (tools s). generalize getChatManifests.
  induction l as [|manifest l IH]; intros m Hwf; simpl; [exact Hwf|].
  apply IH. now apply wellFormed_mapSet.
Qed.

Lemma newWhatsAppPlugin_wellFormed (env : Env) (cfg : option WhatsAppConfig) (w : World) :
  wellFormedMap (tools (newWhatsAppPlugin env cfg w)).
Proof.
  unfold newWhatsAppPlugin. apply initializeTools_wellFormed. constructor.
Qed.

Lemma runPluginOp_wellFormed (env : Env) (op : PluginOp) (s : PluginState) :
  wellFormedMap (tools s) -> wellFormedMap (tools (runPluginOp env op s)).
Proof.
  intros Hwf.
  assert (Hinit : wellFormedMap (tools (snd (init env s)))).
  { unfold init, tryCatch, bind, getState.
    cbn [fst snd].
    destruct (newWhatsAppClient env (Some (whatsAppConfig s))) as [c|e].
    - cbn [modifyState]. destruct (negb (isConfigured c)).
      + exact Hwf.
      + apply (initializeTools_wellFormed (setClient (Some c) s)). exact Hwf.
    - pose proof (thrownToString_sameTools env e s) as [H _].
      unfold throw at 1.
      destruct (thrownToString env e s) as [[shown|e'] s']; simpl in *; now rewrite H. }
  destruct op; simpl.
  - exact Hinit.
  - exact Hinit.
  - exact Hwf.
  - now apply wellFormed_mapSet.
  - now apply wellFormed_mapDelete.
  - pose proof (executeTool_sameTools env toolName params s) as [H _]. now rewrite H.
Qed.

(** ** Credentials *)

Lemma newWhatsAppClient_cases (env : Env) (cfg : option WhatsAppConfig) :
  if credentialsResolved env cfg
  then exists c, newWhatsAppClient env cfg = Return c /\
                 config c = resolveConfig env cfg /\ isConfigured c = true
  else newWhatsAppClient env cfg = Throw (Error "WhatsApp API token is required") \/
       newWhatsAppClient env cfg = Throw (Error "WhatsApp phone number ID is required").
Proof.
  unfold credentialsResolved, newWhatsAppClient, isConfigured. cbv zeta.
  generalize (resolveConfig env cfg). intros r.
  destruct (strTruthy (apiToken r)) eqn:Ht; cbn [andb negb].
  - destruct (strTruthy (phoneNumberId r)) eqn:Hp; cbn [negb].
    + eexists. split; [reflexivity|]. cbn [config]. rewrite Ht, Hp. split; reflexivity.
    + right. reflexivity.
  - left. reflexivity.
Qed.

(** C7.  The credentials are resolved from the explicit configuration
    first and the process environment second.  When the resolved access
    token or phone-number id is empty, constructing the client throws, and
    [init] throws an error that starts with the fixed prefix while leaving
    the plugin as it was: no client is installed and nothing has run.  When
    both are non-empty the constructor returns a client holding the resolved
    configuration, and [init] returns with that client installed. *)
Theorem empty_credentials_rejected (env : Env) :
  (forall cfg,
     apiToken (resolveConfig env cfg)
     = orStr (cfg ≫= apiToken) (processEnv env "WHATSAPP_API_TOKEN") /\
     phoneNumberId (resolveConfig env cfg)
     = orStr (cfg ≫= phoneNumberId) (processEnv env "WHATSAPP_PHONE_NUMBER_ID")) /\
  (forall cfg,
     credentialsResolved env cfg = false ->
     exists message, newWhatsAppClient env cfg = Throw (Error message)) /\
  (forall cfg,
     credentialsResolved env cfg = true ->
     exists c, newWhatsAppClient env cfg = Return c /\ config c = resolveConfig env cfg) /\
  (forall s,
     credentialsResolved env (Some (whatsAppConfig s)) = false ->
     exists message,
       init env s
       = (Throw (Error ("WhatsApp plugin initialization failed: " +:+ message)), s)) /\
  (forall s,
     credentialsResolved env (Some (whatsAppConfig s)) = true ->
     exists c s',
       init env s = (Return tt, s') /\
       newWhatsAppClient env (Some (whatsAppConfig s)) = Return c /\
       client s' = Some c /\
       pluginWorld s' = pluginWorld s).
Proof.
  split; [|split; [|split; [|split]]].
  - intros [cfg|]; split; reflexivity.
  - intros cfg H. pose proof (newWhatsAppClient_cases env cfg) as Hc. rewrite H in Hc.
    destruct Hc as [-> | ->]; eexists; reflexivity.
  - intros cfg H. pose proof (newWhatsAppClient_cases env cfg) as Hc. rewrite H in Hc.
    destruct Hc as (c & Hc & Hcfg & _). eauto.
  - intros s H. pose proof (newWhatsAppClient_cases env (Some (whatsAppConfig s))) as Hc.
    rewrite H in Hc. unfold init, tryCatch, bind, getState.
    destruct Hc as [-> | ->]; eexists; reflexivity.
  - intros s H. pose proof (newWhatsAppClient_cases env (Some (whatsAppConfig s))) as Hc.
    rewrite H in Hc. destruct Hc as (c & Hc & _ & Hconf).
    unfold init, tryCatch, bind, getState. rewrite Hc. cbn [modifyState]. rewrite Hconf.
    cbn [negb]. eexists c, _. split; [reflexivity|]. split; [reflexivity|].
    split; reflexivity.
Qed.

Lemma empty_credentials_rejected_witness :
  (exists message,
     newWhatsAppClient sampleEnv (Some {| apiVersion := None;
                                          apiToken := Some "";
                                          phoneNumberId := Some "15550001111";
                                          businessAccountId := None;
                                          cacheMessageSeconds := None;
                                          cacheContactSeconds := None;
                                          requestTimeout := None |})
     = Throw (Error message)) /\
  (exists c s', init sampleEnv samplePlugin = (Return tt, s') /\
                newWhatsAppClient sampleEnv (Some (whatsAppConfig samplePlugin)) = Return c /\
                client s' = Some c /\
                pluginWorld s' = pluginWorld samplePlugin).
Proof.
  destruct (empty_credentials_rejected sampleEnv) as (_ & Hbad & _ & _ & Hinit).
  split.
  - apply Hbad. reflexivity.
  - apply Hinit. reflexivity.
Defined.

(** ** The contact cache *)

Lemma isFresh_stale_iff (age seconds : Z) :
  isFresh age (Some (Num seconds)) = false <-> age >= seconds * 1000.
Proof. unfold isFresh. rewrite Z.ltb_ge. lia. Qed.

(** The three ways a lookup can go. *)
Lemma client_getContactInfo_miss (env : Env) (phoneNumber : string) (s : ClientState) :
  contactCache (this s) !! contactKey phoneNumber = None ->
  let r := client_getContactInfo env (JStr phoneNumber) s in
  fst r = Return (placeholderContact (formatPhoneNumber phoneNumber)) /\
  contactCache (this (snd r))
  = <[contactKey phoneNumber := freshEntry phoneNumber (dateNow env (ticks (world s)))]>
      (contactCache (this s)) /\
  ticks (world (snd r)) = Datatypes.S (ticks (world s)).
Proof.
  intros H. unfold client_getContactInfo, bind, enter, modifyState, cacheGet. simpl.
  unfold contactKey in H. rewrite H. simpl. repeat split.
Qed.

Lemma client_getContactInfo_hit (env : Env) (phoneNumber : string) (s : ClientState)
    (entry : CacheEntry) :
  contactCache (this s) !! contactKey phoneNumber = Some entry ->
  isFresh (dateNow env (ticks (world s)) - timestamp entry)
          (cacheContactSeconds (config (this s))) = true ->
  let r := client_getContactInfo env (JStr phoneNumber) s in
  fst r = Return (entry_data entry) /\
  this (snd r) = this s /\
  ticks (world (snd r)) = Datatypes.S (ticks (world s)).
Proof.
  intros H Hfresh. unfold client_getContactInfo, bind, enter, modifyState, cacheGet. simpl.
  unfold contactKey in H. rewrite H. simpl. rewrite Hfresh. simpl. repeat split.
Qed.

Lemma client_getContactInfo_stale (env : Env) (phoneNumber : string) (s : ClientState)
    (entry : CacheEntry) :
  contactCache (this s) !! contactKey phoneNumber = Some entry ->
  isFresh (dateNow env (ticks (world s)) - timestamp entry)
          (cacheContactSeconds (config (this s))) = false ->
  let r := client_getContactInfo env (JStr phoneNumber) s in
  fst r = Return (placeholderContact (formatPhoneNumber phoneNumber)) /\
  contactCache (this (snd r))
  = <[contactKey phoneNumber :=
        freshEntry phoneNumber (dateNow env (Datatypes.S (ticks (world s))))]>
      (contactCache (this s)) /\
  ticks (world (snd r)) = Datatypes.S (Datatypes.S (ticks (world s))).
Proof.
  intros H Hfresh. unfold client_getContactInfo, bind, enter, modifyState, cacheGet. simpl.
  unfold contactKey in H. rewrite H. simpl. rewrite Hfresh. simpl. repeat split.
Qed.

(** C5, counterexample to the test [now - timestamp > ttl].
    With a TTL of one second, a first lookup at time 0 stores the entry with
    timestamp 0.  The second lookup reads the clock at 1000 ms: the age of
    the entry equals the TTL, it does not exceed it, and the test of the
    specification keeps the entry; the client nevertheless treats it as
    stale and stores a new one (timestamp 2000). *)
Lemma contact_cache_boundary_counterexample :
  let s1 := snd (client_getContactInfo sampleEnv (JStr "+15551234567") sampleState) in
  let s2 := snd (client_getContactInfo sampleEnv (JStr "+15551234567") s1) in
  let age := dateNow sampleEnv (ticks (world s1)) - 0 in
  cacheContactSeconds (config (this s1)) = Some (Num 1) /\
  timestamp <$> (contactCache (this s1) !! "contact_15551234567") = Some 0 /\
  age = 1000 /\
  specStale age 1 = false /\
  isFresh age (Some (Num 1)) = false /\
  timestamp <$> (contactCache (this s2) !! "contact_15551234567") = Some 2000.
Proof. vm_compute. repeat split; reflexivity. Qed.

(** C5 (amended).  [getContactInfo] looks the normalised number up in the
    contact cache.  An entry is fresh when [now - timestamp < ttl * 1000] and
    stale when [now - timestamp >= ttl * 1000]: a fresh entry is returned and
    the cache is left alone; on a stale or missing entry the placeholder
    contact (the normalised id, no name, business flag or picture) is stored
    under the key with a new clock reading and returned.  No key ever leaves
    the cache, and a second lookup that finds the entry fresh returns what
    the first one returned. *)
Theorem contact_cache_lookup (env : Env) (phoneNumber : string) (s : ClientState) :
  let key := contactKey phoneNumber in
  let ttl := cacheContactSeconds (config (this s)) in
  let placeholder := placeholderContact (formatPhoneNumber phoneNumber) in
  let r := client_getContactInfo env (JStr phoneNumber) s in
  match contactCache (this s) !! key with
  | Some entry =>
      if isFresh (dateNow env (ticks (world s)) - timestamp entry) ttl
      then fst r = Return (entry_data entry) /\
           contactCache (this (snd r)) = contactCache (this s)
      else fst r = Return placeholder /\
           contactCache (this (snd r))
           = <[key := freshEntry phoneNumber (dateNow env (Datatypes.S (ticks (world s))))]>
               (contactCache (this s))
  | None =>
      fst r = Return placeholder /\
      contactCache (this (snd r))
      = <[key := freshEntry phoneNumber (dateNow env (ticks (world s)))]>
          (contactCache (this s))
  end /\
  (id placeholder = formatPhoneNumber phoneNumber /\ name placeholder = None /\
   isBusiness placeholder = None /\ profilePictureUrl placeholder = None) /\
  (forall age seconds, isFresh age (Some (Num seconds)) = false <-> age >= seconds * 1000) /\
  (forall k, is_Some (contactCache (this s) !! k) ->
             is_Some (contactCache (this (snd r)) !! k)) /\
  (exists c1 entry1,
     fst r = Return c1 /\
     contactCache (this (snd r)) !! key = Some entry1 /\
     entry_data entry1 = c1 /\
     (isFresh (dateNow env (ticks (world (snd r))) - timestamp entry1) ttl = true ->
      let r2 := client_getContactInfo env (JStr phoneNumber) (snd r) in
      fst r2 = Return c1 /\ this (snd r2) = this (snd r))).
Proof.
  intros key ttl placeholder r.
  assert (Hcases :
    match contactCache (this s) !! key with
    | Some entry =>
        if isFresh (dateNow env (ticks (world s)) - timestamp entry) ttl
        then fst r = Return (entry_data entry) /\ this (snd r) = this s
        else fst r = Return placeholder /\
             contactCache (this (snd r))
             = <[key := freshEntry phoneNumber (dateNow env (Datatypes.S (ticks (world s))))]>
                 (contactCache (this s))
    | None =>
        fst r = Return placeholder /\
        contactCache (this (snd r))
        = <[key := freshEntry phoneNumber (dateNow env (ticks (world s)))]>
            (contactCache (this s))
    end).
  { destruct (contactCache (this s) !! key) as [entry|] eqn:Hlook.
    - destruct (isFresh _ ttl) eqn:Hfresh.
      + destruct (client_getContactInfo_hit env phoneNumber s entry Hlook Hfresh) as (? & ? & _).
        now split.
      + destruct (client_getContactInfo_stale env phoneNumber s entry Hlook Hfresh)
          as (? & ? & _).
        now split.
    - destruct (client_getContactInfo_miss env phoneNumber s Hlook) as (? & ? & _).
      now split. }
  assert (Hcfg : cacheContactSeconds (config (this (snd r))) = ttl).
  { destruct (client_getContactInfo_sameButContacts env (JStr phoneNumber) s) as (_ & Hc & _).
    subst r ttl. now rewrite Hc. }
  split; [|split; [|split; [|split]]].
  - destruct (contactCache (this s) !! key) as [entry|]; [|exact Hcases].
    destruct (isFresh _ ttl); [|exact Hcases].
    destruct Hcases as [? Hthis]. split; [assumption | now rewrite Hthis].
  - repeat split.
  - apply isFresh_stale_iff.
  - intros k Hk.
    destruct (contactCache (this s) !! key) as [entry|] eqn:Hlook.
    + destruct (isFresh _ ttl).
      * destruct Hcases as [_ Hthis]. now rewrite Hthis.
      * destruct Hcases as [_ ->]. rewrite lookup_insert. case_decide; [eauto | exact Hk].
    + destruct Hcases as [_ ->]. rewrite lookup_insert. case_decide; [eauto | exact Hk].
  - assert (Hsecond : forall c1 entry1,
              contactCache (this (snd r)) !! key = Some entry1 ->
              entry_data entry1 = c1 ->
              isFresh (dateNow env (ticks (world (snd r))) - timestamp entry1) ttl = true ->
              let r2 := client_getContactInfo env (JStr phoneNumber) (snd r) in
              fst r2 = Return c1 /\ this (snd r2) = this (snd r)).
    { intros c1 entry1 Hlook <- Hfresh. rewrite <- Hcfg in Hfresh.
      destruct (client_getContactInfo_hit env phoneNumber (snd r) entry1 Hlook Hfresh)
        as (? & ? & _).
      now split. }
    destruct (contactCache (this s) !! key) as [entry|] eqn:Hlook.
    + destruct (isFresh _ ttl).
      * destruct Hcases as [Hr Hthis]. exists (entry_data entry), entry.
        assert (Hl : contactCache (this (snd r)) !! key = Some entry) by now rewrite Hthis.
        split; [exact Hr|]. split; [exact Hl|]. split; [reflexivity|].
        intros Hf. exact (Hsecond _ entry Hl eq_refl Hf).
      * destruct Hcases as [Hr Hc]. eexists placeholder, _.
        assert (Hl : contactCache (this (snd r)) !! key
                     = Some (freshEntry phoneNumber (dateNow env (Datatypes.S (ticks (world s))))))
          by (rewrite Hc; apply lookup_insert_eq).
        split; [exact Hr|]. split; [exact Hl|]. split; [reflexivity|].
        intros Hf. exact (Hsecond _ _ Hl eq_refl Hf).
    + destruct Hcases as [Hr Hc]. eexists placeholder, _.
      assert (Hl : contactCache (this (snd r)) !! key
                   = Some (freshEntry phoneNumber (dateNow env (ticks (world s)))))
        by (rewrite Hc; apply lookup_insert_eq).
      split; [exact Hr|]. split; [exact Hl|]. split; [reflexivity|].
        intros Hf. exact (Hsecond _ _ Hl eq_refl Hf).
Qed.

Lemma contact_cache_lookup_witness :
  let r := client_getContactInfo sampleEnv (JStr "+15551234567") hourState in
  fst r = Return (placeholderContact "15551234567") /\
  fst (client_getContactInfo sampleEnv (JStr "+15551234567") (snd r)) = fst r.
Proof.
  intros r.
  destruct (contact_cache_lookup sampleEnv "+15551234567" hourState)
    as (Hfirst & _ & _ & _ & (c1 & entry1 & Hr & Hlook & Hdata & Hsecond)).
  fold r in Hfirst, Hr, Hlook, Hsecond.
  assert (Hmiss : contactCache (this hourState) !! contactKey "+15551234567" = None)
    by reflexivity.
  rewrite Hmiss in Hfirst. destruct Hfirst as [Hplaceholder Hcache].
  split; [exact Hplaceholder|].
  rewrite Hr. apply Hsecond.
  rewrite Hcache, lookup_insert_eq in Hlook. injection Hlook as <-.
  reflexivity.
Defined.

(** ** Error enrichment *)

Lemma append_empty_r (a : string) : a +:+ "" = a.
Proof.
  induction a as [|c a IH]; [reflexivity|].
  change (String c (a +:+ "") = String c a). now f_equal.
Qed.

Lemma prefix_append (a b : string) : String.prefix a (a +:+ b) = true.
Proof.
  induction a as [|c a IH]; simpl; [now destruct b|].
  destruct (ascii_dec c c); [exact IH | congruence].
Qed.

Lemma prefix_more (x a b : string) :
  String.prefix x a = true -> String.prefix x (a +:+ b) = true.
Proof.
  revert a. induction x as [|c x IH]; intros a H; [now destruct (a +:+ b)|].
  destruct a as [|c' a]; simpl in *; [discriminate|].
  destruct (ascii_dec c c'); [now apply IH | discriminate].
Qed.

Lemma includes_prefix (x h : string) : String.prefix x h = true -> includes x h = true.
Proof. intros H. destruct h; cbn [includes]; rewrite H; reflexivity. Qed.

Lemma includes_here (x t : string) : includes x (x +:+ t) = true.
Proof. apply includes_prefix, prefix_append. Qed.

Lemma includes_self (x : string) : includes x x = true.
Proof.
  apply includes_prefix. induction x as [|c x IH]; simpl; [reflexivity|].
  destruct (ascii_dec c c); [exact IH | congruence].
Qed.

Lemma includes_skip (x p h : string) : includes x h = true -> includes x (p +:+ h) = true.
Proof.
  intros H. induction p as [|c p IH]; simpl; [exact H|].
  rewrite IH. apply orb_true_r.
Qed.

Lemma includes_more (x h t : string) : includes x h = true -> includes x (h +:+ t) = true.
Proof.
  induction h as [|c h IH]; simpl.
  - rewrite orb_false_r. intros H. apply includes_prefix.
    destruct x; [now destruct t | discriminate].
  - intros H. apply orb_true_iff in H as [H|H].
    + apply orb_true_iff. left. apply (prefix_more x (String c h) t H).
    + rewrite (IH H). apply orb_true_r.
Qed.

Create HintDb includes.

#[local] Hint Resolve includes_here includes_self includes_skip includes_more : includes.

Lemma post_ret {S A} (a : A) (P : A -> Prop) Q : P a -> post (@ret S A a) P Q.
Proof. intros H s. now split. Qed.

Lemma post_throw {S A} (e : Thrown) (P : A -> Prop) (Q : Thrown -> Prop) :
  Q e -> post (@throw S A e) P Q.
Proof. intros H s. now split. Qed.

Lemma post_bind {S A B} (m : Eff S A) (k : A -> Eff S B) (P' : A -> Prop)
    (P : B -> Prop) (Q : Thrown -> Prop) :
  post m P' Q -> (forall a, P' a -> post (k a) P Q) -> post (bind m k) P Q.
Proof.
  intros Hm Hk s. unfold bind. specialize (Hm s).
  destruct (m s) as [[a|e] s1]; destruct Hm as [H ->]; [|now split].
  apply (Hk a H s).
Qed.

Lemma post_template {S} (env : Env) (v : JsVal) (Q : Thrown -> Prop) :
  (toStringOpt env v = None -> Q (TypeError "Cannot convert object to primitive value")) ->
  post (@template S env v) (fun shown => toStringOpt env v = Some shown) Q.
Proof.
  intros H. unfold template. destruct (toStringOpt env v) as [shown|].
  - now apply post_ret.
  - apply post_throw. now apply H.
Qed.

Lemma js_or_truthy (v d : JsVal) : truthy v = true -> js_or v d = v.
Proof. unfold js_or. now intros ->. Qed.

Lemma js_or_printable (env : Env) (v : JsVal) :
  toStringOpt env (js_or v (JStr "")) = None -> toStringOpt env v = None.
Proof. unfold js_or. destruct (truthy v); [auto | discriminate]. Qed.

Lemma composeErrorMessage_post (env : Env) (message : string) (r : HttpResponse) :
  post (composeErrorMessage env message r) (enriched env message r) (unprintableField env r).
Proof.
  unfold composeErrorMessage. fold (hasErrorBody r).
  set (base := message +:+ ": HTTP " +:+ numberToString env (status r)).
  assert (Hstatus : forall t, includes (numberToString env (status r)) (base +:+ t) = true).
  { intros t. unfold base. apply includes_more. auto with includes. }
  destruct (hasErrorBody r) eqn:Hbody; cbv zeta.
  2:{ apply post_ret. unfold enriched. cbv zeta. fold base.
      split; [|split; [|split]].
      - rewrite <- (append_empty_r base) at 2. apply prefix_append.
      - rewrite <- (append_empty_r base). apply Hstatus.
      - reflexivity.
      - congruence. }
  set (err := getProp (data r) "error").
  assert (Hfail : forall field, In field vendorErrorFields ->
                    toStringOpt env (js_or (getProp err field) (JStr "")) = None ->
                    unprintableField env r (TypeError "Cannot convert object to primitive value")).
  { intros field Hin Hnone. split; [reflexivity|]. split; [exact Hbody|].
    exists field. split; [exact Hin|]. now apply js_or_printable. }
  assert (Hfail' : forall field, In field vendorErrorFields ->
                    toStringOpt env (getProp err field) = None ->
                    unprintableField env r (TypeError "Cannot convert object to primitive value")).
  { intros field Hin Hnone. split; [reflexivity|]. split; [exact Hbody|]. now exists field. }
  eapply post_bind; [apply post_template, (Hfail "code"); simpl; tauto|].
  intros sCode HsCode.
  eapply post_bind; [apply post_template, (Hfail "message"); simpl; tauto|].
  intros sMessage HsMessage.
  set (m1 := base +:+ " - " +:+ sCode +:+ ": " +:+ sMessage).
  assert (H1 : forall field shown, field = "code" \/ field = "message" ->
                 truthy (getProp err field) = true ->
                 toStringOpt env (getProp err field) = Some shown ->
                 includes shown m1 = true).
  { intros field shown [-> | ->] Ht Hs; rewrite (js_or_truthy _ _ Ht) in *;
      unfold m1.
    - assert (shown = sCode) as -> by congruence. auto 6 with includes.
    - assert (shown = sMessage) as -> by congruence. auto 8 with includes. }
  eapply post_bind with
    (P' := fun m2 =>
       String.prefix base m2 = true /\
       (forall x, includes x m1 = true -> includes x m2 = true) /\
       (forall shown, truthy (getProp err "error_subcode") = true ->
          toStringOpt env (getProp err "error_subcode") = Some shown ->
          includes shown m2 = true)).
  { destruct (truthy (getProp err "error_subcode")) eqn:Hsub.
    - eapply post_bind; [apply post_template, (Hfail' "error_subcode"); simpl; tauto|].
      intros sSub HsSub. apply post_ret. split; [|split].
      + apply prefix_more. apply prefix_append.
      + intros x Hx. now apply includes_more.
      + intros shown _ Hs. assert (shown = sSub) as -> by congruence.
        auto 6 with includes.
    - apply post_ret. split; [apply prefix_append|]. split; [auto|discriminate]. }
  intros m2 (Hp2 & Hkeep2 & Hsub2).
  assert (Hdone : forall m3,
            String.prefix base m3 = true ->
            (forall x, includes x m2 = true -> includes x m3 = true) ->
            (forall field shown,
               field = "error_user_title" \/ field = "error_user_msg" ->
               truthy (getProp err field) = true ->
               toStringOpt env (getProp err field) = Some shown ->
               includes shown m3 = true) ->
            enriched env message r m3).
  { intros m3 Hp3 Hkeep3 Huser. unfold enriched. cbv zeta. fold base. fold err.
    split; [exact Hp3|]. split.
    { apply Hkeep3, Hkeep2. unfold m1. apply Hstatus. }
    split; [congruence|]. intros _ field shown Hin Ht Hs. simpl in Hin.
    destruct Hin as [<-|[<-|[<-|[<-|[<-|[]]]]]].
    - apply Hkeep3, Hkeep2. apply (H1 "code"); auto.
    - apply Hkeep3, Hkeep2. apply (H1 "message"); auto.
    - apply Hkeep3. now apply Hsub2.
    - apply (Huser "error_user_title"); auto.
    - apply (Huser "error_user_msg"); auto. }
  destruct (truthy (getProp err "error_user_title") || truthy (getProp err "error_user_msg"))
    eqn:Huser.
  - eapply post_bind; [apply post_template, (Hfail "error_user_title"); simpl; tauto|].
    intros sTitle HsTitle.
    eapply post_bind; [apply post_template, (Hfail "error_user_msg"); simpl; tauto|].
    intros sMsg HsMsg. apply post_ret. apply Hdone.
    + now apply prefix_more.
    + intros x Hx. now apply includes_more.
    + intros field shown [-> | ->] Ht Hs; rewrite (js_or_truthy _ _ Ht) in *.
      * assert (shown = sTitle) as -> by congruence. auto 6 with includes.
      * assert (shown = sMsg) as -> by congruence. auto 8 with includes.
  - apply post_ret. apply orb_false_iff in Huser as [Ht Hm]. apply Hdone.
    + exact Hp2.
    + auto.
    + intros field shown [-> | ->]; congruence.
Qed.

(** C6, counterexample.  "Otherwise the original error propagates
    unchanged" fails for a failure without a vendor error body when the
    server answered: the 502 of a gateway becomes a new [Error] that carries
    the status.  "Fails with a composed error message" fails for a vendor
    error body with a member that does not convert to a string: the
    operation fails with the [TypeError] of the conversion. *)
Lemma bare_http_failure_counterexample :
  carriesVendorErrorBody badGatewayError = false /\
  fst (handleApiError sampleEnv "Error sending message" badGatewayError sampleState)
  = Throw (Error "Error sending message: HTTP 502") /\
  fst (client_sendMessage badGatewayEnv (JStr "+15551234567") (JStr "hello") sampleState)
  = Throw (Error "Error sending message: HTTP 502") /\
  fst (client_sendMessage badGatewayEnv (JStr "+15551234567") (JStr "hello") sampleState)
  <> Throw badGatewayError /\
  carriesVendorErrorBody unprintableCodeError = true /\
  fst (client_sendMessage (rejectingEnv unprintableCodeError)
         (JStr "+15551234567") (JStr "hello") sampleState)
  = Throw (TypeError "Cannot convert object to primitive value").
Proof. vm_compute. repeat split; congruence. Qed.

Lemma handleApiError_throws (env : Env) (message : string) (e : Thrown) (s : ClientState) :
  exists thrown,
    handleApiError env message e s = (Throw thrown, s) /\
    match e with
    | AxiosError (Some r) _ =>
        (exists m, thrown = Error m /\ enriched env message r m)
        \/ unprintableField env r thrown
    | _ => thrown = e
    end.
Proof.
  unfold handleApiError.
  destruct e as [m|m|[r|] m|v]; try (eexists; split; reflexivity).
  unfold bind. pose proof (composeErrorMessage_post env message r s) as H.
  destruct (composeErrorMessage env message r s) as [[m'|e'] s']; destruct H as [H ->].
  - exists (Error m'). split; [reflexivity|]. left. eauto.
  - exists e'. split; [reflexivity|]. now right.
Qed.

(** Two vendor answers: an expired token (code 190, subcode 463), and a
    failed authentication, whose error code 0 is falsy and is left out of
    the message. *)
Example expired_token_message :
  fst (handleApiError sampleEnv "Error sending message" expiredTokenError sampleState)
  = Throw (Error "Error sending message: HTTP 401 - 190: Session has expired (subcode: 463)").
Proof. reflexivity. Qed.

Example auth_exception_message :
  fst (handleApiError sampleEnv "Error sending message" authExceptionError sampleState)
  = Throw (Error "Error sending message: HTTP 401 - : AuthException").
Proof. reflexivity. Qed.

(** ** Media messages *)


Lemma send_run (env : Env) (req : Request) (s : ClientState) :
  send env req s
  = (match httpRequest env (length (requests (world s))) req with
     | Resolved r => Return r
     | Rejected e => Throw e
     end, logged req s).
Proof. unfold send. destruct (httpRequest _ _ _); reflexivity. Qed.

Lemma firstMessageId_state (env : Env) (r : HttpResponse) (s : ClientState) :
  exists o, firstMessageId env r s = (o, s).
Proof.
  pose proof (firstMessageId_same env r s) as H.
  destruct (firstMessageId env r s) as [o s']. simpl in H. rewrite H. eauto.
Qed.

Lemma catchApiError_state (env : Env) {A} (message : string) (e : Thrown) (s : ClientState) :
  exists thrown, @catchApiError env A message e s = (Throw thrown, s).
Proof.
  destruct (handleApiError_throws env message e s) as (thrown & H & _).
  exists thrown. unfold catchApiError, bind. now rewrite H.
Qed.

(** Symbolic execution of the tail of a network method: whatever the
    transport answers, what follows the request leaves the state alone. *)
Ltac settle :=
  repeat match goal with
    | |- context [match httpRequest ?env ?n ?q with _ => _ end] =>
        destruct (httpRequest env n q)
    | |- context [firstMessageId ?env ?r ?st] =>
        let o := fresh "o" in
        destruct (firstMessageId_state env r st) as (o & ->); destruct o
    | |- context [catchApiError ?env0 ?msg ?e ?st] =>
        destruct (@catchApiError_state env0 JsVal msg e st) as (? & ->)
    end.

Lemma lookupProp_setProp_eq (k : string) (v : JsVal) (props : list (string * JsVal)) :
  lookupProp k (setProp k v props) = Some v.
Proof.
  induction props as [|[k' v'] rest IH]; simpl.
  - now rewrite String.eqb_refl.
  - destruct (String.eqb k k') eqn:E; simpl; rewrite ?String.eqb_refl, ?E; auto.
Qed.

Lemma assignProp_member (k : string) (v : JsVal) (props : list (string * JsVal)) :
  k <> "__proto__" -> lookupProp k (assignProp k v props) = Some v.
Proof.
  intros Hk. unfold assignProp.
  destruct (String.eqb_spec k "__proto__"); [contradiction|]. apply lookupProp_setProp_eq.
Qed.

Lemma assignProp_proto (k : string) (v : JsVal) (props : list (string * JsVal)) :
  k = "__proto__" -> assignProp k v props = props.
Proof. intros ->. reflexivity. Qed.






(** The two requests of that run, in full. *)
Example sendMedia_upload_then_send :
  requests (world (snd (client_sendMedia sampleEnv
                          [("to", JStr "+15551234567"); ("type", JStr "Image");
                           ("filePath", JStr "/tmp/cat.png"); ("caption", JStr "a cat")]
                          sampleState)))
  = [PostForm "/15550001111/media"
       [("messaging_product", FormText "whatsapp"); ("file", FormFile (JStr "/tmp/cat.png"))];
     Post "/15550001111/messages"
       (JObj [("messaging_product", JStr "whatsapp");
              ("recipient_type", JStr "individual");
              ("to", JStr "15551234567");
              ("type", JStr "image");
              ("image", JObj [("id", JStr "media-77"); ("caption", JStr "a cat")])])].
Proof. reflexivity. Qed.

(** ** Message ids *)

Lemma sameState_run {A} (m : Eff ClientState A) (s : ClientState) :
  preserves sameState m -> exists o, m s = (o, s).
Proof.
  intros H. specialize (H s). destruct (m s) as [o s']. simpl in H. rewrite H. eauto.
Qed.

Lemma firstMessageId_spec (env : Env) (r : HttpResponse) (s s' : ClientState) (v : JsVal) :
  firstMessageId env r s = (Return v, s') -> messageIdOf r v.
Proof.
  unfold firstMessageId, messageIdOf, carriesNoMessages.
  destruct (truthy (data r)) eqn:Hd; simpl.
  2:{ intros [= <- _]. split; [|reflexivity].
      intros e rest He. destruct (data r); simpl in *; discriminate. }
  destruct (truthy (getProp (data r) "messages")) eqn:Hm; simpl.
  2:{ intros [= <- _]. split; [|reflexivity].
      intros e rest He. rewrite He in Hm. discriminate. }
  destruct (getProp (data r) "messages") as [| |b|n| |str|items|props] eqn:Hmsg;
    try discriminate Hm.
  - simpl. intros [= <- _]. split; [discriminate|].
    intros [H|[H|H]]; discriminate.
  - simpl. intros [= <- _]. split; [discriminate|].
    intros [H|[H|H]]; discriminate.
  - intros H. split; [discriminate|]. intros [H'|[H'|H']]; discriminate.
  - destruct items as [|e rest]; simpl.
    + intros [= <- _]. split; [discriminate | reflexivity].
    + unfold readProp, bind. simpl. destruct (isNullish e); simpl; [discriminate|].
      intros [= <- _]. split.
      * intros e' rest' [= <- _]. reflexivity.
      * intros [H|[H|H]]; discriminate.
  - intros H. split; [discriminate|]. intros [H'|[H'|H']]; discriminate.
Qed.

Lemma lastAnswer_logged (env : Env) (req : Request) (s : ClientState) (r : HttpResponse) :
  httpRequest env (length (requests (world s))) req = Resolved r ->
  lastAnswer env (world (logged req s)) = Some r.
Proof.
  intros H. unfold lastAnswer, logged. simpl. rewrite rev_unit, length_rev, H. reflexivity.
Qed.

(** Symbolic execution of a run that is known to return: the branches that
    throw are discarded, and the request answered last is kept. *)
Ltac returned H :=
  repeat first
    [ discriminate H
    | rewrite send_run in H; cbn -[setProp truthy] in H
    | match type of H with
      | context [match httpRequest ?env ?n ?q with _ => _ end] =>
          let Hq := fresh "Hq" in
          destruct (httpRequest env n q) eqn:Hq; cbn -[setProp truthy] in H
      | context [firstMessageId ?env ?r ?st] =>
          let o := fresh "o" in
          let Ho := fresh "Ho" in
          destruct (firstMessageId_state env r st) as (o & Ho);
          rewrite Ho in H; destruct o; cbn -[setProp truthy] in H
      | context [catchApiError ?env0 ?msg ?e ?st] =>
          let Hc := fresh "Hc" in
          destruct (@catchApiError_state env0 JsVal msg e st) as (? & Hc);
          rewrite Hc in H; cbn -[setProp truthy] in H
      | context [lengthPositive ?env ?v ?st] =>
          let o := fresh "o" in
          let Hl := fresh "Hl" in
          destruct (sameState_run (lengthPositive env v) st (lengthPositive_same env v))
            as (o & Hl);
          rewrite Hl in H; destruct o as [[]|]; cbn -[setProp truthy] in H
      | context [@template ?S ?env0 ?v ?st] =>
          let o := fresh "o" in
          let Ht := fresh "Ht" in
          destruct (sameState_run (@template S env0 v) st (template_same env0 v)) as (o & Ht);
          rewrite Ht in H; destruct o; cbn -[setProp truthy] in H
      | context [if ?b then _ else _] =>
          destruct b eqn:?; cbn -[setProp truthy] in H
      end ].

Ltac answered :=
  match goal with
  | Ho : firstMessageId ?env ?r ?st = (Return ?v, ?st),
    H : (Return ?v, ?st) = (Return ?w, ?s') |- _ =>
      injection H as <- <-; exists r; split;
      [ apply lastAnswer_logged; assumption
      | exact (firstMessageId_spec env r _ _ _ Ho) ]
  end.

Lemma clientSend_returns (env : Env) (tool : SendTool) (params : Params)
    (s s' : ClientState) (v : JsVal) :
  clientSend env tool params s = (Return v, s') ->
  exists r, lastAnswer env (world s') = Some r /\ messageIdOf r v.
Proof.
  intros H. destruct tool; unfold clientSend in H;
    unfold client_sendMessage, client_sendTemplateMessage, client_sendMedia,
      client_sendInteractiveMessage, client_sendLocation, client_uploadMedia,
      bind, tryCatch, enter, modifyState in H;
    (destruct (param params "to"); try discriminate H);
    try (destruct (param params "type"); try discriminate H);
    cbn -[setProp truthy] in H; returned H; answered.
Qed.

Lemma firstMessageId_first (env : Env) (r : HttpResponse) (e : JsVal) (rest : list JsVal)
    (s : ClientState) :
  getProp (data r) "messages" = JArr (e :: rest) ->
  isNullish e = false ->
  firstMessageId env r s = (Return (getProp e "id"), s).
Proof.
  intros Hm He. unfold firstMessageId. rewrite Hm.
  assert (Hd : truthy (data r) = true).
  { destruct (data r); simpl in *; try discriminate; reflexivity. }
  rewrite Hd. simpl. unfold bind, readProp. simpl. now rewrite He.
Qed.

Lemma firstMessageId_none (env : Env) (r : HttpResponse) (s : ClientState) :
  carriesNoMessages r -> firstMessageId env r s = (Return (JStr ""), s).
Proof.
  unfold firstMessageId. intros [H|[H|H]]; rewrite H; simpl; try reflexivity.
  - now rewrite andb_false_r.
  - now destruct (truthy (data r)).
Qed.

Lemma clientSend_answered (env : Env) (tool : SendTool) (params : Params)
    (s : ClientState) (r : HttpResponse) (v : JsVal) :
  wellTypedSend tool params = true ->
  answeredWith env tool params s r ->
  (forall st, firstMessageId env r st = (Return v, st)) ->
  fst (clientSend env tool params s) = Return v.
Proof.
  unfold wellTypedSend, answeredWith. intros Hwt Hnet Hid.
  apply andb_prop in Hwt as [Hto Hwt].
  destruct (param params "to") as [| | | | |to| |] eqn:Eto; try discriminate Hto.
  destruct tool; cbn [isMediaTool andb] in Hnet; unfold clientSend;
    unfold client_sendMessage, client_sendTemplateMessage, client_sendMedia,
      client_sendInteractiveMessage, client_sendLocation,
      bind, tryCatch, enter, modifyState;
    rewrite ?Eto.
  - cbn -[setProp truthy]. rewrite send_run. cbn -[setProp truthy].
    rewrite Hnet, Hid. reflexivity.
  - destruct (param params "components") as [| | | | | |items|]; try discriminate Hwt;
      cbn -[setProp]; rewrite send_run; cbn -[setProp truthy];
      rewrite Hnet, Hid; reflexivity.
  - apply andb_prop in Hwt as [Htype Hsource].
    destruct (param params "type") as [| | | | |type| |]; try discriminate Htype.
    destruct (truthy (param params "filePath")) eqn:Hfile.
    + destruct Hnet as (path & upload & Hpath & Hexists & Hupload & Hmedia & Hsend).
      assert (Hidt : truthy (getProp (data upload) "id") = true)
        by (apply andb_prop in Hmedia; tauto).
      unfold client_uploadMedia, bind, tryCatch, enter, modifyState, existsSyncOf.
      rewrite Hpath, Hexists. cbn -[setProp truthy]. rewrite send_run. cbn -[setProp truthy].
      unfold uploadRequest in Hupload. rewrite Hupload, Hmedia. cbn -[setProp truthy].
      rewrite Hidt. cbn -[setProp truthy]. rewrite send_run. cbn -[setProp truthy].
      rewrite length_app, Nat.add_1_r, Hsend, Hid. reflexivity.
    + cbn [orb] in Hsource. cbn -[setProp truthy]. change (truthy JUndefined) with false.
      rewrite Hsource. cbn -[setProp truthy]. rewrite send_run. cbn -[setProp truthy].
      rewrite Hnet, Hid. reflexivity.
  - cbn -[setProp truthy]. rewrite send_run. cbn -[setProp truthy].
    rewrite Hnet, Hid. reflexivity.
  - cbn -[setProp truthy]. rewrite send_run. cbn -[setProp truthy].
    rewrite Hnet, Hid. reflexivity.
Qed.

Lemma pluginSend_of_client (env : Env) (tool : SendTool) (params : Params)
    (ps : PluginState) (c : Client) (v : JsVal) :
  client ps = Some c ->
  requiredPresent tool params = true ->
  fst (clientSend env tool params {| this := c; world := pluginWorld ps |}) = Return v ->
  fst (pluginSend env tool params ps) = Return (JObj [("success", JBool true); ("messageId", v)]).
Proof.
  intros Hc Hreq Hrun. apply negb_true_iff in Hreq.
  destruct tool; unfold pluginSend, clientSend in *;
    unfold sendMessage, sendTemplateMessage, sendMedia, sendInteractiveMessage, sendLocation;
    rewrite Hreq; unfold tryCatch, bind, withClient, rethrow; rewrite Hc;
    match goal with
    | |- context [let (_, _) := ?m ?st in _] => destruct (m st) as [[v'|e] cs]
    end;
    cbn [fst] in Hrun; try discriminate Hrun; injection Hrun as ->; reflexivity.
Qed.

Lemma pluginSend_returns (env : Env) (tool : SendTool) (params : Params)
    (ps ps' : PluginState) (out : JsVal) :
  pluginSend env tool params ps = (Return out, ps') ->
  exists c v cs',
    client ps = Some c /\
    clientSend env tool params {| this := c; world := pluginWorld ps |} = (Return v, cs') /\
    out = success v.
Proof.
  intros H. destruct tool; unfold pluginSend in H;
    unfold sendMessage, sendTemplateMessage, sendMedia, sendInteractiveMessage,
      sendLocation in H;
    match type of H with
    | (if ?b then _ else _) _ = _ => destruct b; [discriminate H|]
    end;
    unfold tryCatch, bind, withClient, rethrow in H;
    (destruct (client ps) as [c|]; [|discriminate H]);
    exists c; unfold clientSend;
    match type of H with
    | context [let (_, _) := ?m ?st in _] => destruct (m st) as [[v|e] cs] eqn:Hrun
    end;
    try discriminate H;
    exists v, cs; (split; [reflexivity|]); (split; [reflexivity|]);
    simpl in H; congruence.
Qed.

(** C4.  A send method that returns has had its last request answered, and
    what it returns is the [id] of the first entry of the answer's message
    list when that list is non-empty, and the empty string when the answer
    carries no messages; the handler of the adapter returns the object
    [{success: true, messageId}] built from that value.  And a successful
    send does return: for well-typed arguments and a vendor that answers
    the send request (after answering the upload with a media id, for media
    given by a file path), each of the five client methods returns that id
    or the empty string, and each handler of the adapter, on a plugin with a
    client and with its required parameters present, returns the object
    with [success: true] and that [messageId]. *)
Theorem send_returns_first_message_id (env : Env) (tool : SendTool) (params : Params) :
  (forall s s' v,
     clientSend env tool params s = (Return v, s') ->
     exists r, lastAnswer env (world s') = Some r /\ messageIdOf r v) /\
  (forall ps ps' out,
     pluginSend env tool params ps = (Return out, ps') ->
     exists c v cs',
       client ps = Some c /\
       clientSend env tool params {| this := c; world := pluginWorld ps |} = (Return v, cs') /\
       out = JObj [("success", JBool true); ("messageId", v)]) /\
  (forall s r,
     wellTypedSend tool params = true ->
     answeredWith env tool params s r ->
     (forall e rest,
        getProp (data r) "messages" = JArr (e :: rest) ->
        isNullish e = false ->
        fst (clientSend env tool params s) = Return (getProp e "id")) /\
     (carriesNoMessages r -> fst (clientSend env tool params s) = Return (JStr ""))) /\
  (forall ps c r,
     client ps = Some c ->
     requiredPresent tool params = true ->
     wellTypedSend tool params = true ->
     answeredWith env tool params {| this := c; world := pluginWorld ps |} r ->
     (forall e rest,
        getProp (data r) "messages" = JArr (e :: rest) ->
        isNullish e = false ->
        fst (pluginSend env tool params ps)
        = Return (JObj [("success", JBool true); ("messageId", getProp e "id")])) /\
     (carriesNoMessages r ->
      fst (pluginSend env tool params ps)
      = Return (JObj [("success", JBool true); ("messageId", JStr "")]))).
Proof.
  assert (Hclient : forall s r,
     wellTypedSend tool params = true ->
     answeredWith env tool params s r ->
     (forall e rest,
        getProp (data r) "messages" = JArr (e :: rest) ->
        isNullish e = false ->
        fst (clientSend env tool params s) = Return (getProp e "id")) /\
     (carriesNoMessages r -> fst (clientSend env tool params s) = Return (JStr ""))).
  { intros s r Hwt Hnet. split.
    - intros e rest Hm He. apply (clientSend_answered env tool params s r); auto.
      intros st. now apply (firstMessageId_first env r e rest).
    - intros Hnone. apply (clientSend_answered env tool params s r); auto.
      intros st. now apply firstMessageId_none. }
  split; [|split; [|split]].
  - intros s s' v. apply clientSend_returns.
  - intros ps ps' out. apply pluginSend_returns.
  - exact Hclient.
  - intros ps c r Hc Hreq Hwt Hnet.
    destruct (Hclient _ r Hwt Hnet) as [Hfirst Hnone]. split.
    + intros e rest Hm He. apply (pluginSend_of_client env tool params ps c); auto.
      now apply (Hfirst e rest).
    + intros Hno. apply (pluginSend_of_client env tool params ps c); auto.
Qed.

Lemma send_returns_first_message_id_witness :
  let text := [("to", JStr "+15551234567"); ("message", JStr "hello")] in
  let media := [("to", JStr "+15551234567"); ("type", JStr "image");
                ("filePath", JStr "/tmp/cat.png")] in
  let ps := snd (init sampleEnv samplePlugin) in
  let quiet := steadyEnv {| status := 200; data := JObj [] |} in
  fst (pluginSend sampleEnv SendText text ps)
  = Return (JObj [("success", JBool true); ("messageId", JStr "wamid.1")]) /\
  fst (pluginSend sampleEnv SendMediaFile media ps)
  = Return (JObj [("success", JBool true); ("messageId", JStr "wamid.1")]) /\
  fst (pluginSend quiet SendText text ps)
  = Return (JObj [("success", JBool true); ("messageId", JStr "")]) /\
  (exists r,
     lastAnswer sampleEnv (world (snd (clientSend sampleEnv SendText text sampleState)))
     = Some r /\
     messageIdOf r (JStr "wamid.1")).
Proof.
  intros text media ps quiet.
  assert (Hc : client ps = Some sampleClient) by reflexivity.
  split; [|split; [|split]].
  - destruct (send_returns_first_message_id sampleEnv SendText text)
      as (_ & _ & _ & Hadapter).
    apply (proj1 (Hadapter ps sampleClient sampleResponse Hc eq_refl eq_refl
                    (fun _ _ => eq_refl))
             (JObj [("id", JStr "wamid.1")]) []); reflexivity.
  - destruct (send_returns_first_message_id sampleEnv SendMediaFile media)
      as (_ & _ & _ & Hadapter).
    apply (proj1 (Hadapter ps sampleClient sampleResponse Hc eq_refl eq_refl
                    (ex_intro _ "/tmp/cat.png"
                       (ex_intro _ sampleUploadResponse
                          (conj eq_refl (conj eq_refl (conj eq_refl
                             (conj eq_refl (fun _ _ => eq_refl))))))))
             (JObj [("id", JStr "wamid.1")]) []); reflexivity.
  - destruct (send_returns_first_message_id quiet SendText text)
      as (_ & _ & _ & Hadapter).
    apply (proj2 (Hadapter ps sampleClient {| status := 200; data := JObj [] |}
                    Hc eq_refl eq_refl (fun _ _ => eq_refl))).
    right. left. reflexivity.
  - destruct (send_returns_first_message_id sampleEnv SendText text) as (Hreturns & _).
    apply (Hreturns sampleState _ (JStr "wamid.1")). reflexivity.
Defined.

(** The same call through the adapter, on an initialised plugin, and a
    response without messages. *)
Example executeTool_send_message :
  fst (executeTool sampleEnv "whatsapp_send_message"
         [("to", JStr "+15551234567"); ("message", JStr "hello")]
         (snd (init sampleEnv samplePlugin)))
  = Return (JObj [("success", JBool true); ("messageId", JStr "wamid.1")]).
Proof. reflexivity. Qed.

Example sendMessage_without_messages :
  let quiet := steadyEnv {| status := 200; data := JObj [] |} in
  fst (executeTool quiet "whatsapp_send_message"
         [("to", JStr "+15551234567"); ("message", JStr "hello")]
         (snd (init quiet samplePlugin)))
  = Return (JObj [("success", JBool true); ("messageId", JStr "")]).
Proof. reflexivity. Qed.

Lemma client_getContactInfo_noRequest (env : Env) (v : JsVal) :
  preserves sameRequests (client_getContactInfo env v).
Proof.
  unfold client_getContactInfo.
  assert (Hset : forall k e, preserves sameRequests (cacheSet k e))
    by (intros k e s; reflexivity).
  frame.
Qed.

(** ** Failed requests *)

Lemma falsy_printable (env : Env) (v : JsVal) :
  truthy v = false -> toStringOpt env v <> None.
Proof. destruct v as [| |[]|n| |str|items|props]; simpl; congruence. Qed.

Lemma js_or_shown (env : Env) (v : JsVal) (shown : string) :
  toStringOpt env (js_or v (JStr "")) = Some shown -> toStringOpt env v <> None.
Proof.
  unfold js_or. destruct (truthy v) eqn:Ht; [congruence|].
  intros _. now apply falsy_printable.
Qed.

(** A composed message exists only when every printed member prints. *)
Lemma composeErrorMessage_printable (env : Env) (message : string) (r : HttpResponse)
    (s s' : ClientState) (m : string) :
  composeErrorMessage env message r s = (Return m, s') ->
  hasErrorBody r = true ->
  printableErrorBody env r = true.
Proof.
  unfold composeErrorMessage. fold (hasErrorBody r). intros H Hbody.
  rewrite Hbody in H. cbv zeta in H.
  unfold printableErrorBody, vendorErrorFields, printable. cbn [forallb].
  remember (getProp (getProp (data r) "error") "code") as code.
  remember (getProp (getProp (data r) "error") "message") as apiMessage.
  remember (getProp (getProp (data r) "error") "error_subcode") as subcode.
  remember (getProp (getProp (data r) "error") "error_user_title") as title.
  remember (getProp (getProp (data r) "error") "error_user_msg") as userMsg.
  unfold bind, template, ret, throw in H.
  destruct (toStringOpt env (js_or code (JStr ""))) as [sCode|] eqn:Ecode;
    cbv beta iota in H; [|discriminate H].
  destruct (toStringOpt env (js_or apiMessage (JStr ""))) as [sMessage|] eqn:Emessage;
    cbv beta iota in H; [|discriminate H].
  apply js_or_shown in Ecode, Emessage.
  assert (Esub : toStringOpt env subcode <> None).
  { destruct (truthy subcode) eqn:Ht; [|now apply falsy_printable].
    destruct (toStringOpt env subcode); [congruence | discriminate H]. }
  assert (Euser : toStringOpt env title <> None /\ toStringOpt env userMsg <> None).
  { destruct (truthy title || truthy userMsg) eqn:Hu.
    - destruct (truthy subcode); [destruct (toStringOpt env subcode); [|discriminate H]|];
        cbv beta iota in H;
        (destruct (toStringOpt env (js_or title (JStr ""))) eqn:Etitle;
           cbv beta iota in H; [|discriminate H]);
        (destruct (toStringOpt env (js_or userMsg (JStr ""))) eqn:Emsg;
           cbv beta iota in H; [|discriminate H]);
        apply js_or_shown in Etitle, Emsg; now split.
    - apply orb_false_iff in Hu as [H1 H2]. split; now apply falsy_printable. }
  destruct Euser as [Etitle Emsg].
  destruct (toStringOpt env code); [|congruence].
  destruct (toStringOpt env apiMessage); [|congruence].
  destruct (toStringOpt env subcode); [|congruence].
  destruct (toStringOpt env title); [|congruence].
  destruct (toStringOpt env userMsg); [|congruence].
  reflexivity.
Qed.

Lemma unprintableField_not_printable (env : Env) (r : HttpResponse) (e : Thrown) :
  unprintableField env r e ->
  e = TypeError "Cannot convert object to primitive value" /\
  hasErrorBody r = true /\ printableErrorBody env r = false.
Proof.
  intros (-> & Hbody & field & Hin & Hnone). split; [reflexivity|]. split; [exact Hbody|].
  unfold printableErrorBody. apply not_true_is_false. intros Hall.
  rewrite forallb_forall in Hall. specialize (Hall field Hin).
  unfold printable in Hall. rewrite Hnone in Hall. discriminate Hall.
Qed.

Lemma handleApiError_outcome (env : Env) (message : string) (e : Thrown) (s : ClientState) :
  exists thrown,
    handleApiError env message e s = (Throw thrown, s) /\
    match e with
    | AxiosError (Some r) _ => enrichedOutcome env message r thrown
    | _ => thrown = e
    end.
Proof.
  destruct (handleApiError_throws env message e s) as (thrown & Hrun & Hshape).
  exists thrown. split; [exact Hrun|].
  destruct e as [m|m|[r|] m|v]; try exact Hshape.
  unfold enrichedOutcome. destruct Hshape as [(m' & -> & Henriched)|Hun].
  - assert (Hp : negb (hasErrorBody r) || printableErrorBody env r = true).
    { destruct (hasErrorBody r) eqn:Hbody; [|reflexivity]. cbn [negb orb].
      unfold handleApiError, bind in Hrun.
      pose proof (composeErrorMessage_post env message r s) as Hpost.
      destruct (composeErrorMessage env message r s) as [[m1|e1] s1] eqn:Hc.
      - exact (composeErrorMessage_printable env message r s s1 m1 Hc Hbody).
      - destruct Hpost as [(-> & _) _]. discriminate Hrun. }
    rewrite Hp. eauto.
  - destruct (unprintableField_not_printable env r thrown Hun) as (-> & -> & ->).
    reflexivity.
Qed.

Lemma lastRejection_logged (env : Env) (req : Request) (s : ClientState) :
  lastRejection env (world (logged req s))
  = match httpRequest env (length (requests (world s))) req with
    | Resolved _ => None
    | Rejected e => Some e
    end.
Proof. unfold lastRejection, logged. simpl. now rewrite rev_unit, length_rev. Qed.

Lemma catchApiError_run (env : Env) {A} (message : string) (e : Thrown) (s : ClientState) :
  exists thrown,
    handleApiError env message e s = (Throw thrown, s) /\
    @catchApiError env A message e s = (Throw thrown, s).
Proof.
  destruct (handleApiError_throws env message e s) as (thrown & H & _).
  exists thrown. split; [exact H|]. unfold catchApiError, bind. now rewrite H.
Qed.

(** No request was issued: the trace did not grow. *)
Ltac no_request :=
  let Hgrow := fresh "Hgrow" in
  intros Hgrow _; exfalso; apply Hgrow; reflexivity.

Ltac last_request Hlast :=
  unfold lastRejection, logged in Hlast; cbn [requests world snd] in Hlast;
  rewrite rev_unit in Hlast; cbv beta iota in Hlast; rewrite length_rev in Hlast.

(** The last request was resolved: it was not rejected. *)
Ltac resolved_last Hq :=
  let Hlast := fresh "Hlast" in
  cbn -[setProp truthy spread]; intros _ Hlast; last_request Hlast;
  rewrite Hq in Hlast; discriminate Hlast.

(** The last request was rejected: the [catch] block hands the rejection
    to [handleApiError]. *)
Ltac rejected_last Hq :=
  match goal with
  | |- context [catchApiError ?env0 ?msg ?e0 ?st] =>
      let thrown := fresh "thrown" in
      let Hrun := fresh "Hrun" in
      let Hlast := fresh "Hlast" in
      destruct (@catchApiError_run env0 JsVal msg e0 st) as (thrown & Hrun & ->);
      cbv beta iota; cbn [fst snd]; intros _ Hlast; last_request Hlast;
      rewrite Hq in Hlast; injection Hlast as <-;
      exists msg, thrown, st; split; [cbn; tauto | split; [reflexivity | exact Hrun]]
  end.

(** A throw inside the [try] block that is not a rejection. *)
Ltac caught :=
  repeat match goal with
    | |- context [catchApiError ?env0 ?msg ?e0 ?st] =>
        destruct (@catchApiError_state env0 JsVal msg e0 st) as (? & ->)
    end.

Ltac request Hq :=
  rewrite send_run;
  match goal with
  | |- context [match httpRequest ?env ?n ?q with _ => _ end] =>
      destruct (httpRequest env n q) eqn:Hq;
      unfold logged in Hq; cbn [requests world] in Hq
  end.

Lemma handled_twice (env : Env) {A} (message1 message2 : string) (e thrown : Thrown)
    (s1 s2 : ClientState) :
  handleApiError env message1 e s1 = (Throw thrown, s1) ->
  @catchApiError env A message2 thrown s2 = (Throw thrown, s2).
Proof.
  intros H. destruct (handleApiError_throws env message1 e s1) as (t & Ht & Hshape).
  rewrite Ht in H. injection H as ->.
  destruct e as [m|m|[r|] m|v]; try (subst thrown; reflexivity).
  destruct Hshape as [(m' & -> & _) | (-> & _)]; reflexivity.
Qed.

Lemma performClientOp_rejected (env : Env) (op : ClientOp) (s : ClientState) (e : Thrown) :
  let r := performClientOp env op s in
  requests (world (snd r)) <> requests (world s) ->
  lastRejection env (world (snd r)) = Some e ->
  exists prefix thrown s1,
    In prefix (errorPrefixes op) /\
    fst r = Throw thrown /\
    handleApiError env prefix e s1 = (Throw thrown, s1).
Proof.
  intros r. subst r. destruct op; cbn [performClientOp errorPrefixes].
  - (* sendMessage *)
    unfold client_sendMessage, bind, tryCatch, enter, modifyState.
    destruct to; cbn -[setProp truthy]; try no_request.
    request Hq; [settle; resolved_last Hq | rejected_last Hq].
  - (* sendTemplateMessage *)
    unfold client_sendTemplateMessage, bind, tryCatch, enter, modifyState.
    destruct (param options "to"); cbn -[setProp truthy]; try no_request.
    destruct (truthy (param options "components"));
      [ match goal with
        | |- context [lengthPositive ?env0 ?v ?st] =>
            let o := fresh "o" in
            destruct (sameState_run (lengthPositive env0 v) st (lengthPositive_same env0 v))
              as (o & ->);
            destruct o as [[]|]
        end | ];
      cbn -[setProp truthy];
      try (caught; no_request);
      (request Hq; [settle; resolved_last Hq | rejected_last Hq]).
  - (* sendMedia *)
    unfold client_sendMedia, bind, tryCatch, enter, modifyState.
    destruct (param options "to"); cbn -[setProp truthy]; try no_request.
    destruct (param options "type"); cbn -[setProp truthy]; try no_request.
    destruct (truthy (param options "filePath")) eqn:Hfile; cbn -[setProp truthy].
    + unfold client_uploadMedia, bind, tryCatch, enter, modifyState.
      destruct (existsSyncOf env (param options "filePath")); cbn -[setProp truthy].
      * request Hq; cbn -[setProp truthy].
        -- destruct (truthy (data r) && truthy (getProp (data r) "id")) eqn:Hid;
             cbn -[setProp truthy].
           ++ apply andb_prop in Hid as [_ Hid]. rewrite Hid. cbn -[setProp truthy].
              request Hq2; [settle; resolved_last Hq2 | rejected_last Hq2].
           ++ resolved_last Hq.
        -- match goal with
           | |- context [catchApiError ?env0 ?msg e0 ?st] =>
               destruct (@catchApiError_run env0 JsVal msg e0 st) as (thrown & Hrun & ->)
           end.
           cbn -[setProp truthy].
           rewrite (handled_twice env _ "Error sending media message" _ _ _ _ Hrun).
           cbn [fst snd]. intros _ Hlast. last_request Hlast.
           rewrite Hq in Hlast. injection Hlast as <-.
           eexists "Error uploading media", thrown, _.
           split; [cbn; tauto | split; [reflexivity | exact Hrun]].
      * match goal with
        | |- context [@template ?S ?env0 ?v ?st] =>
            let o := fresh "o" in
            destruct (sameState_run (@template S env0 v) st (template_same env0 v)) as (o & ->);
            destruct o
        end; cbn -[setProp truthy]; caught; no_request.
    + change (truthy JUndefined) with false.
      destruct (truthy (param options "url")); cbn -[setProp truthy].
      * request Hq; [settle; resolved_last Hq | rejected_last Hq].
      * no_request.
  - (* sendInteractiveMessage *)
    unfold client_sendInteractiveMessage, bind, tryCatch, enter, modifyState.
    destruct (param options "to"); cbn -[setProp truthy]; try no_request.
    request Hq; [settle; resolved_last Hq | rejected_last Hq].
  - (* sendLocation *)
    unfold client_sendLocation, bind, tryCatch, enter, modifyState.
    destruct (param options "to"); cbn -[setProp truthy]; try no_request.
    request Hq; [settle; resolved_last Hq | rejected_last Hq].
  - (* markMessageAsRead *)
    unfold client_markMessageAsRead, bind, tryCatch, enter, modifyState.
    cbn -[setProp truthy].
    request Hq; [resolved_last Hq | rejected_last Hq].
  - (* getBusinessProfile *)
    unfold client_getBusinessProfile, bind, tryCatch, enter, modifyState.
    cbn -[setProp truthy].
    request Hq; [|rejected_last Hq].
    unfold readProp.
    destruct (isNullish (data r)); cbn -[truthy]; [resolved_last Hq|].
    destruct (isNullish (getProp (data r) "data")); cbn -[truthy]; resolved_last Hq.
  - (* updateBusinessProfile *)
    unfold client_updateBusinessProfile, bind, tryCatch, enter, modifyState.
    cbn -[spread].
    request Hq; [resolved_last Hq | rejected_last Hq].
  - (* uploadMedia *)
    unfold client_uploadMedia, bind, tryCatch, enter, modifyState.
    destruct (existsSyncOf env filePath); cbn -[truthy].
    + request Hq; [|rejected_last Hq].
      cbn -[truthy].
      destruct (truthy (data r) && truthy (getProp (data r) "id")); cbn -[truthy];
        resolved_last Hq.
    + match goal with
      | |- context [@template ?S ?env0 ?v ?st] =>
          let o := fresh "o" in
          destruct (sameState_run (@template S env0 v) st (template_same env0 v)) as (o & ->);
          destruct o
      end; cbn; no_request.
  - (* getMediaUrl *)
    unfold client_getMediaUrl, bind, tryCatch, enter, modifyState.
    match goal with
    | |- context [@template ?S ?env0 ?v ?st] =>
        let o := fresh "o" in
        destruct (sameState_run (@template S env0 v) st (template_same env0 v)) as (o & ->);
        destruct o
    end; cbn -[truthy]; [|caught; no_request].
    request Hq; [|rejected_last Hq].
    cbn -[truthy].
    destruct (truthy (data r) && truthy (getProp (data r) "url")); cbn -[truthy];
      resolved_last Hq.
  - (* getContactInfo issues no request *)
    intros Hgrow _. exfalso. apply Hgrow.
    unfold bind.
    pose proof (client_getContactInfo_noRequest env phoneNumber s) as H.
    destruct (client_getContactInfo env phoneNumber s) as [[c|e0] s']; exact H.
Qed.

(** C6 (amended).  [handleApiError] never returns and leaves the state
    alone.  For a failure that carries a response it throws a new [Error]
    whose message starts with [<prefix>: HTTP <status>]: when the body of the
    response has no [error] member the message is exactly that; when it has
    one, the message also contains every truthy member among code, message,
    subcode, user title and user message as it prints.  The exception is a
    vendor error with a member among these five that does not convert to a
    string: the [TypeError] of the conversion is thrown instead.  Any other
    error is thrown again as it is.  Every operation of the client whose
    last request was rejected throws exactly that, under its own prefix. *)
Theorem api_error_enrichment (env : Env) :
  (forall message error s, exists thrown,
     handleApiError env message error s = (Throw thrown, s) /\
     match error with
     | AxiosError (Some r) _ => enrichedOutcome env message r thrown
     | _ => thrown = error
     end) /\
  (forall op s e,
     let r := performClientOp env op s in
     requests (world (snd r)) <> requests (world s) ->
     lastRejection env (world (snd r)) = Some e ->
     exists prefix thrown,
       In prefix (errorPrefixes op) /\
       fst r = Throw thrown /\
       match e with
       | AxiosError (Some response) _ => enrichedOutcome env prefix response thrown
       | _ => thrown = e
       end).
Proof.
  split; [apply handleApiError_outcome|].
  intros op s e r Hgrow Hlast.
  destruct (performClientOp_rejected env op s e Hgrow Hlast)
    as (prefix & thrown & s1 & Hin & Hthrown & Hrun).
  exists prefix, thrown. split; [exact Hin|]. split; [exact Hthrown|].
  destruct (handleApiError_outcome env prefix e s1) as (thrown' & Hrun' & Hshape).
  rewrite Hrun in Hrun'. injection Hrun' as <-. exact Hshape.
Qed.

Lemma api_error_enrichment_witness :
  exists m,
    fst (performClientOp (rejectingEnv expiredTokenError)
           (OpSendMessage (JStr "+15551234567") (JStr "hello")) sampleState)
    = Throw (Error m) /\
    String.prefix "Error sending message: HTTP 401" m = true /\
    includes "190" m = true /\
    includes "Session has expired" m = true /\
    includes "463" m = true.
Proof.
  destruct (proj2 (api_error_enrichment (rejectingEnv expiredTokenError))
              (OpSendMessage (JStr "+15551234567") (JStr "hello")) sampleState
              expiredTokenError)
    as (prefix & thrown & Hin & Hthrown & Hshape).
  - vm_compute. discriminate.
  - reflexivity.
  - destruct Hin as [<-|[]]. cbn [expiredTokenError] in Hshape.
    unfold enrichedOutcome in Hshape.
    change (negb (hasErrorBody _) || printableErrorBody _ _) with true in Hshape.
    destruct Hshape as (m & -> & Hprefix & _ & _ & Hfields).
    exists m. split; [exact Hthrown|]. split; [exact Hprefix|].
    split; [|split].
    + apply (Hfields eq_refl "code" "190"); [simpl; tauto | reflexivity | reflexivity].
    + apply (Hfields eq_refl "message" "Session has expired");
        [simpl; tauto | reflexivity | reflexivity].
    + apply (Hfields eq_refl "error_subcode" "463");
        [simpl; tauto | reflexivity | reflexivity].
Defined.

(** * Further properties of the adapter *)

(** ** Tools before [init] and after [cleanupAll] *)

(** X1.  A catalogue tool run while the plugin has no client (before [init],
    or after [cleanupAll]) throws [WhatsApp client not initialized. Call
    init() first.] whatever its parameters, and changes nothing;
    [cleanupAll] drops the client and keeps the tool map and the exposed
    list. *)
Theorem execute_requires_client (env : Env) (manifestName : string) (params : Params) :
  (forall s, client s = None ->
     executeManifest env manifestName params s
     = (Throw (Error "WhatsApp client not initialized. Call init() first."), s)) /\
  (forall s,
     let s' := snd (cleanupAll s) in
     client s' = None /\ tools s' = tools s /\ config_tools s' = config_tools s /\
     executeManifest env manifestName params s'
     = (Throw (Error "WhatsApp client not initialized. Call init() first."), s')) /\
  (forall cfg w,
     executeManifest env manifestName params (newWhatsAppPlugin env cfg w)
     = (Throw (Error "WhatsApp client not initialized. Call init() first."),
        newWhatsAppPlugin env cfg w)).
Proof.
  assert (H : forall s, client s = None ->
     executeManifest env manifestName params s
     = (Throw (Error "WhatsApp client not initialized. Call init() first."), s)).
  { intros s Hc. unfold executeManifest, bind, getState. now rewrite Hc. }
  split; [exact H|]. split.
  - intros s s'. subst s'. split; [reflexivity|]. split; [reflexivity|].
    split; [reflexivity|]. now apply H.
  - intros cfg w. now apply H.
Qed.

Lemma execute_requires_client_witness :
  executeManifest sampleEnv "whatsapp_send_message"
    [("to", JStr "+15551234567"); ("message", JStr "hello")] samplePlugin
  = (Throw (Error "WhatsApp client not initialized. Call init() first."), samplePlugin).
Proof.
  apply (proj1 (execute_requires_client sampleEnv "whatsapp_send_message"
                  [("to", JStr "+15551234567"); ("message", JStr "hello")])).
  reflexivity.
Defined.

(** ** The parameter schemas *)

Lemma stringIn_In (s : string) (l : list string) : stringIn s l = true <-> In s l.
Proof.
  unfold stringIn. rewrite existsb_exists. split.
  - intros (x & Hin & Heq). apply String.eqb_eq in Heq. now subst.
  - intros Hin. exists s. split; [exact Hin | apply String.eqb_refl].
Qed.

(** X2.  [convertParameters] yields one schema per declared property, in
    the order of declaration and under the same name; the type of a schema
    is always one of the five allowed ones (the declared type when it is
    allowed, [string] otherwise); a schema is marked required exactly when
    its name is in the manifest's required list. *)
Theorem convertParameters_schemas (m : Manifest) :
  map schema_name (convertParameters m) = map fst (properties m) /\
  map schema_description (convertParameters m)
  = map (fun entry => prop_description (snd entry)) (properties m) /\
  (forall p, In p (convertParameters m) -> In (schema_type p) allowedTypes) /\
  (forall name ps, In (name, ps) (properties m) ->
     exists p, In p (convertParameters m) /\ schema_name p = name /\
               schema_type p = (if stringIn (prop_type ps) allowedTypes
                                then prop_type ps else "string")) /\
  (forall p, In p (convertParameters m) ->
     (schema_required p = true <-> In (schema_name p) (requiredNames m))).
Proof.
  unfold convertParameters, requiredNames. repeat split.
  - rewrite map_map. reflexivity.
  - rewrite map_map. reflexivity.
  - intros p Hin. apply in_map_iff in Hin as (entry & <- & _). cbn [schema_type].
    fold allowedTypes.
    destruct (stringIn (prop_type (snd entry)) allowedTypes) eqn:E.
    + now apply stringIn_In.
    + unfold allowedTypes. simpl. tauto.
  - intros name ps Hin. eexists.
    split; [apply in_map_iff; eexists; split; [reflexivity|exact Hin]|].
    split; reflexivity.
  - apply in_map_iff in H as (entry & <- & _). cbn [schema_required schema_name fst].
    destruct (required m) as [names|]; cbn [default];
      [apply stringIn_In | discriminate].
  - apply in_map_iff in H as (entry & <- & _). cbn [schema_required schema_name fst].
    destruct (required m) as [names|]; cbn [default];
      [apply stringIn_In | intros []].
Qed.

(** ** The catalogue in the tool map *)

Lemma mapGet_mapSet_ne {V} (k k' : string) (v : V) (m : JsMap V) :
  k <> k' -> mapGet k' (mapSet k v m) = mapGet k' m.
Proof.
  intros Hne. induction m as [|[k0 v0] rest IH]; simpl.
  - destruct (String.eqb_spec k' k); [congruence | reflexivity].
  - destruct (String.eqb_spec k k0) as [->|]; simpl.
    + destruct (String.eqb_spec k' k0); [congruence | reflexivity].
    + destruct (String.eqb_spec k' k0); [reflexivity | exact IH].
Qed.

Lemma mapGet_mapDelete_ne {V} (k k' : string) (m : JsMap V) :
  k <> k' -> mapGet k' (mapDelete k m) = mapGet k' m.
Proof.
  intros Hne. induction m as [|[k0 v0] rest IH]; simpl; [reflexivity|].
  destruct (String.eqb_spec k k0) as [->|]; simpl.
  - destruct (String.eqb_spec k' k0); [congruence | reflexivity].
  - destruct (String.eqb_spec k' k0); [reflexivity | exact IH].
Qed.

Lemma mapDelete_mapSet_fresh {V} (k : string) (v : V) (m : JsMap V) :
  mapGet k m = None -> mapDelete k (mapSet k v m) = m.
Proof.
  induction m as [|[k0 v0] rest IH]; simpl.
  - now rewrite String.eqb_refl.
  - destruct (String.eqb k k0) eqn:E; [discriminate|]. intros H. simpl. rewrite E.
    now rewrite IH.
Qed.

Lemma mapDelete_absent {V} (k : string) (m : JsMap V) :
  mapGet k m = None -> mapDelete k m = m.
Proof.
  induction m as [|[k0 v0] rest IH]; simpl; [reflexivity|].
  destruct (String.eqb k k0); [discriminate|]. intros H. now rewrite IH.
Qed.

Lemma find_append {A} (f : A -> bool) (l1 l2 : list A) :
  find f (l1 ++ l2) = match find f l1 with Some x => Some x | None => find f l2 end.
Proof. induction l1 as [|x l1 IH]; simpl; [reflexivity|]. now destruct (f x). Qed.

(** The map after the manifests of [l] have been entered, oldest first:
    the last manifest of a name wins, other names keep their tool. *)
Lemma mapGet_enterManifests (l : list Manifest) (m : JsMap Plugin) (k : string) :
  mapGet k (fold_left (fun acc manifest =>
                         mapSet (manifest_name manifest) (pluginOfManifest manifest) acc) l m)
  = match find (fun x => String.eqb (manifest_name x) k) (rev l) with
    | Some x => Some (pluginOfManifest x)
    | None => mapGet k m
    end.
Proof.
  revert m. induction l as [|x l IH]; intros m; simpl; [reflexivity|].
  rewrite IH. rewrite find_append.
  destruct (find _ (rev l)) as [y|]; [reflexivity|]. simpl.
  destruct (String.eqb_spec (manifest_name x) k) as [<-|Hne].
  - apply mapGet_mapSet_eq.
  - now apply mapGet_mapSet_ne.
Qed.

Lemma find_none_names (l : list Manifest) (k : string) :
  ~ In k (map manifest_name l) ->
  find (fun x => String.eqb (manifest_name x) k) l = None.
Proof.
  induction l as [|x l IH]; simpl; [reflexivity|]. intros H.
  destruct (String.eqb_spec (manifest_name x) k); [tauto|]. apply IH. tauto.
Qed.

(** X3.  After [initializeTools] every catalogue name maps to the tool built
    from its manifest, whatever was registered under that name before; a
    name outside the catalogue keeps what it had; the exposed list is the
    list of the map's values.  A new plugin holds exactly the nine tools. *)
Theorem initializeTools_enters_catalogue (s : PluginState) :
  let s' := snd (initializeTools s) in
  (forall m, In m getChatManifests ->
     getTool (manifest_name m) s' = Some (pluginOfManifest m)) /\
  (forall k, ~ In k (map manifest_name getChatManifests) -> getTool k s' = getTool k s) /\
  config_tools s' = getTools s' /\
  (forall env cfg w,
     map tool_name (getTools (newWhatsAppPlugin env cfg w))
     = map manifest_name getChatManifests).
Proof.
  intros s'. subst s'. unfold initializeTools, modifyState, getTool.
  cbn [snd tools setTools setConfigTools]. split; [|split; [|split]].
  - intros m Hm. rewrite mapGet_enterManifests.
    simpl in Hm. repeat (destruct Hm as [<-|Hm]; [reflexivity|]). contradiction.
  - intros k Hk. rewrite mapGet_enterManifests, find_none_names; [reflexivity|].
    rewrite map_rev, <- in_rev. exact Hk.
  - reflexivity.
  - intros env cfg w. reflexivity.
Qed.

Lemma initializeTools_enters_catalogue_witness :
  getTool "whatsapp_send_message"
    (snd (initializeTools
            (snd (registerTool
                    {| tool_name := "whatsapp_send_message";
                       tool_description := "shadow";
                       parameters := [];
                       execute := ExternalExecute (fun _ => Return JNull) |}
                    samplePlugin))))
  = Some (pluginOfManifest (hd emptyManifest getChatManifests)) /\
  getTool "echo" (snd (initializeTools (snd (registerTool echoTool samplePlugin))))
  = Some echoTool.
Proof.
  split.
  - apply (proj1 (initializeTools_enters_catalogue _) (hd emptyManifest getChatManifests)).
    simpl. left. reflexivity.
  - rewrite (proj1 (proj2 (initializeTools_enters_catalogue _)) "echo").
    + reflexivity.
    + simpl. intuition discriminate.
Defined.

(** ** Registering and removing *)

(** X4.  [removeTool] on a name that is not registered returns [false] and
    leaves the tool map as it is, yet it still assigns [config.tools] from
    the map: a tool registered earlier becomes visible in the exposed list
    through any later [removeTool], even one that removes nothing. *)
Theorem removeTool_unregistered (toolName : string) (s : PluginState) :
  hasTool toolName s = false ->
  let s' := snd (removeTool toolName s) in
  fst (removeTool toolName s) = Return false /\
  tools s' = tools s /\
  config_tools s' = getTools s /\
  (forall tool,
     hasTool toolName (snd (registerTool tool s)) = false ->
     config_tools (snd (removeTool toolName (snd (registerTool tool s))))
     = mapValues (mapSet (tool_name tool) tool (tools s))).
Proof.
  intros Hhas s'. subst s'. rewrite removeTool_run. unfold hasTool, mapHas in Hhas.
  destruct (mapGet toolName (tools s)) eqn:Hget; [discriminate|].
  cbn [fst snd tools config_tools setTools setConfigTools].
  rewrite (mapDelete_absent _ _ Hget). unfold mapHas. rewrite Hget.
  repeat split. intros tool Hfresh. rewrite removeTool_run.
  unfold hasTool, mapHas, registerTool, modifyState in *.
  cbn [fst snd tools config_tools setTools setConfigTools] in *.
  destruct (mapGet toolName (mapSet (tool_name tool) tool (tools s))) eqn:Hg;
    [discriminate|].
  now rewrite (mapDelete_absent _ _ Hg).
Qed.

Lemma removeTool_unregistered_witness :
  length (config_tools (snd (removeTool "whatsapp_fly" (snd (registerTool echoTool samplePlugin)))))
  = 10%nat /\
  fst (removeTool "whatsapp_fly" samplePlugin) = Return false.
Proof.
  destruct (removeTool_unregistered "whatsapp_fly" samplePlugin eq_refl)
    as (Hfalse & _ & _ & Hexposed).
  split; [|exact Hfalse].
  rewrite (Hexposed echoTool eq_refl). reflexivity.
Defined.

(** X5.  Registering a tool under a name that was free and removing it
    again restores the tool map; registering or removing one name does not
    change what any other name maps to; registering under a taken name
    replaces the tool without changing the number or the order of the
    names. *)
Theorem registerTool_removeTool_roundtrip (tool : Plugin) (s : PluginState) :
  (hasTool (tool_name tool) s = false ->
   tools (snd (removeTool (tool_name tool) (snd (registerTool tool s)))) = tools s) /\
  (forall k, k <> tool_name tool ->
     getTool k (snd (registerTool tool s)) = getTool k s /\
     getTool k (snd (removeTool (tool_name tool) s)) = getTool k s) /\
  (hasTool (tool_name tool) s = true ->
   getToolCount (snd (registerTool tool s)) = getToolCount s /\
   mapKeys (tools (snd (registerTool tool s))) = mapKeys (tools s)).
Proof.
  split; [|split].
  - unfold hasTool, mapHas. intros H.
    destruct (mapGet (tool_name tool) (tools s)) eqn:Hget; [discriminate|].
    rewrite removeTool_run. apply (mapDelete_mapSet_fresh _ _ _ Hget).
  - intros k Hk. rewrite removeTool_run. unfold getTool, registerTool, modifyState.
    cbn [snd tools setTools setConfigTools]. split.
    + apply mapGet_mapSet_ne. congruence.
    + apply mapGet_mapDelete_ne. congruence.
  - unfold hasTool, getToolCount, getTools, registerTool, modifyState.
    cbn [snd tools setTools]. intros H. split.
    + rewrite mapSize_mapSet. now rewrite H.
    + unfold mapHas in H. unfold mapKeys.
      induction (tools s) as [|[k0 v0] rest IH]; simpl in *; [discriminate|].
      destruct (String.eqb_spec (tool_name tool) k0) as [E|Hne]; simpl.
      * now rewrite E.
      * f_equal. apply IH. exact H.
Qed.

Lemma registerTool_removeTool_roundtrip_witness :
  tools (snd (removeTool "echo" (snd (registerTool echoTool samplePlugin))))
  = tools samplePlugin /\
  getTool "whatsapp_send_media" (snd (registerTool echoTool samplePlugin))
  = getTool "whatsapp_send_media" samplePlugin.
Proof.
  destruct (registerTool_removeTool_roundtrip echoTool samplePlugin) as (Hround & Hother & _).
  split.
  - apply Hround. reflexivity.
  - apply (Hother "whatsapp_send_media"). discriminate.
Defined.

(** ** Initialisation *)

(** X6.  A client that the constructor returned is configured, and no
    operation changes its configuration or its axios instance; hence the
    check of [init] after construction never fails, and when [init] throws
    it leaves the plugin (its previous client included) as it was, with one
    of two messages. *)
Theorem client_stays_configured (env : Env) :
  (forall cfg c, newWhatsAppClient env cfg = Return c -> isConfigured c = true) /\
  (forall op s,
     config (this (runClientOp env op s)) = config (this s) /\
     apiInstance (this (runClientOp env op s)) = apiInstance (this s) /\
     isConfigured (this (runClientOp env op s)) = isConfigured (this s)) /\
  (forall s e s',
     init env s = (Throw e, s') ->
     s' = s /\
     (e = Error ("WhatsApp plugin initialization failed: "
                 +:+ "Error: WhatsApp API token is required") \/
      e = Error ("WhatsApp plugin initialization failed: "
                 +:+ "Error: WhatsApp phone number ID is required"))).
Proof.
  split; [|split].
  - intros cfg c Hc. pose proof (newWhatsAppClient_cases env cfg) as H.
    destruct (credentialsResolved env cfg).
    + destruct H as (c' & Hc' & _ & Hconf). congruence.
    + destruct H as [H|H]; congruence.
  - intros op s. destruct (runClientOp_sameButContacts env op s) as (Ha & Hc & _).
    unfold isConfigured. rewrite Hc, Ha. repeat split.
  - intros s e s'. pose proof (newWhatsAppClient_cases env (Some (whatsAppConfig s))) as H.
    unfold init, tryCatch, bind, getState.
    destruct (credentialsResolved env (Some (whatsAppConfig s))).
    + destruct H as (c & -> & _ & Hconf). cbn [modifyState]. rewrite Hconf. cbn [negb].
      discriminate.
    + destruct H as [-> | ->]; intros [= <- <-]; split; auto.
Qed.

Lemma client_stays_configured_witness :
  isConfigured sampleClient = true.
Proof.
  apply (proj1 (client_stays_configured sampleEnv) (Some sampleConfig)). reflexivity.
Defined.

(** X7.  A successful [init] installs a newly built client: its two caches
    are empty and its configuration is the one resolved from the plugin's
    configuration, whatever client the plugin held before; the catalogue is
    entered again and the trace of the world is untouched. *)
Theorem init_installs_new_client (env : Env) (s s' : PluginState) :
  init env s = (Return tt, s') ->
  exists c,
    client s' = Some c /\
    contactCache c = ∅ /\
    messageCache c = ∅ /\
    config c = resolveConfig env (Some (whatsAppConfig s)) /\
    whatsAppConfig s' = whatsAppConfig s /\
    pluginWorld s' = pluginWorld s /\
    tools s' = tools (snd (initializeTools s)) /\
    config_tools s' = getTools s'.
Proof.
  unfold init, tryCatch, bind, getState.
  unfold newWhatsAppClient. cbv zeta.
  destruct (negb (strTruthy (apiToken _))) eqn:Ht; [discriminate|].
  destruct (negb (strTruthy (phoneNumberId _))) eqn:Hp; [discriminate|].
  cbn [modifyState]. unfold isConfigured. cbn [config].
  apply negb_false_iff in Ht, Hp. rewrite Ht, Hp. cbn [andb negb].
  intros [= <-]. eexists. repeat split.
Qed.

Lemma init_installs_new_client_witness :
  let s1 := snd (init sampleEnv samplePlugin) in
  let s2 := snd (getContactInfo sampleEnv [("phoneNumber", JStr "+15551234567")] s1) in
  (contactCache <$> client s2) <> Some ∅ /\
  exists c, client (snd (init sampleEnv s2)) = Some c /\ contactCache c = ∅.
Proof.
  intros s1 s2. split.
  - vm_compute. discriminate.
  - destruct (init_installs_new_client sampleEnv s2 (snd (init sampleEnv s2)))
      as (c & Hc & Hempty & _); [reflexivity|].
    exists c. now split.
Defined.

(** * Further properties of the client *)

(** ** Contacts *)

Lemma append_inj_l (p a b : string) : p +:+ a = p +:+ b -> a = b.
Proof.
  induction p as [|c p IH]; [auto|].
  change (String c (p +:+ a) = String c (p +:+ b) -> a = b).
  intros [= H]. now apply IH.
Qed.

Lemma client_getContactInfo_nonstring (env : Env) (v : JsVal) (s : ClientState) :
  isString v = false ->
  exists msg,
    fst (client_getContactInfo env v s) = Throw (TypeError msg) /\
    this (snd (client_getContactInfo env v s)) = this s /\
    requests (world (snd (client_getContactInfo env v s))) = requests (world s).
Proof.
  intros H. unfold client_getContactInfo, bind, enter, modifyState.
  destruct v; try discriminate H; simpl; eexists; repeat split.
Qed.

Lemma contactsConsistent_insert (c : Client) (p : string) (t : Z) (cache : gmap string CacheEntry) :
  (forall k entry, cache !! k = Some entry ->
     k = "contact_" +:+ id (entry_data entry) /\
     entry_data entry = placeholderContact (id (entry_data entry))) ->
  forall k entry,
    <[contactKey p := freshEntry p t]> cache !! k = Some entry ->
    k = "contact_" +:+ id (entry_data entry) /\
    entry_data entry = placeholderContact (id (entry_data entry)).
Proof.
  intros H k entry. rewrite lookup_insert. case_decide as Hk.
  - intros [= <-]. subst k. split; reflexivity.
  - apply H.
Qed.

(** X8.  The contact cache only ever holds placeholders, each under the key
    of its own number: this holds for a new client and is kept by every
    operation.  On such a client [getContactInfo] with a string always
    returns the placeholder of the normalised number, whether the cache
    answers or not, and it never issues a request; with anything but a
    string it throws a [TypeError] and leaves client and request log
    alone. *)
Theorem contacts_are_placeholders (env : Env) :
  (forall cfg c, newWhatsAppClient env cfg = Return c -> contactsConsistent c) /\
  (forall op s, contactsConsistent (this s) ->
                contactsConsistent (this (runClientOp env op s))) /\
  (forall phoneNumber s,
     contactsConsistent (this s) ->
     fst (client_getContactInfo env (JStr phoneNumber) s)
     = Return (placeholderContact (formatPhoneNumber phoneNumber))) /\
  (forall v s,
     requests (world (snd (client_getContactInfo env v s))) = requests (world s)) /\
  (forall v s,
     isString v = false ->
     exists msg,
       fst (client_getContactInfo env v s) = Throw (TypeError msg) /\
       this (snd (client_getContactInfo env v s)) = this s).
Proof.
  split; [|split; [|split; [|split]]].
  - intros cfg c. unfold newWhatsAppClient. cbv zeta.
    repeat match goal with |- context [if ?b then _ else _] => destruct b end;
      try discriminate.
    intros [= <-] k entry. cbn [contactCache]. rewrite lookup_empty. discriminate.
  - intros op s Hs. destruct (isGetContactInfo op) eqn:E.
    2:{ now rewrite runClientOp_sameClient. }
    destruct op; try discriminate E. unfold runClientOp. cbn [performClientOp].
    assert (Hsnd : snd ((contact <- client_getContactInfo env phoneNumber ;;
                         ret (contactToJs contact)) s)
                   = snd (client_getContactInfo env phoneNumber s)).
    { unfold bind. destruct (client_getContactInfo env phoneNumber s) as [[c|e] s1];
        reflexivity. }
    rewrite Hsnd. clear Hsnd.
    destruct (isString phoneNumber) eqn:Hstr.
    2:{ destruct (client_getContactInfo_nonstring env phoneNumber s Hstr) as (_ & _ & -> & _).
        exact Hs. }
    destruct phoneNumber as [| | | | |p| |]; try discriminate Hstr.
    destruct (contactCache (this s) !! contactKey p) as [entry|] eqn:Hlook.
    + destruct (isFresh (dateNow env (ticks (world s)) - timestamp entry)
                  (cacheContactSeconds (config (this s)))) eqn:Hf.
      * destruct (client_getContactInfo_hit env p s entry Hlook Hf) as (_ & -> & _).
        exact Hs.
      * destruct (client_getContactInfo_stale env p s entry Hlook Hf) as (_ & Hc & _).
        unfold contactsConsistent. rewrite Hc.
        apply (contactsConsistent_insert (this s)). exact Hs.
    + destruct (client_getContactInfo_miss env p s Hlook) as (_ & Hc & _).
      unfold contactsConsistent. rewrite Hc.
      apply (contactsConsistent_insert (this s)). exact Hs.
  - intros p s Hs.
    destruct (contactCache (this s) !! contactKey p) as [entry|] eqn:Hlook.
    + destruct (isFresh (dateNow env (ticks (world s)) - timestamp entry)
                  (cacheContactSeconds (config (this s)))) eqn:Hf.
      * destruct (client_getContactInfo_hit env p s entry Hlook Hf) as (-> & _).
        destruct (Hs _ _ Hlook) as [Hk Hd]. unfold contactKey in Hk.
        apply append_inj_l in Hk. rewrite Hd, <- Hk. reflexivity.
      * now destruct (client_getContactInfo_stale env p s entry Hlook Hf) as (-> & _).
    + now destruct (client_getContactInfo_miss env p s Hlook) as (-> & _).
  - intros v s. apply (client_getContactInfo_noRequest env v s).
  - intros v s H. destruct (client_getContactInfo_nonstring env v s H) as (msg & ? & ? & _).
    eauto.
Qed.

Lemma contacts_are_placeholders_witness :
  let s1 := runClientOp sampleEnv (OpGetContactInfo (JStr "0151 123-45")) hourState in
  fst (client_getContactInfo sampleEnv (JStr "015112345") s1)
  = Return (placeholderContact "015112345").
Proof.
  intros s1.
  destruct (contacts_are_placeholders sampleEnv) as (Hnew & Hkeep & Hget & _).
  apply Hget. apply Hkeep. unfold hourState.
  destruct (newWhatsAppClient sampleEnv _) as [c|e] eqn:E; [|discriminate E].
  cbn [this]. exact (Hnew _ _ E).
Defined.

(** ** The requests of the send methods *)

(** X9.  A text, template, interactive or location send with well-typed
    arguments issues exactly one request, whatever the transport answers
    and whether the method then returns or throws: a POST to
    [/<phone-number id>/messages] whose body names the product [whatsapp],
    the recipient type [individual], the normalised recipient and the type
    of the message.  Nothing is sent a second time. *)
Theorem send_issues_one_request (env : Env) (tool : SendTool) (params : Params)
    (s : ClientState) (to : string) :
  isMediaTool tool = false ->
  wellTypedCall tool params = true ->
  param params "to" = JStr to ->
  exists payload,
    requests (world (snd (clientSend env tool params s)))
    = (requests (world s)
       ++ [Post ("/" +:+ showStr (phoneNumberId (config (this s))) +:+ "/messages")
                (JObj payload)])%list /\
    lookupProp "messaging_product" payload = Some (JStr "whatsapp") /\
    lookupProp "recipient_type" payload = Some (JStr "individual") /\
    lookupProp "to" payload = Some (JStr (formatPhoneNumber to)) /\
    lookupProp "type" payload = Some (JStr (envelopeType tool)) /\
    this (snd (clientSend env tool params s)) = this s.
Proof.
  intros Hmedia Hwt Hto. unfold wellTypedCall in Hwt. rewrite Hto in Hwt.
  cbn [isString andb] in Hwt.
  destruct tool; try discriminate Hmedia; unfold clientSend;
    unfold client_sendMessage, client_sendTemplateMessage,
      client_sendInteractiveMessage, client_sendLocation,
      bind, tryCatch, enter, modifyState;
    rewrite Hto.
  - cbn -[setProp truthy]. rewrite send_run. cbn -[setProp truthy].
    eexists. split; [settle; reflexivity|]. repeat split; settle; reflexivity.
  - destruct (param params "components") as [| | | | | |items|]; try discriminate Hwt;
      cbn -[setProp]; rewrite send_run; cbn -[setProp truthy];
      (eexists; split; [settle; reflexivity|]; repeat split; settle; reflexivity).
  - cbn -[setProp truthy]. rewrite send_run. cbn -[setProp truthy].
    eexists. split; [settle; reflexivity|]. repeat split; settle; reflexivity.
  - cbn -[setProp truthy]. rewrite send_run. cbn -[setProp truthy].
    eexists. split; [settle; reflexivity|]. repeat split; settle; reflexivity.
Qed.

Lemma send_issues_one_request_witness :
  exists payload,
    requests (world (snd (clientSend badGatewayEnv SendLocationPin
                            [("to", JStr "+15551234567"); ("latitude", JNum 41);
                             ("longitude", JNum 29)] sampleState)))
    = [Post "/15550001111/messages" (JObj payload)] /\
    lookupProp "to" payload = Some (JStr "15551234567") /\
    lookupProp "type" payload = Some (JStr "location").
Proof.
  destruct (send_issues_one_request badGatewayEnv SendLocationPin
              [("to", JStr "+15551234567"); ("latitude", JNum 41); ("longitude", JNum 29)]
              sampleState "+15551234567" eq_refl eq_refl eq_refl)
    as (payload & Hreq & _ & _ & Hto & Htype & _).
  exists payload. repeat split; assumption.
Defined.

(** X10.  A recipient that is not a string makes every send method throw a
    [TypeError] before anything is sent, the client being left as it was.
    The adapter does not guard against it: its validation only asks for a
    truthy recipient, so a number passes it and the call fails inside the
    client. *)
Theorem nonstring_recipient_throws (env : Env) (tool : SendTool) (params : Params) :
  isString (param params "to") = false ->
  (forall s, exists msg,
     fst (clientSend env tool params s) = Throw (TypeError msg) /\
     requests (world (snd (clientSend env tool params s))) = requests (world s) /\
     this (snd (clientSend env tool params s)) = this s) /\
  (forall ps c,
     client ps = Some c ->
     exists e,
       fst (pluginSend env tool params ps) = Throw e /\
       requests (pluginWorld (snd (pluginSend env tool params ps)))
       = requests (pluginWorld ps)) /\
  (forall ps c n,
     client ps = Some c ->
     param params "to" = JNum n -> n <> 0 ->
     truthy (param params "message") = true ->
     fst (sendMessage env params ps)
     = Throw (TypeError "phoneNumber.startsWith is not a function")).
Proof.
  intros Hto.
  assert (Hclient : forall s, exists msg,
     fst (clientSend env tool params s) = Throw (TypeError msg) /\
     requests (world (snd (clientSend env tool params s))) = requests (world s) /\
     this (snd (clientSend env tool params s)) = this s).
  { intros s. destruct tool; unfold clientSend;
      unfold client_sendMessage, client_sendTemplateMessage, client_sendMedia,
        client_sendInteractiveMessage, client_sendLocation,
        bind, tryCatch, enter, modifyState;
      destruct (param params "to"); try discriminate Hto; simpl;
      eexists; repeat split. }
  split; [exact Hclient|]. split.
  - intros ps c Hc.
    destruct tool; unfold pluginSend;
      unfold sendMessage, sendTemplateMessage, sendMedia, sendInteractiveMessage,
        sendLocation;
      match goal with
      | |- context [if ?b then _ else _] => destruct b; [eexists; split; reflexivity|]
      end;
      unfold tryCatch, bind, withClient, rethrow; rewrite Hc;
      match goal with
      | |- context [let (_, _) := ?m ?st in _] =>
          destruct (Hclient st) as (msg & Hf & Hr & _);
          destruct (m st) as [[v|e] cs] eqn:E
      end;
      unfold clientSend in Hf, Hr; rewrite E in Hf, Hr;
      simpl in *; try discriminate Hf; eexists; split; try reflexivity; exact Hr.
  - intros ps c n Hc Hn Hne Hmsg. unfold sendMessage, missing. rewrite Hn, Hmsg.
    cbn [truthy]. destruct (Z.eqb_spec n 0) as [|_]; [contradiction|].
    cbn [negb orb]. unfold tryCatch, bind, withClient, rethrow. rewrite Hc.
    unfold client_sendMessage, bind, enter, modifyState. reflexivity.
Qed.

Lemma nonstring_recipient_throws_witness :
  fst (sendMessage sampleEnv [("to", JNum 15551234567); ("message", JStr "hello")]
         (snd (init sampleEnv samplePlugin)))
  = Throw (TypeError "phoneNumber.startsWith is not a function").
Proof.
  destruct (nonstring_recipient_throws sampleEnv SendText
              [("to", JNum 15551234567); ("message", JStr "hello")] eq_refl)
    as (_ & _ & H).
  eapply H; try reflexivity. discriminate.
Defined.

(** ** Uploads *)

(** X11.  [uploadMedia] on a path that does not exist throws [File not
    found: <path>] without a request.  On an existing file it issues the one
    multipart request (product [whatsapp], the file under [file]); it
    returns the [id] of the answer when that is truthy and throws [Failed
    to upload media: No media ID received] otherwise. *)
Theorem uploadMedia_outcomes (env : Env) (path : string) (s : ClientState) :
  let r := client_uploadMedia env (JStr path) s in
  (existsSync env path = false ->
   fst r = Throw (Error ("File not found: " +:+ path)) /\
   requests (world (snd r)) = requests (world s)) /\
  (existsSync env path = true ->
   requests (world (snd r)) = (requests (world s) ++ [uploadRequest s (JStr path)])%list /\
   forall response,
     httpRequest env (length (requests (world s))) (uploadRequest s (JStr path))
     = Resolved response ->
     fst r = if truthy (data response) && truthy (getProp (data response) "id")
             then Return (getProp (data response) "id")
             else Throw (Error "Failed to upload media: No media ID received")).
Proof.
  intros r. subst r. unfold client_uploadMedia, bind, tryCatch, enter, modifyState.
  cbn [existsSyncOf]. split; intros Hex; rewrite Hex; cbn [negb].
  - cbn. split; reflexivity.
  - cbn -[truthy]. rewrite send_run. cbn -[truthy]. unfold uploadRequest. split.
    + destruct (httpRequest env _ _) as [resp|e]; cbn -[truthy].
      * destruct (truthy (data resp) && truthy (getProp (data resp) "id")); reflexivity.
      * match goal with
        | |- context [catchApiError ?env0 ?msg e ?st] =>
            destruct (@catchApiError_state env0 JsVal msg e st) as (? & ->)
        end.
        reflexivity.
    + intros response ->. cbn -[truthy].
      destruct (truthy (data response) && truthy (getProp (data response) "id"));
        reflexivity.
Qed.

Lemma uploadMedia_outcomes_witness :
  fst (client_uploadMedia sampleEnv (JStr "/tmp/cat.png") sampleState)
  = Return (JStr "media-77").
Proof.
  destruct (uploadMedia_outcomes sampleEnv "/tmp/cat.png" sampleState) as (_ & H).
  destruct (H eq_refl) as (_ & Hresp).
  apply (Hresp sampleUploadResponse). reflexivity.
Defined.

(** ** Errors that pass through two handlers *)

(** X12.  What [handleApiError] throws is left unchanged by a second pass
    through [handleApiError], under whatever prefix: an error is enriched
    once.  So when the upload of [sendMedia] is rejected, [sendMedia] throws
    exactly what [uploadMedia] throws (with the prefix of the upload), and
    the send request is never issued. *)
Theorem errors_are_enriched_once (env : Env) :
  (forall prefix1 prefix2 e thrown s1 s2,
     handleApiError env prefix1 e s1 = (Throw thrown, s1) ->
     handleApiError env prefix2 thrown s2 = (Throw thrown, s2)) /\
  (forall options s to type path e,
     param options "to" = JStr to ->
     param options "type" = JStr type ->
     param options "filePath" = JStr path ->
     path <> "" ->
     existsSync env path = true ->
     httpRequest env (length (requests (world s))) (uploadRequest s (JStr path))
     = Rejected e ->
     exists thrown s1,
       handleApiError env "Error uploading media" e s1 = (Throw thrown, s1) /\
       fst (client_sendMedia env options s) = Throw thrown /\
       requests (world (snd (client_sendMedia env options s)))
       = (requests (world s) ++ [uploadRequest s (JStr path)])%list).
Proof.
  assert (Honce : forall prefix1 prefix2 e thrown s1 s2,
     handleApiError env prefix1 e s1 = (Throw thrown, s1) ->
     handleApiError env prefix2 thrown s2 = (Throw thrown, s2)).
  { intros prefix1 prefix2 e thrown s1 s2 H.
    destruct (handleApiError_throws env prefix1 e s1) as (t & Ht & Hshape).
    rewrite Ht in H. injection H as ->.
    destruct e as [m|m|[r|] m|v]; try (subst thrown; reflexivity).
    destruct Hshape as [(m' & -> & _) | (-> & _)]; reflexivity. }
  split; [exact Honce|].
  intros options s to type path e Hto Htype Hpath Hne Hexists Hrej.
  assert (Hpt : truthy (JStr path) = true).
  { simpl. destruct (String.eqb_spec path ""); [contradiction | reflexivity]. }
  unfold client_sendMedia, bind, tryCatch, enter, modifyState.
  rewrite Hto, Htype, Hpath, Hpt.
  unfold client_uploadMedia, bind, tryCatch, enter, modifyState, existsSyncOf.
  rewrite Hexists. cbn -[setProp truthy]. rewrite send_run. cbn -[setProp truthy].
  unfold uploadRequest in *. rewrite Hrej. cbn -[setProp truthy].
  match goal with
  | |- context [catchApiError ?env0 ?msg e ?st] =>
      destruct (handleApiError_throws env0 msg e st) as (thrown & Hrun & _);
      exists thrown, st;
      assert (Hinner : @catchApiError env0 JsVal msg e st = (Throw thrown, st))
        by (unfold catchApiError, bind; now rewrite Hrun);
      assert (Houter : @catchApiError env0 JsVal "Error sending media message" thrown st
                       = (Throw thrown, st))
        by (unfold catchApiError, bind;
            now rewrite (Honce _ "Error sending media message" _ _ _ st Hrun));
      rewrite Hinner
  end.
  split; [exact Hrun|]. cbn -[setProp truthy]. rewrite Houter.
  split; reflexivity.
Qed.

Lemma errors_are_enriched_once_witness :
  fst (client_sendMedia badGatewayEnv
         [("to", JStr "+15551234567"); ("type", JStr "image");
          ("filePath", JStr "/tmp/cat.png")] sampleState)
  = Throw (Error "Error uploading media: HTTP 502").
Proof.
  destruct (proj2 (errors_are_enriched_once badGatewayEnv)
              [("to", JStr "+15551234567"); ("type", JStr "image");
               ("filePath", JStr "/tmp/cat.png")]
              sampleState "+15551234567" "image" "/tmp/cat.png" badGatewayError
              eq_refl eq_refl eq_refl ltac:(discriminate) eq_refl eq_refl)
    as (thrown & s1 & Hrun & Hthrown & _).
  rewrite Hthrown. f_equal.
  assert (E : fst (handleApiError badGatewayEnv "Error uploading media" badGatewayError s1)
              = Throw (Error "Error uploading media: HTTP 502")) by reflexivity.
  rewrite Hrun in E. now injection E.
Defined.

(** ** Media links and the business profile *)

(** X13.  [getMediaUrl] issues one GET to [/<media id>] and leaves the
    client alone; it returns the [url] of the answer when that is truthy and
    throws [Failed to get media URL] when the answer has none. *)
Theorem getMediaUrl_outcomes (env : Env) (mediaId : string) (s : ClientState) :
  let r := client_getMediaUrl env (JStr mediaId) s in
  requests (world (snd r)) = (requests (world s) ++ [Get ("/" +:+ mediaId)])%list /\
  this (snd r) = this s /\
  forall response,
    httpRequest env (length (requests (world s))) (Get ("/" +:+ mediaId)) = Resolved response ->
    fst r = if truthy (data response) && truthy (getProp (data response) "url")
            then Return (getProp (data response) "url")
            else Throw (Error "Failed to get media URL").
Proof.
  intros r. subst r. unfold client_getMediaUrl, bind, tryCatch, enter, modifyState.
  cbn -[truthy]. rewrite send_run. cbn -[truthy].
  destruct (httpRequest env _ _) as [resp|e] eqn:Hq; cbn -[truthy].
  - destruct (truthy (data resp) && truthy (getProp (data resp) "url")) eqn:Hc;
      cbn -[truthy];
      (split; [reflexivity|]; split; [reflexivity|]);
      intros response [= <-]; rewrite Hc; reflexivity.
  - match goal with
    | |- context [catchApiError ?env0 ?msg e ?st] =>
        destruct (@catchApiError_state env0 JsVal msg e st) as (? & ->)
    end.
    split; [reflexivity|]. split; [reflexivity|]. discriminate.
Qed.

Lemma getMediaUrl_outcomes_witness :
  fst (client_getMediaUrl (steadyEnv {| status := 200; data := JObj [] |})
         (JStr "media-77") sampleState)
  = Throw (Error "Failed to get media URL").
Proof.
  destruct (getMediaUrl_outcomes (steadyEnv {| status := 200; data := JObj [] |})
              "media-77" sampleState) as (_ & _ & H).
  apply (H {| status := 200; data := JObj [] |}). reflexivity.
Defined.

(** X14.  [getBusinessProfile] issues one GET to
    [/<phone-number id>/whatsapp_business_profile].  When the answer holds a
    list under [data] it returns the first record of the list if that is
    truthy and the empty object otherwise (an empty list included); when the
    answer has no body or no [data] member it throws a [TypeError]. *)
Theorem getBusinessProfile_outcomes (env : Env) (s : ClientState) (response : HttpResponse) :
  let r := client_getBusinessProfile env s in
  let request := Get ("/" +:+ showStr (phoneNumberId (config (this s)))
                      +:+ "/whatsapp_business_profile") in
  httpRequest env (length (requests (world s))) request = Resolved response ->
  requests (world (snd r)) = (requests (world s) ++ [request])%list /\
  (forall items,
     getProp (data response) "data" = JArr items ->
     fst r = Return (match items with
                     | first :: _ => if truthy first then first else JObj []
                     | [] => JObj []
                     end)) /\
  (isNullish (data response) || isNullish (getProp (data response) "data") = true ->
   exists msg, fst r = Throw (TypeError msg)).
Proof.
  intros r request Hq. subst r request.
  unfold client_getBusinessProfile, bind, tryCatch, enter, modifyState.
  cbn -[truthy]. rewrite send_run. cbn -[truthy]. rewrite Hq. cbn -[truthy].
  unfold readProp.
  destruct (isNullish (data response)) eqn:Hd; cbn -[truthy].
  - split; [reflexivity|]. split.
    + intros items Hitems. destruct (data response); discriminate.
    + intros _. eexists. reflexivity.
  - destruct (isNullish (getProp (data response) "data")) eqn:Hr; cbn -[truthy].
    + split; [reflexivity|]. split.
      * intros items Hitems. rewrite Hitems in Hr. discriminate.
      * intros _. eexists. reflexivity.
    + split; [reflexivity|]. split; [|discriminate].
      intros items ->. unfold js_or.
      destruct items as [|first rest]; cbn -[truthy]; [reflexivity|].
      destruct (truthy first); reflexivity.
Qed.

Lemma getBusinessProfile_outcomes_witness :
  fst (client_getBusinessProfile (steadyEnv {| status := 200; data := JObj [("data", JArr [])] |})
         sampleState)
  = Return (JObj []).
Proof.
  destruct (getBusinessProfile_outcomes
              (steadyEnv {| status := 200; data := JObj [("data", JArr [])] |})
              sampleState {| status := 200; data := JObj [("data", JArr [])] |} eq_refl)
    as (_ & H & _).
  apply (H []). reflexivity.
Defined.

Lemma lookupProp_setProp_ne (k k' : string) (v : JsVal) (props : list (string * JsVal)) :
  k <> k' -> lookupProp k' (setProp k v props) = lookupProp k' props.
Proof.
  intros Hne. induction props as [|[k0 v0] rest IH]; simpl.
  - destruct (String.eqb_spec k' k); [congruence | reflexivity].
  - destruct (String.eqb_spec k k0) as [->|]; simpl.
    + destruct (String.eqb_spec k' k0); [congruence | reflexivity].
    + destruct (String.eqb_spec k' k0); [reflexivity | exact IH].
Qed.

Lemma lookupProp_app (k : string) (l1 l2 : list (string * JsVal)) :
  lookupProp k (l1 ++ l2)
  = match lookupProp k l1 with Some v => Some v | None => lookupProp k l2 end.
Proof.
  induction l1 as [|[k0 v0] l1 IH]; simpl; [reflexivity|].
  now destruct (String.eqb k k0).
Qed.

Lemma lookupProp_spread (k : string) (base extra : list (string * JsVal)) :
  lookupProp k (spread base extra)
  = match lastProp k extra with Some v => Some v | None => lookupProp k base end.
Proof.
  unfold spread, lastProp. revert base.
  induction extra as [|[k0 v0] extra IH]; intros base; simpl; [reflexivity|].
  rewrite IH, lookupProp_app. destruct (lookupProp k (rev extra)); [reflexivity|].
  simpl. destruct (String.eqb_spec k k0) as [->|Hne].
  - apply lookupProp_setProp_eq.
  - apply lookupProp_setProp_ne. congruence.
Qed.

Lemma lastProp_unique (k : string) (props : list (string * JsVal)) :
  List.NoDup (map fst props) -> lastProp k props = lookupProp k props.
Proof.
  unfold lastProp. induction props as [|[k0 v0] rest IH]; simpl; [reflexivity|].
  intros Hnd. apply NoDup_cons_iff in Hnd as [Hnotin Hnd].
  rewrite lookupProp_app, (IH Hnd). simpl.
  destruct (String.eqb_spec k k0) as [->|Hne].
  - assert (Hnone : lookupProp k0 rest = None).
    { clear -Hnotin. induction rest as [|[k1 v1] rest IH]; simpl in *; [reflexivity|].
      destruct (String.eqb_spec k0 k1); [subst; tauto|]. apply IH. tauto. }
    now rewrite Hnone.
  - now destruct (lookupProp k rest).
Qed.

(** X15.  [updateBusinessProfile] issues one PATCH to
    [/<phone-number id>/whatsapp_business_profile] whose body holds every
    member of the caller's record with the caller's value, and
    [messaging_product: whatsapp] only as long as the caller's record has no
    member of that name; it returns [true] whenever the transport resolves
    the request, whatever the answer. *)
Theorem updateBusinessProfile_payload (env : Env) (profileData : Params) (s : ClientState) :
  let r := client_updateBusinessProfile env profileData s in
  exists payload,
    requests (world (snd r))
    = (requests (world s)
       ++ [Patch ("/" +:+ showStr (phoneNumberId (config (this s)))
                  +:+ "/whatsapp_business_profile") (JObj payload)])%list /\
    (forall k,
       lookupProp k payload
       = match lastProp k profileData with
         | Some v => Some v
         | None => if String.eqb k "messaging_product" then Some (JStr "whatsapp") else None
         end) /\
    (List.NoDup (map fst profileData) ->
     forall k v, lookupProp k profileData = Some v -> lookupProp k payload = Some v) /\
    (forall response,
       httpRequest env (length (requests (world s)))
         (Patch ("/" +:+ showStr (phoneNumberId (config (this s)))
                 +:+ "/whatsapp_business_profile") (JObj payload))
       = Resolved response ->
       fst r = Return (JBool true)).
Proof.
  intros r. subst r.
  unfold client_updateBusinessProfile, bind, tryCatch, enter, modifyState.
  cbn -[spread]. rewrite send_run. cbn -[spread].
  exists (spread [("messaging_product", JStr "whatsapp")] profileData).
  assert (Hlook : forall k,
            lookupProp k (spread [("messaging_product", JStr "whatsapp")] profileData)
            = match lastProp k profileData with
              | Some v => Some v
              | None => if String.eqb k "messaging_product"
                        then Some (JStr "whatsapp") else None
              end).
  { intros k. rewrite lookupProp_spread. reflexivity. }
  split; [|split; [exact Hlook|split]].
  - destruct (httpRequest env _ _) as [resp|e]; [reflexivity|].
    match goal with
    | |- context [catchApiError ?env0 ?msg e ?st] =>
        destruct (@catchApiError_state env0 JsVal msg e st) as (? & ->)
    end.
    reflexivity.
  - intros Hnd k v Hk. rewrite Hlook, (lastProp_unique k _ Hnd), Hk. reflexivity.
  - intros response ->. reflexivity.
Qed.

Lemma updateBusinessProfile_payload_witness :
  exists payload,
    requests (world (snd (client_updateBusinessProfile sampleEnv
                            [("about", JStr "Open 9-5"); ("messaging_product", JStr "sms")]
                            sampleState)))
    = [Patch "/15550001111/whatsapp_business_profile" (JObj payload)] /\
    lookupProp "messaging_product" payload = Some (JStr "sms") /\
    lookupProp "about" payload = Some (JStr "Open 9-5").
Proof.
  destruct (updateBusinessProfile_payload sampleEnv
              [("about", JStr "Open 9-5"); ("messaging_product", JStr "sms")] sampleState)
    as (payload & Hreq & _ & Hcaller & _).
  exists payload. split; [exact Hreq|].
  assert (Hnd : List.NoDup (map fst [("about", JStr "Open 9-5");
                                     ("messaging_product", JStr "sms")])).
  { simpl. repeat (apply List.NoDup_cons; [simpl; intuition discriminate|]).
    apply List.NoDup_nil. }
  split; apply (Hcaller Hnd); reflexivity.
Defined.

(** X16.  [markMessageAsRead] issues one POST to the messages endpoint with
    the status [read] and the id of the message; it returns [true] whenever
    the transport resolves the request, without looking at the answer, and
    the adapter, given a truthy [messageId] among its parameters, then
    returns [{success: true}]; when the request is rejected both throw, the
    adapter throwing what the client throws. *)
Theorem markMessageAsRead_outcomes (env : Env) (messageId : JsVal) (s : ClientState) :
  let r := client_markMessageAsRead env messageId s in
  let request :=
    Post ("/" +:+ showStr (phoneNumberId (config (this s))) +:+ "/messages")
         (JObj [("messaging_product", JStr "whatsapp");
                ("status", JStr "read");
                ("message_id", messageId)]) in
  requests (world (snd r)) = (requests (world s) ++ [request])%list /\
  (forall response,
     httpRequest env (length (requests (world s))) request = Resolved response ->
     fst r = Return (JBool true)) /\
  (forall e,
     httpRequest env (length (requests (world s))) request = Rejected e ->
     exists thrown, fst r = Throw thrown) /\
  (forall ps params,
     client ps = Some (this s) ->
     pluginWorld ps = world s ->
     param params "messageId" = messageId ->
     truthy messageId = true ->
     (forall response,
        httpRequest env (length (requests (world s))) request = Resolved response ->
        fst (markAsRead env params ps) = Return (JObj [("success", JBool true)])) /\
     (forall e,
        httpRequest env (length (requests (world s))) request = Rejected e ->
        exists thrown,
          fst r = Throw thrown /\
          fst (markAsRead env params ps) = Throw thrown /\
          requests (pluginWorld (snd (markAsRead env params ps)))
          = (requests (world s) ++ [request])%list)).
Proof.
  intros r request. subst r request.
  unfold client_markMessageAsRead, bind, tryCatch, enter, modifyState.
  cbn. rewrite send_run. cbn.
  split; [|split; [|split]].
  - destruct (httpRequest env _ _) as [resp|e]; [reflexivity|].
    match goal with
    | |- context [catchApiError ?env0 ?msg e ?st] =>
        destruct (@catchApiError_state env0 JsVal msg e st) as (? & ->)
    end.
    reflexivity.
  - intros response ->. reflexivity.
  - intros e ->.
    match goal with
    | |- context [catchApiError ?env0 ?msg e ?st] =>
        destruct (@catchApiError_state env0 JsVal msg e st) as (thrown & ->)
    end.
    now exists thrown.
  - intros ps params Hc Hworld Hp Htruthy.
    unfold markAsRead, missing. rewrite Hp, Htruthy. cbn [negb].
    unfold tryCatch, bind, withClient, rethrow. rewrite Hc.
    unfold client_markMessageAsRead, bind, tryCatch, enter, modifyState.
    cbn. rewrite send_run. cbn. rewrite Hworld.
    split.
    + intros response ->. reflexivity.
    + intros e ->.
      match goal with
      | |- context [catchApiError ?env0 ?msg e ?st] =>
          destruct (@catchApiError_state env0 JsVal msg e st) as (thrown & ->)
      end.
      exists thrown. repeat split.
Qed.

Lemma markMessageAsRead_outcomes_witness :
  let ps := snd (init badGatewayEnv samplePlugin) in
  fst (client_markMessageAsRead (steadyEnv {| status := 200; data := JNull |})
         (JStr "wamid.1") sampleState)
  = Return (JBool true) /\
  exists thrown,
    fst (client_markMessageAsRead badGatewayEnv (JStr "wamid.1") sampleState) = Throw thrown /\
    fst (markAsRead badGatewayEnv [("messageId", JStr "wamid.1"); ("note", JStr "seen")] ps)
    = Throw thrown.
Proof.
  intros ps. split.
  - destruct (markMessageAsRead_outcomes (steadyEnv {| status := 200; data := JNull |})
                (JStr "wamid.1") sampleState) as (_ & H & _).
    apply (H {| status := 200; data := JNull |}). reflexivity.
  - destruct (markMessageAsRead_outcomes badGatewayEnv (JStr "wamid.1") sampleState)
      as (_ & _ & _ & H).
    destruct (H ps [("messageId", JStr "wamid.1"); ("note", JStr "seen")]
                eq_refl eq_refl eq_refl eq_refl) as (_ & Hrej).
    destruct (Hrej badGatewayError eq_refl) as (thrown & Hclient & Hadapter & _).
    exists thrown. split; assumption.
Defined.

(** ** Validation by truthiness *)

Lemma allDigits_stripNonDigits (s : string) : allDigits (stripNonDigits s).
Proof.
  unfold allDigits. rewrite stripNonDigits_filter.
  apply List.Forall_forall. intros c Hc. apply filter_In in Hc. tauto.
Qed.

(** X17.  The handlers test their required parameters for truthiness: a
    required parameter that is present but falsy (an empty string, [0],
    [false], [null]) is rejected with the same error as a missing one, and
    nothing reaches the client.  The coordinates of a location are the
    exception, only [undefined] being rejected there, so that latitude [0]
    is accepted and the client method is entered.  The media handler also
    rejects a call that has neither a truthy [url] nor a truthy
    [filePath]. *)
Theorem falsy_required_parameter_rejected (env : Env) (params : Params) :
  (forall m p,
     In m getChatManifests ->
     In p (requiredNames m) ->
     p <> "latitude" -> p <> "longitude" ->
     truthy (param params p) = false ->
     exists msg,
       includes p msg = true /\
       forall s, handlerOf env m params s = (Throw (Error msg), s)) /\
  (truthy (param params "url") = false ->
   truthy (param params "filePath") = false ->
   forall s,
     sendMedia env params s
     = (Throw (Error "Missing required parameters: to, type, (url or filePath)"), s)) /\
  (forall s c,
     client s = Some c ->
     truthy (param params "to") = true ->
     isUndefined (param params "latitude") = false ->
     isUndefined (param params "longitude") = false ->
     calls (pluginWorld (snd (sendLocation env params s)))
     = (calls (pluginWorld s) ++ ["sendLocation"])%list).
Proof.
  split; [|split].
  - intros m p Hm Hp Hlat Hlong Hfalsy.
    assert (Hmiss : missing (param params p) = true)
      by (unfold missing; now rewrite Hfalsy).
    simpl in Hm.
    repeat (destruct Hm as [<-|Hm]; [simpl in Hp|]); try contradiction;
      repeat (destruct Hp as [<-|Hp]; [|]); try contradiction;
      try congruence;
      unfold handlerOf, dispatch; simpl;
      unfold sendMessage, sendTemplateMessage, sendMedia, sendInteractiveMessage,
        sendLocation, markAsRead, getContactInfo;
      rewrite Hmiss;
      (eexists; split;
       [| intros s;
          repeat match goal with
                 | |- context [missing ?v] => destruct (missing v); simpl
                 | |- context [isUndefined ?v] => destruct (isUndefined v); simpl
                 end;
          reflexivity]);
      vm_compute; reflexivity.
  - intros Hurl Hfile s. unfold sendMedia, missing. rewrite Hurl, Hfile.
    cbn [negb andb]. rewrite !orb_true_r. reflexivity.
  - intros s c Hc Hto Hlat Hlong. unfold sendLocation, missing.
    rewrite Hto, Hlat, Hlong. cbn [negb orb].
    unfold tryCatch, bind, withClient, rethrow. rewrite Hc.
    assert (Hcalls : forall st,
              calls (world (snd (client_sendLocation env params st)))
              = (calls (world st) ++ ["sendLocation"])%list).
    { intros st. unfold client_sendLocation, bind, tryCatch, enter, modifyState.
      destruct (param params "to"); try reflexivity.
      cbn -[setProp truthy]. rewrite send_run. cbn -[setProp truthy].
      settle; reflexivity. }
    specialize (Hcalls {| this := c; world := pluginWorld s |}).
    destruct (client_sendLocation env params _) as [[v|e] cs]; exact Hcalls.
Qed.

Lemma falsy_required_parameter_rejected_witness :
  (exists msg,
     includes "message" msg = true /\
     forall s, handlerOf sampleEnv (hd emptyManifest getChatManifests)
                 [("to", JStr "+15551234567"); ("message", JStr "")] s
               = (Throw (Error msg), s)) /\
  calls (pluginWorld (snd (sendLocation sampleEnv
                             [("to", JStr "+15551234567"); ("latitude", JNum 0);
                              ("longitude", JNum 0)]
                             (snd (init sampleEnv samplePlugin)))))
  = ["sendLocation"].
Proof.
  destruct (falsy_required_parameter_rejected sampleEnv
              [("to", JStr "+15551234567"); ("message", JStr "")]) as (Hfalsy & _).
  destruct (falsy_required_parameter_rejected sampleEnv
              [("to", JStr "+15551234567"); ("latitude", JNum 0); ("longitude", JNum 0)])
    as (_ & _ & Hloc).
  split.
  - apply Hfalsy; try discriminate; try reflexivity.
    + simpl. left. reflexivity.
    + simpl. right. left. reflexivity.
  - eapply Hloc; reflexivity.
Defined.

(** ** More on normalisation *)

Lemma stripNonDigits_length (s : string) :
  (String.length (stripNonDigits s) <= String.length s)%nat.
Proof.
  induction s as [|c rest IH]; simpl; [lia|].
  destruct (isDigit c); simpl; lia.
Qed.

(** X18.  On an input without a leading [+] the normalised number consists
    of digits only, is no longer than the input, and normalising it again
    changes nothing.  On an input with a leading [+] only that sign is
    removed: separators after it survive, so the result is all digits only
    if the rest of the input was. *)
Theorem formatPhoneNumber_without_plus (s : string) :
  (startsWithPlus s = false ->
   allDigits (formatPhoneNumber s) /\
   (String.length (formatPhoneNumber s) <= String.length s)%nat /\
   formatPhoneNumber (formatPhoneNumber s) = formatPhoneNumber s) /\
  (allDigits (formatPhoneNumber (String "+"%char s)) <-> allDigits s).
Proof.
  split.
  - intros H.
    assert (E : formatPhoneNumber s = stripNonDigits s)
      by (unfold formatPhoneNumber; now rewrite H).
    rewrite !E.
    split; [apply allDigits_stripNonDigits|]. split.
    + apply stripNonDigits_length.
    + unfold formatPhoneNumber.
      rewrite (allDigits_no_plus _ (allDigits_stripNonDigits s)).
      apply stripNonDigits_allDigits, allDigits_stripNonDigits.
  - reflexivity.
Qed.

Lemma formatPhoneNumber_without_plus_witness :
  formatPhoneNumber (formatPhoneNumber "1 (234) 567-890") = formatPhoneNumber "1 (234) 567-890".
Proof.
  destruct (formatPhoneNumber_without_plus "1 (234) 567-890") as (H & _).
  apply H. reflexivity.
Defined.

(** ** What a tool can throw *)

(** X19.  Whatever a tool built from a manifest throws is an [Error]
    instance: a thrown value that is not one is replaced by an [Error] whose
    message is [Error executing <method>: <value>]. *)
Theorem executeManifest_throws_errors (env : Env) (manifestName : string) (params : Params)
    (s : PluginState) :
  (forall e s', executeManifest env manifestName params s = (Throw e, s') ->
                instanceofError e = true) /\
  (forall c v shown s',
     client s = Some c ->
     dispatch env (removeFirst "whatsapp_" manifestName) params s = (Throw (OtherThrown v), s') ->
     toStringOpt env v = Some shown ->
     executeManifest env manifestName params s
     = (Throw (Error ("Error executing " +:+ removeFirst "whatsapp_" manifestName
                      +:+ ": " +:+ shown)), s')).
Proof.
  unfold executeManifest, bind, getState, tryCatch. split.
  - intros e s'. destruct (client s) as [c|]; [|intros [= <- _]; reflexivity].
    cbv zeta. destruct (dispatch env _ params s) as [[v|e0] s1]; [discriminate|].
    destruct (instanceofError e0) eqn:Hi.
    + intros [= <- _]. exact Hi.
    + destruct e0 as [m|m|r m|v]; try discriminate Hi.
      unfold thrownToString, template. destruct (toStringOpt env v); intros [= <- _]; reflexivity.
  - intros c v shown s' Hc Hd Hshown. rewrite Hc. cbv zeta. rewrite Hd.
    cbn [instanceofError]. unfold thrownToString, template. rewrite Hshown. reflexivity.
Qed.

Lemma executeManifest_throws_errors_witness :
  let env := {| httpRequest := fun _ _ => Rejected (OtherThrown (JStr "socket closed"));
                existsSync := fun _ => true;
                dateNow := fun n => 1000 * Z.of_nat n;
                processEnv := fun _ => None;
                stringToNumber := parseDecimal;
     unsafeNumberToString := decimal;
     unicodeToLowerCase := asciiToLowerCase |} in
  fst (executeManifest env "whatsapp_mark_as_read" [("messageId", JStr "wamid.1")]
         (snd (init env samplePlugin)))
  = Throw (Error "Error executing mark_as_read: socket closed").
Proof.
  intros env.
  destruct (executeManifest_throws_errors env "whatsapp_mark_as_read"
              [("messageId", JStr "wamid.1")] (snd (init env samplePlugin))) as (_ & H).
  erewrite H; reflexivity.
Defined.

(** ** Optional members of the envelopes *)

(** X20.  In the envelopes of template, interactive and location messages
    an optional member is present exactly when the caller's value is
    truthy (for the template components: a non-empty array), with the
    caller's value; the mandatory members ([action], [latitude],
    [longitude], template name and language) are always written, even when
    the caller's value is [undefined]. *)
Theorem optional_members_left_out (env : Env) (params : Params) (s : ClientState)
    (to : string) :
  param params "to" = JStr to ->
  let sent tool :=
    requests (world (snd (clientSend env tool params s))) in
  let url := "/" +:+ showStr (phoneNumberId (config (this s))) +:+ "/messages" in
  (wellTypedCall SendTemplate params = true ->
   exists payload template,
     sent SendTemplate = (requests (world s) ++ [Post url (JObj payload)])%list /\
     lookupProp "template" payload = Some (JObj template) /\
     lookupProp "name" template = Some (param params "templateName") /\
     lookupProp "language" template = Some (JObj [("code", param params "language")]) /\
     lookupProp "components" template
     = match param params "components" with
       | JArr (first :: rest) => Some (JArr (first :: rest))
       | _ => None
       end) /\
  (exists payload interactive,
     sent SendInteractive = (requests (world s) ++ [Post url (JObj payload)])%list /\
     lookupProp "interactive" payload = Some (JObj interactive) /\
     lookupProp "type" interactive = Some (param params "type") /\
     lookupProp "body" interactive = Some (param params "body") /\
     lookupProp "action" interactive = Some (param params "action") /\
     lookupProp "header" interactive
     = (if truthy (param params "header") then Some (param params "header") else None) /\
     lookupProp "footer" interactive
     = (if truthy (param params "footer") then Some (param params "footer") else None)) /\
  (exists payload location,
     sent SendLocationPin = (requests (world s) ++ [Post url (JObj payload)])%list /\
     lookupProp "location" payload = Some (JObj location) /\
     lookupProp "latitude" location = Some (param params "latitude") /\
     lookupProp "longitude" location = Some (param params "longitude") /\
     lookupProp "name" location
     = (if truthy (param params "name") then Some (param params "name") else None) /\
     lookupProp "address" location
     = (if truthy (param params "address") then Some (param params "address") else None)).
Proof.
  intros Hto sent url. subst sent url. split; [|split].
  - unfold wellTypedCall. rewrite Hto. cbn [isString andb]. intros Hwt.
    unfold clientSend, client_sendTemplateMessage, bind, tryCatch, enter, modifyState.
    rewrite Hto.
    destruct (param params "components") as [| | | | | |items|]; try discriminate Hwt.
    + cbn. rewrite send_run. cbn -[truthy].
      eexists _, _. split; [settle; reflexivity|]. repeat split.
    + cbn. rewrite send_run. cbn -[truthy].
      eexists _, _. split; [settle; reflexivity|]. repeat split.
    + destruct items as [|first rest];
        cbn; rewrite send_run; cbn -[truthy];
        (eexists _, _; split; [settle; reflexivity|]; repeat split).
  - unfold clientSend, client_sendInteractiveMessage, bind, tryCatch, enter, modifyState.
    rewrite Hto. cbn -[truthy]. rewrite send_run. cbn -[truthy].
    destruct (truthy (param params "header")), (truthy (param params "footer"));
      (eexists _, _; split; [settle; reflexivity|]; repeat split).
  - unfold clientSend, client_sendLocation, bind, tryCatch, enter, modifyState.
    rewrite Hto. cbn -[truthy]. rewrite send_run. cbn -[truthy].
    destruct (truthy (param params "name")), (truthy (param params "address"));
      (eexists _, _; split; [settle; reflexivity|]; repeat split).
Qed.

Lemma optional_members_left_out_witness :
  exists payload location,
    requests (world (snd (clientSend sampleEnv SendLocationPin
                            [("to", JStr "+15551234567"); ("latitude", JNum 41);
                             ("longitude", JNum 29); ("name", JStr "")] sampleState)))
    = [Post "/15550001111/messages" (JObj payload)] /\
    lookupProp "location" payload = Some (JObj location) /\
    lookupProp "name" location = None /\
    lookupProp "latitude" location = Some (JNum 41).
Proof.
  destruct (optional_members_left_out sampleEnv
              [("to", JStr "+15551234567"); ("latitude", JNum 41);
               ("longitude", JNum 29); ("name", JStr "")]
              sampleState "+15551234567" eq_refl)
    as (_ & _ & (payload & location & Hreq & Hloc & Hlat & _ & Hname & _)).
  exists payload, location. repeat split; assumption.
Defined.

(** X21.  In a media message sent by URL the media object holds the
    caption exactly when the caller's caption is truthy, and the file name
    exactly when the lower-cased type is [document] and the caller's file
    name is truthy; for any other type a file name is dropped.  The media
    object is stored under the lower-cased type, so the four members of the
    envelope are intact as long as the type is not one of their names.  The
    key [__proto__] is the exception: nothing is stored, the payload is the
    bare envelope, and neither link, caption nor file name is sent. *)
Theorem sendMedia_caption_and_filename (env : Env) (options : Params) (s : ClientState)
    (to type : string) :
  param options "to" = JStr to ->
  param options "type" = JStr type ->
  truthy (param options "filePath") = false ->
  truthy (param options "url") = true ->
  exists payload media,
    requests (world (snd (client_sendMedia env options s)))
    = (requests (world s)
       ++ [Post ("/" +:+ showStr (phoneNumberId (config (this s))) +:+ "/messages")
                (JObj payload)])%list /\
    (toLowerCase env type <> "__proto__" ->
     lookupProp (toLowerCase env type) payload = Some (JObj media)) /\
    (toLowerCase env type = "__proto__" ->
     payload = mediaEnvelope (formatPhoneNumber to) "__proto__") /\
    lookupProp "caption" media
    = (if truthy (param options "caption") then Some (param options "caption") else None) /\
    lookupProp "filename" media
    = (if String.eqb (toLowerCase env type) "document" && truthy (param options "filename")
       then Some (param options "filename") else None) /\
    (~ In (toLowerCase env type) envelopeNames ->
     lookupProp "messaging_product" payload = Some (JStr "whatsapp") /\
     lookupProp "recipient_type" payload = Some (JStr "individual") /\
     lookupProp "to" payload = Some (JStr (formatPhoneNumber to)) /\
     lookupProp "type" payload = Some (JStr (toLowerCase env type))).
Proof.
  intros Hto Htype Hfile Hurl.
  unfold client_sendMedia, bind, tryCatch, enter, modifyState.
  rewrite Hto, Htype, Hfile. cbn -[setProp truthy].
  change (truthy JUndefined) with false. rewrite Hurl.
  cbn -[setProp truthy]. rewrite send_run. cbn -[setProp truthy].
  match goal with |- context [assignProp (toLowerCase env type) ?m _] => set (media := m) end.
  assert (Hmedia : exists props, media = JObj props /\
            lookupProp "caption" props
            = (if truthy (param options "caption")
               then Some (param options "caption") else None) /\
            lookupProp "filename" props
            = (if String.eqb (toLowerCase env type) "document"
                  && truthy (param options "filename")
               then Some (param options "filename") else None)).
  { subst media.
    destruct (_ && truthy (param options "filename")), (truthy (param options "caption"));
      simpl; eauto. }
  destruct Hmedia as (props & Hprops & Hcaption & Hfilename).
  match goal with |- context [Post ?u (JObj ?p)] => set (payload := p) end.
  exists payload, props. split; [settle; reflexivity|].
  split; [intros Hk; subst payload; rewrite <- Hprops; now apply assignProp_member|].
  split; [intros Hk; subst payload; rewrite assignProp_proto by exact Hk; now rewrite Hk|].
  split; [exact Hcaption|]. split; [exact Hfilename|].
  intros Hnames. unfold envelopeNames in Hnames. simpl in Hnames.
  subst payload. unfold assignProp.
  destruct (String.eqb (toLowerCase env type) "__proto__"); [repeat split|].
  rewrite !lookupProp_setProp_ne by (intros E; apply Hnames; rewrite E; tauto).
  repeat split.
Qed.

Lemma sendMedia_caption_and_filename_witness :
  exists payload media,
    requests (world (snd (client_sendMedia sampleEnv
                            [("to", JStr "+15551234567"); ("type", JStr "IMAGE");
                             ("url", JStr "https://example.org/cat.png");
                             ("filename", JStr "cat.png")] sampleState)))
    = [Post "/15550001111/messages" (JObj payload)] /\
    lookupProp "image" payload = Some (JObj media) /\
    lookupProp "filename" media = None.
Proof.
  destruct (sendMedia_caption_and_filename sampleEnv
              [("to", JStr "+15551234567"); ("type", JStr "IMAGE");
               ("url", JStr "https://example.org/cat.png"); ("filename", JStr "cat.png")]
              sampleState "+15551234567" "IMAGE" eq_refl eq_refl eq_refl eq_refl)
    as (payload & media & Hreq & Hmedia & _ & _ & Hfilename & _).
  exists payload, media. split; [exact Hreq|]. split; [|exact Hfilename].
  apply Hmedia. discriminate.
Defined.

(** ** Rejected requests *)

(** X22.  When the transport rejects the request of a send method, the
    method throws what [handleApiError] makes of the rejection under the
    method's own prefix; a rejection that carries no response (the server
    was not reached) comes out as it went in. *)
Theorem rejected_send_outcome (env : Env) (tool : SendTool) (params : Params)
    (s : ClientState) (e : Thrown) :
  wellTypedCall tool params = true ->
  (forall req, httpRequest env (length (requests (world s))) req = Rejected e) ->
  exists thrown st,
    handleApiError env (errorPrefix tool) e st = (Throw thrown, st) /\
    fst (clientSend env tool params s) = Throw thrown /\
    (hasResponse e = false -> thrown = e).
Proof.
  unfold wellTypedCall. intros Hwt Hnet.
  apply andb_prop in Hwt as [Hto Hwt].
  destruct (param params "to") as [| | | | |to| |] eqn:Eto; try discriminate Hto.
  assert (Hfinish : forall st,
            exists thrown,
              handleApiError env (errorPrefix tool) e st = (Throw thrown, st) /\
              fst (@catchApiError env JsVal (errorPrefix tool) e st) = Throw thrown /\
              (hasResponse e = false -> thrown = e)).
  { intros st. destruct (handleApiError_throws env (errorPrefix tool) e st) as (thrown & Hrun & Hshape).
    exists thrown. split; [exact Hrun|]. split.
    - unfold catchApiError, bind. now rewrite Hrun.
    - intros Hno. destruct e as [m|m|[r|] m|v]; try exact Hshape. discriminate Hno. }
  destruct tool; unfold clientSend;
    unfold client_sendMessage, client_sendTemplateMessage, client_sendMedia,
      client_sendInteractiveMessage, client_sendLocation,
      bind, tryCatch, enter, modifyState;
    rewrite ?Eto; cbn [errorPrefix] in Hfinish.
  - cbn -[setProp truthy]. rewrite send_run. cbn -[setProp truthy]. rewrite Hnet.
    match goal with |- context [catchApiError _ _ e ?st] =>
      destruct (Hfinish st) as (thrown & ? & ? & ?); exists thrown, st end.
    repeat split; assumption.
  - destruct (param params "components") as [| | | | | |items|]; try discriminate Hwt;
      cbn -[setProp]; rewrite send_run; cbn -[setProp truthy]; rewrite Hnet;
      match goal with |- context [catchApiError _ _ e ?st] =>
        destruct (Hfinish st) as (thrown & ? & ? & ?); exists thrown, st end;
      repeat split; assumption.
  - apply andb_prop in Hwt as [Hwt Hurl]. apply andb_prop in Hwt as [Htype Hfile].
    apply negb_true_iff in Hfile.
    destruct (param params "type") as [| | | | |type| |]; try discriminate Htype.
    rewrite Hfile. cbn -[setProp truthy]. change (truthy JUndefined) with false.
    rewrite Hurl. cbn -[setProp truthy]. rewrite send_run. cbn -[setProp truthy].
    rewrite Hnet.
    match goal with |- context [catchApiError _ _ e ?st] =>
      destruct (Hfinish st) as (thrown & ? & ? & ?); exists thrown, st end.
    repeat split; assumption.
  - cbn -[setProp truthy]. rewrite send_run. cbn -[setProp truthy]. rewrite Hnet.
    match goal with |- context [catchApiError _ _ e ?st] =>
      destruct (Hfinish st) as (thrown & ? & ? & ?); exists thrown, st end.
    repeat split; assumption.
  - cbn -[setProp truthy]. rewrite send_run. cbn -[setProp truthy]. rewrite Hnet.
    match goal with |- context [catchApiError _ _ e ?st] =>
      destruct (Hfinish st) as (thrown & ? & ? & ?); exists thrown, st end.
    repeat split; assumption.
Qed.

Lemma rejected_send_outcome_witness :
  fst (clientSend badGatewayEnv SendTemplate
         [("to", JStr "+15551234567"); ("templateName", JStr "hello_world");
          ("language", JStr "en_US")] sampleState)
  = Throw (Error "Error sending template message: HTTP 502").
Proof.
  destruct (rejected_send_outcome badGatewayEnv SendTemplate
              [("to", JStr "+15551234567"); ("templateName", JStr "hello_world");
               ("language", JStr "en_US")] sampleState badGatewayError
              eq_refl (fun _ => eq_refl))
    as (thrown & st & Hrun & Hthrown & _).
  rewrite Hthrown. f_equal.
  assert (E : fst (handleApiError badGatewayEnv "Error sending template message" badGatewayError st)
              = Throw (Error "Error sending template message: HTTP 502")) by reflexivity.
  cbn [errorPrefix] in Hrun. rewrite Hrun in E. now injection E.
Defined.

(** ** The contact tool and repeated initialisation *)

(** What a lookup does on a consistent cache (shared by the statements
    on contacts). *)
Lemma contacts_placeholder_lookup (env : Env) (phoneNumber : string) (s : ClientState) :
  contactsConsistent (this s) ->
  let r := client_getContactInfo env (JStr phoneNumber) s in
  fst r = Return (placeholderContact (formatPhoneNumber phoneNumber)) /\
  requests (world (snd r)) = requests (world s) /\
  contactsConsistent (this (snd r)).
Proof.
  intros Hs r. subst r.
  split; [|split; [apply (client_getContactInfo_noRequest env (JStr phoneNumber) s)|]].
  - destruct (contactCache (this s) !! contactKey phoneNumber) as [entry|] eqn:Hlook.
    + destruct (isFresh (dateNow env (ticks (world s)) - timestamp entry)
                  (cacheContactSeconds (config (this s)))) eqn:Hf.
      * destruct (client_getContactInfo_hit env phoneNumber s entry Hlook Hf) as (-> & _).
        destruct (Hs _ _ Hlook) as [Hk Hd]. unfold contactKey in Hk.
        apply append_inj_l in Hk. rewrite Hd, <- Hk. reflexivity.
      * now destruct (client_getContactInfo_stale env phoneNumber s entry Hlook Hf) as (-> & _).
    + now destruct (client_getContactInfo_miss env phoneNumber s Hlook) as (-> & _).
  - destruct (contactCache (this s) !! contactKey phoneNumber) as [entry|] eqn:Hlook.
    + destruct (isFresh (dateNow env (ticks (world s)) - timestamp entry)
                  (cacheContactSeconds (config (this s)))) eqn:Hf.
      * destruct (client_getContactInfo_hit env phoneNumber s entry Hlook Hf) as (_ & -> & _).
        exact Hs.
      * destruct (client_getContactInfo_stale env phoneNumber s entry Hlook Hf) as (_ & Hc & _).
        unfold contactsConsistent. rewrite Hc.
        apply (contactsConsistent_insert (this s)). exact Hs.
    + destruct (client_getContactInfo_miss env phoneNumber s Hlook) as (_ & Hc & _).
      unfold contactsConsistent. rewrite Hc.
      apply (contactsConsistent_insert (this s)). exact Hs.
Qed.

Lemma mapSet_same {V} (k : string) (v : V) (m : JsMap V) :
  mapGet k m = Some v -> mapSet k v m = m.
Proof.
  induction m as [|[k0 v0] rest IH]; simpl; [discriminate|].
  destruct (String.eqb_spec k k0) as [->|Hne].
  - now intros [= ->].
  - intros H. now rewrite IH.
Qed.

Lemma enterManifests_again (l : list Manifest) (m : JsMap Plugin) :
  (forall x, In x l -> mapGet (manifest_name x) m = Some (pluginOfManifest x)) ->
  fold_left (fun acc manifest =>
               mapSet (manifest_name manifest) (pluginOfManifest manifest) acc) l m = m.
Proof.
  induction l as [|x l IH]; intros H; simpl; [reflexivity|].
  rewrite (mapSet_same _ _ _ (H x (or_introl eq_refl))).
  apply IH. intros y Hy. apply H. now right.
Qed.

Lemma catalogue_entered (m : JsMap Plugin) (x : Manifest) :
  In x getChatManifests ->
  mapGet (manifest_name x)
    (fold_left (fun acc manifest =>
                  mapSet (manifest_name manifest) (pluginOfManifest manifest) acc)
               getChatManifests m)
  = Some (pluginOfManifest x).
Proof.
  intros Hx. rewrite mapGet_enterManifests.
  simpl in Hx. repeat (destruct Hx as [<-|Hx]; [reflexivity|]). contradiction.
Qed.

(** X23.  Through the adapter, a contact lookup with a non-empty string on
    a plugin whose client holds a consistent contact cache returns the
    object [{id, name, isBusiness, profilePictureUrl}] with the normalised
    number as [id] and the three other members [undefined], and issues no
    request; the cache of the plugin's client stays consistent. *)
Theorem getContactInfo_tool_result (env : Env) (params : Params) (ps : PluginState)
    (c : Client) (phoneNumber : string) :
  client ps = Some c ->
  contactsConsistent c ->
  param params "phoneNumber" = JStr phoneNumber ->
  phoneNumber <> "" ->
  let r := getContactInfo env params ps in
  fst r = Return (JObj [("id", JStr (formatPhoneNumber phoneNumber));
                        ("name", JUndefined);
                        ("isBusiness", JUndefined);
                        ("profilePictureUrl", JUndefined)]) /\
  requests (pluginWorld (snd r)) = requests (pluginWorld ps) /\
  exists c', client (snd r) = Some c' /\ contactsConsistent c'.
Proof.
  intros Hc Hcons Hp Hne r. subst r. unfold getContactInfo, missing. rewrite Hp.
  cbn [truthy]. destruct (String.eqb_spec phoneNumber ""); [contradiction|]. cbn [negb].
  unfold tryCatch, bind, withClient, rethrow. rewrite Hc.
  destruct (contacts_placeholder_lookup env phoneNumber {| this := c; world := pluginWorld ps |}
              Hcons) as (Hres & Hreq & Hkeep).
  destruct (client_getContactInfo env (JStr phoneNumber) _) as [[contact|e] cs];
    cbn [fst snd] in *; [|discriminate Hres].
  injection Hres as ->. cbn [fst snd client pluginWorld].
  split; [reflexivity|]. split; [exact Hreq|]. exists (this cs). split; [reflexivity|exact Hkeep].
Qed.

Lemma getContactInfo_tool_result_witness :
  exists c s', init sampleEnv samplePlugin = (Return tt, s') /\ client s' = Some c /\
  fst (getContactInfo sampleEnv [("phoneNumber", JStr "0151 123-45")] s')
  = Return (JObj [("id", JStr "015112345"); ("name", JUndefined);
                  ("isBusiness", JUndefined); ("profilePictureUrl", JUndefined)]).
Proof.
  destruct (init sampleEnv samplePlugin) as [o s'] eqn:Hinit.
  assert (Ho : o = Return tt) by (apply (f_equal fst) in Hinit; exact (eq_sym Hinit)).
  subst o.
  assert (Hclient : exists c, client s' = Some c /\ contactCache c = ∅).
  { apply (f_equal snd) in Hinit. cbn [snd] in Hinit. subst s'. eexists. split; reflexivity. }
  destruct Hclient as (c & Hc & Hempty).
  exists c, s'. split; [reflexivity|]. split; [exact Hc|].
  apply (getContactInfo_tool_result sampleEnv _ s' c "0151 123-45" Hc).
  - intros k entry. rewrite Hempty, lookup_empty. discriminate.
  - reflexivity.
  - discriminate.
Defined.

(** X24.  Entering the catalogue twice is the same as entering it once: a
    second [initializeTools] leaves the tool map and the exposed list as the
    first one made them, so repeating [init] neither duplicates nor reorders
    tools. *)
Theorem initializeTools_twice (s : PluginState) :
  let s1 := snd (initializeTools s) in
  let s2 := snd (initializeTools s1) in
  tools s2 = tools s1 /\ config_tools s2 = config_tools s1 /\
  (forall env s' s'',
     init env s = (Return tt, s') -> init env s' = (Return tt, s'') ->
     tools s'' = tools s' /\ config_tools s'' = config_tools s').
Proof.
  intros s1 s2.
  assert (Htools : forall st, tools (snd (initializeTools (snd (initializeTools st))))
                              = tools (snd (initializeTools st))).
  { intros st. unfold initializeTools, modifyState.
    cbn [snd tools setTools setConfigTools].
    apply enterManifests_again. intros x Hx. apply catalogue_entered. exact Hx. }
  assert (Hconfig : forall st, config_tools (snd (initializeTools st))
                               = mapValues (tools (snd (initializeTools st))))
    by reflexivity.
  split; [apply Htools|]. split.
  - subst s1 s2. rewrite !Hconfig. now rewrite Htools.
  - intros env s' s'' H1 H2.
    assert (Hinit : forall a b, init env a = (Return tt, b) ->
              tools b = tools (snd (initializeTools a)) /\
              config_tools b = config_tools (snd (initializeTools a))).
    { intros a b. unfold init, tryCatch, bind, getState.
      destruct (newWhatsAppClient env (Some (whatsAppConfig a))) as [c0|e0];
        [|cbn; destruct (thrownToString env e0 a) as [[x|y] z]; discriminate].
      cbn [modifyState]. destruct (negb (isConfigured c0)); [discriminate|].
      intros [= <-]. split; reflexivity. }
    destruct (Hinit _ _ H1) as [Ht1 Hc1]. destruct (Hinit _ _ H2) as [Ht2 Hc2].
    assert (Hsame : tools (snd (initializeTools s')) = tools s').
    { unfold initializeTools, modifyState. cbn [snd tools setTools setConfigTools].
      rewrite Ht1. apply (Htools s). }
    split.
    + now rewrite Ht2.
    + rewrite Hc2, Hc1, !Hconfig. now rewrite Hsame, Ht1.
Qed.

Lemma initializeTools_twice_witness :
  tools (snd (init sampleEnv (snd (init sampleEnv samplePlugin))))
  = tools (snd (init sampleEnv samplePlugin)).
Proof.
  destruct (initializeTools_twice samplePlugin) as (_ & _ & H).
  apply (H sampleEnv (snd (init sampleEnv samplePlugin))
           (snd (init sampleEnv (snd (init sampleEnv samplePlugin))))); reflexivity.
Defined.

(** ** Resolving the configuration *)

Lemma orStr_same (a : option string) : orStr a a = a.
Proof. unfold orStr. now destruct (strTruthy a). Qed.

(** X25.  How the client's constructor resolves its configuration, member
    by member.  A truthy value of the caller wins over the environment; a
    falsy one (an absent or empty string, a number that is [0] or [NaN]) is
    replaced by the environment variable of the member or, for the API
    version and the three numbers, by the default when that variable is
    unset or empty, so the constructor's argument cannot set a time-to-live
    of [0].  The resolved API version is never empty.  No configuration at
    all resolves like one without members.  A plugin built without a
    configuration copies four variables of the environment, and its client
    resolves to the same configuration as a client built without one. *)
Theorem resolveConfig_precedence (env : Env) (cfg : WhatsAppConfig) :
  let resolved := resolveConfig env (Some cfg) in
  let fromEnv (key fallback : string) : JsNumber :=
    stringToNumber env (if strTruthy (processEnv env key)
                        then default fallback (processEnv env key) else fallback) in
  apiVersion resolved
  = (if strTruthy (apiVersion cfg) then apiVersion cfg
     else if strTruthy (processEnv env "WHATSAPP_API_VERSION")
          then processEnv env "WHATSAPP_API_VERSION" else Some "v17.0") /\
  apiToken resolved
  = (if strTruthy (apiToken cfg) then apiToken cfg
     else processEnv env "WHATSAPP_API_TOKEN") /\
  phoneNumberId resolved
  = (if strTruthy (phoneNumberId cfg) then phoneNumberId cfg
     else processEnv env "WHATSAPP_PHONE_NUMBER_ID") /\
  businessAccountId resolved
  = (if strTruthy (businessAccountId cfg) then businessAccountId cfg
     else processEnv env "WHATSAPP_BUSINESS_ACCOUNT_ID") /\
  cacheMessageSeconds resolved
  = (if numTruthy (cacheMessageSeconds cfg) then cacheMessageSeconds cfg
     else Some (fromEnv "CACHE_MESSAGE_SECONDS" "300")) /\
  cacheContactSeconds resolved
  = (if numTruthy (cacheContactSeconds cfg) then cacheContactSeconds cfg
     else Some (fromEnv "CACHE_CONTACT_SECONDS" "3600")) /\
  requestTimeout resolved
  = (if numTruthy (requestTimeout cfg) then requestTimeout cfg
     else Some (fromEnv "DEFAULT_REQUEST_TIMEOUT" "30000")) /\
  strTruthy (apiVersion resolved) = true /\
  resolveConfig env None
  = resolveConfig env (Some {| apiVersion := None; apiToken := None; phoneNumberId := None;
                               businessAccountId := None; cacheMessageSeconds := None;
                               cacheContactSeconds := None; requestTimeout := None |}) /\
  (forall w,
     whatsAppConfig (newWhatsAppPlugin env None w)
     = {| apiVersion := processEnv env "WHATSAPP_API_VERSION";
          apiToken := processEnv env "WHATSAPP_API_TOKEN";
          phoneNumberId := processEnv env "WHATSAPP_PHONE_NUMBER_ID";
          businessAccountId := processEnv env "WHATSAPP_BUSINESS_ACCOUNT_ID";
          cacheMessageSeconds := None;
          cacheContactSeconds := None;
          requestTimeout := None |} /\
     resolveConfig env (Some (whatsAppConfig (newWhatsAppPlugin env None w)))
     = resolveConfig env None) /\
  (forall c w, whatsAppConfig (newWhatsAppPlugin env (Some c) w) = c).
Proof.
  intros resolved fromEnv. subst resolved fromEnv. unfold resolveConfig.
  cbn [apiVersion apiToken phoneNumberId businessAccountId cacheMessageSeconds
       cacheContactSeconds requestTimeout].
  assert (Hnum : forall explicit key fallback,
            orNum explicit
              (stringToNumber env (default fallback (orStr (processEnv env key) (Some fallback))))
            = (if numTruthy explicit then explicit
               else Some (stringToNumber env
                            (if strTruthy (processEnv env key)
                             then default fallback (processEnv env key) else fallback)))).
  { intros explicit key fallback. unfold orNum, orStr.
    destruct (numTruthy explicit); [reflexivity|].
    now destruct (strTruthy (processEnv env key)). }
  split.
  { unfold orStr. destruct (strTruthy (apiVersion cfg)) eqn:Ha; [now rewrite Ha|].
    now destruct (strTruthy (processEnv env "WHATSAPP_API_VERSION")) eqn:He; rewrite ?He. }
  split; [reflexivity|]. split; [reflexivity|]. split; [reflexivity|].
  split; [apply Hnum|]. split; [apply Hnum|]. split; [apply Hnum|].
  split.
  { unfold orStr at 1.
    destruct (strTruthy (orStr (apiVersion cfg) (processEnv env "WHATSAPP_API_VERSION")))
      eqn:H; [exact H|reflexivity]. }
  split; [reflexivity|]. split; [|reflexivity].
  intros w. split; [reflexivity|].
  unfold newWhatsAppPlugin, initializeTools, modifyState.
  cbn [snd whatsAppConfig setTools setConfigTools apiVersion apiToken phoneNumberId
       businessAccountId cacheMessageSeconds cacheContactSeconds requestTimeout].
  rewrite !orStr_same. reflexivity.
Qed.

Lemma resolveConfig_precedence_witness :
  let cfg := {| apiVersion := None; apiToken := Some "token"; phoneNumberId := Some "1";
                businessAccountId := Some ""; cacheMessageSeconds := Some (Num 60);
                cacheContactSeconds := Some (Num 0); requestTimeout := Some NaN |} in
  let resolved := resolveConfig sampleEnv (Some cfg) in
  apiVersion resolved = Some "v17.0" /\
  apiToken resolved = Some "token" /\
  businessAccountId resolved = None /\
  cacheMessageSeconds resolved = Some (Num 60) /\
  cacheContactSeconds resolved = Some (Num 3600) /\
  requestTimeout resolved = Some (Num 30000).
Proof.
  intros cfg resolved.
  destruct (resolveConfig_precedence sampleEnv cfg)
    as (H1 & H2 & H3 & H4 & H5 & H6 & H7 & _).
  split; [exact H1|]. split; [exact H2|]. split; [exact H4|]. split; [exact H5|].
  split; [exact H6 | exact H7].
Defined.
